(** * Scoring and rebalancing engines of the workforce-productivity backend

    A shallow embedding of the decision logic in
    [backend/app/services]: the burnout risk engine, the effort
    normalisation of the priority engine, the team equity engine with
    its redistribution loop, and the manager recognition of
    achievements.

    Conventions of the embedding.
    - Python [float] values are exact rationals ([Q]); the literals of
      the source are written as they stand ([0.3] is [3 # 10]).  The
      rounding of binary64 arithmetic is outside that model.  Where a
      property turns on a rounding, the function is embedded a second
      time over the binary64 numbers of the kernel ([Binary64]).
    - The SQLAlchemy session is a record of tables, each a list of rows
      in storage order.  A query is a [filter] over the table,
      [.first()] is the head of the filtered list.  Functions that
      write take the database and return the new one.
    - A Python exception is the [Raise] case of [result].
    - [date.today()] is an argument ([today]); dates are day numbers.
    - The constraints of the schema (foreign keys, unique primary keys)
      are not enforced by the tables; where a property needs one, it
      is a hypothesis.
    - The database engine is the one [DATABASE_URL] names.  It is an
      argument ([Engine]) of the one query whose outcome depends on
      it, the search for a transferable task. *)

From Stdlib Require Import QArith Qminmax ZArith List String DecimalString
  Bool Lia Lqa.
From Stdlib Require Import Sorted Permutation Qround.
From Stdlib Require Floats Uint63.
Import ListNotations.
Local Open Scope Q_scope.

(** ** Python values *)

Definition float := Q.
Definition UUID := string.
Definition Date := Z.
Definition datetime := Z.
Bind Scope Q_scope with float.
Bind Scope string_scope with UUID.
Bind Scope Z_scope with Date datetime.

Inductive exn : Type :=
| ValueError (msg : string)
| AttributeError
| IndexError
| ZeroDivisionError
| ValidationError
| ProgrammingError.

Inductive result (A : Type) : Type :=
| Ok (a : A)
| Raise (e : exn).
Arguments Ok {A} a.
Arguments Raise {A} e.

Definition bind {A B : Type} (m : result A) (k : A -> result B) : result B :=
  match m with
  | Ok a => k a
  | Raise e => Raise e
  end.

Notation "x <- m ;; k" := (bind m (fun x => k))
  (at level 61, m at next level, right associativity).

Fixpoint mapM {A B : Type} (f : A -> result B) (l : list A) : result (list B) :=
  match l with
  | [] => Ok []
  | a :: l' => b <- f a ;; bs <- mapM f l' ;; Ok (b :: bs)
  end.

Definition Qleb (x y : Q) : bool := Qle_bool x y.
Definition Qltb (x y : Q) : bool := negb (Qle_bool y x).
Definition Qgeb (x y : Q) : bool := Qle_bool y x.
Definition Qgtb (x y : Q) : bool := negb (Qle_bool x y).

Infix "<=?" := Qleb (at level 70, no associativity) : Q_scope.
Infix "<?" := Qltb (at level 70, no associativity) : Q_scope.
Infix ">=?" := Qgeb (at level 70, no associativity) : Q_scope.
Infix ">?" := Qgtb (at level 70, no associativity) : Q_scope.

(** [x or d] on an optional float: [None] and [0.0] are both falsy. *)
Definition or_float (x : option float) (d : float) : float :=
  match x with
  | Some v => if Qeq_bool v 0 then d else v
  | None => d
  end.

(** [sum(xs)]: a left fold starting from the integer [0]. *)
Definition py_sum (xs : list float) : float := fold_left Qplus xs 0.

Definition len {A : Type} (xs : list A) : float :=
  inject_Z (Z.of_nat (List.length xs)).

(** SQL [AVG] over the non-null values of a column: [NULL] when there
    is none. *)
Definition sql_avg (xs : list float) : option float :=
  match xs with
  | [] => None
  | _ => Some (py_sum xs / len xs)
  end.

Fixpoint non_null {A : Type} (xs : list (option A)) : list A :=
  match xs with
  | [] => []
  | Some a :: xs' => a :: non_null xs'
  | None :: xs' => non_null xs'
  end.

(** Stable insertion sort by a rational key, ascending or (as
    [sort(reverse=True)] does) descending with ties in input order. *)
Section Sorting.
Context {A : Type} (key : A -> Q).

Fixpoint insert_asc (x : A) (l : list A) : list A :=
  match l with
  | [] => [x]
  | y :: l' => if key x <=? key y then x :: l else y :: insert_asc x l'
  end.

Fixpoint insert_desc (x : A) (l : list A) : list A :=
  match l with
  | [] => [x]
  | y :: l' => if key y <=? key x then x :: l else y :: insert_desc x l'
  end.

Definition sort_asc (l : list A) : list A := fold_right insert_asc [] l.
Definition sort_desc (l : list A) : list A := fold_right insert_desc [] l.
End Sorting.

(** [list.sort] with a key that is not a single number: a stable
    insertion sort by the order [leb] of the keys. *)
Section SortingBy.
Context {A : Type} (leb : A -> A -> bool).

Fixpoint insert_by (x : A) (l : list A) : list A :=
  match l with
  | [] => [x]
  | y :: l' => if leb x y then x :: l else y :: insert_by x l'
  end.

Definition sort_by (l : list A) : list A := fold_right insert_by [] l.
End SortingBy.

(** [range(a, b)] *)
Definition range (a b : Z) : list Z :=
  map (fun i => (a + Z.of_nat i)%Z) (seq 0 (Z.to_nat (b - a))).

(** ** Database models *)

Module Team.
(** Modelled from the spec: the primary key [id] comes from
    [BaseModel] in [models/base.py], which is not part of the
    sources at hand; the spec's data model gives every entity an
    [id]. *)
Record t : Type := mk { id : UUID; name : string }.
End Team.

Module Employee.
Record t : Type := mk {
  id : UUID;
  name : string;
  team_id : option UUID;
  productivity_periods : list (string * float)
}.
End Employee.

Inductive TaskStatus : Type :=
| PENDING | IN_PROGRESS | COMPLETED | BLOCKED | CANCELLED.

Definition TaskStatus_eqb (a b : TaskStatus) : bool :=
  match a, b with
  | PENDING, PENDING | IN_PROGRESS, IN_PROGRESS | COMPLETED, COMPLETED
  | BLOCKED, BLOCKED | CANCELLED, CANCELLED => true
  | _, _ => false
  end.

Module Task.
Record t : Type := mk {
  id : UUID;
  title : string;
  assigned_to : option UUID;
  urgency : Z;
  deadline : option datetime;
  estimated_effort : option float;
  status : TaskStatus;
  priority_score : option float;
  dependencies : list UUID
}.

Definition set_assigned_to (v : option UUID) (x : t) : t :=
  mk (id x) (title x) v (urgency x) (deadline x) (estimated_effort x)
     (status x) (priority_score x) (dependencies x).

Definition set_priority_score (v : option float) (x : t) : t :=
  mk (id x) (title x) (assigned_to x) (urgency x) (deadline x)
     (estimated_effort x) (status x) v (dependencies x).
End Task.

Module BurnoutMetric.
Record t : Type := mk {
  employee_id : UUID;
  date : Date;
  hours_worked : float;
  breaks_taken : Z;
  cognitive_load : float;
  social_interactions : Z;
  task_completion_rate : float;
  sentiment_score : option float;
  risk_score : option float
}.

Definition set_hours_worked (v : float) (x : t) : t :=
  mk (employee_id x) (date x) v (breaks_taken x) (cognitive_load x)
     (social_interactions x) (task_completion_rate x) (sentiment_score x)
     (risk_score x).
Definition set_breaks_taken (v : Z) (x : t) : t :=
  mk (employee_id x) (date x) (hours_worked x) v (cognitive_load x)
     (social_interactions x) (task_completion_rate x) (sentiment_score x)
     (risk_score x).
Definition set_sentiment_score (v : option float) (x : t) : t :=
  mk (employee_id x) (date x) (hours_worked x) (breaks_taken x)
     (cognitive_load x) (social_interactions x) (task_completion_rate x) v
     (risk_score x).
Definition set_risk_score (v : option float) (x : t) : t :=
  mk (employee_id x) (date x) (hours_worked x) (breaks_taken x)
     (cognitive_load x) (social_interactions x) (task_completion_rate x)
     (sentiment_score x) v.

(** The constructor call of [update_daily_metric]; the remaining
    columns take their declared defaults when the row is flushed. *)
Definition create (e : UUID) (d : Date) (h : float) (b : Z)
    (s : option float) : t :=
  mk e d h b 0.5 0%Z 1.0 s None.
End BurnoutMetric.

Inductive AchievementType : Type :=
| DELIVERABLE | INNOVATION | CLIENT_FEEDBACK | COLLABORATION | LEARNING.

Module Achievement.
Record t : Type := mk {
  id : UUID;
  employee_id : UUID;
  type : AchievementType;
  description : string;
  impact_score : float;
  recognized_by_manager : bool;
  recognition_note : option string;
  related_task_id : option UUID
}.

Definition recognize (note : string) (x : t) : t :=
  mk (id x) (employee_id x) (type x) (description x) (impact_score x)
     true (Some note) (related_task_id x).
End Achievement.

Record DB : Type := mkDB {
  teams : list Team.t;
  employees : list Employee.t;
  tasks : list Task.t;
  burnout_metrics : list BurnoutMetric.t;
  achievements : list Achievement.t
}.

Definition with_tasks (v : list Task.t) (db : DB) : DB :=
  mkDB (teams db) (employees db) v (burnout_metrics db) (achievements db).
Definition with_burnout_metrics (v : list BurnoutMetric.t) (db : DB) : DB :=
  mkDB (teams db) (employees db) (tasks db) v (achievements db).
Definition with_achievements (v : list Achievement.t) (db : DB) : DB :=
  mkDB (teams db) (employees db) (tasks db) (burnout_metrics db) v.

Definition opt_uuid_is (o : option UUID) (u : UUID) : bool :=
  match o with
  | Some v => String.eqb v u
  | None => false
  end.

(** Attribute assignment on the first row a query returned: the first
    row satisfying [p] is replaced by its image under [f]. *)
Fixpoint update_first {A : Type} (p : A -> bool) (f : A -> A) (l : list A)
  : list A :=
  match l with
  | [] => []
  | x :: l' => if p x then f x :: l' else x :: update_first p f l'
  end.

(** ** Burnout detection service *)

Module BurnoutDetectionService.

(** Weights for risk calculation ([__init__]). *)
Definition w_hours : float := 0.3.
Definition w_cognitive : float := 0.25.
Definition w_isolation : float := 0.2.
Definition w_completion : float := 0.1.
Definition w_sentiment : float := 0.15.

(** The dictionary returned by [_get_recent_metrics]. *)
Record Metrics : Type := mkMetrics {
  avg_hours_worked : float;
  avg_cognitive_load : float;
  avg_social_interactions : float;
  avg_task_completion_rate : float;
  avg_sentiment_score : float
}.

(** The rows selected by the filter of [_get_recent_metrics]. *)
Definition recent_rows (db : DB) (today : Date) (employee_id : UUID)
    (days : Z) : list BurnoutMetric.t :=
  let cutoff_date := (today - days)%Z in
  filter (fun m => String.eqb (BurnoutMetric.employee_id m) employee_id
                   && (cutoff_date <=? BurnoutMetric.date m)%Z)
         (burnout_metrics db).

Definition _get_recent_metrics (db : DB) (today : Date) (employee_id : UUID)
    (days : Z) : option Metrics :=
  let rows := recent_rows db today employee_id days in
  let r_hours := sql_avg (map BurnoutMetric.hours_worked rows) in
  let r_cognitive := sql_avg (map BurnoutMetric.cognitive_load rows) in
  let r_social :=
    sql_avg (map (fun m => inject_Z (BurnoutMetric.social_interactions m)) rows) in
  let r_completion := sql_avg (map BurnoutMetric.task_completion_rate rows) in
  let r_sentiment := sql_avg (non_null (map BurnoutMetric.sentiment_score rows)) in
  match r_hours with
  | None => None
  | Some _ =>
      Some {| avg_hours_worked := or_float r_hours 8.0;
              avg_cognitive_load := or_float r_cognitive 0.5;
              avg_social_interactions := or_float r_social 5;
              avg_task_completion_rate := or_float r_completion 1.0;
              avg_sentiment_score := or_float r_sentiment 0.0 |}
  end.

Definition _normalize_hours (hours : float) : float :=
  if hours <=? 8 then 0.0
  else if hours <=? 9 then 0.3
  else if hours <=? 10 then 0.6
  else if hours <=? 11 then 0.8
  else 1.0.

Definition _normalize_isolation (interactions : float) : float :=
  if interactions >=? 10 then 0.0
  else if interactions >=? 7 then 0.2
  else if interactions >=? 5 then 0.4
  else if interactions >=? 3 then 0.7
  else 1.0.

Definition _normalize_sentiment (sentiment : option float) : float :=
  match sentiment with
  | None => 0.5
  | Some s => (1.0 - s) / 2.0
  end.

(** The five component scores computed by [calculate_risk_score]
    (and again, under other names, by [get_burnout_analysis]). *)
Record Components : Type := mkComponents {
  hours_score : float;
  cognitive_score : float;
  isolation_score : float;
  completion_score : float;
  sentiment_score : float
}.

Definition component_scores (metrics : Metrics) : Components :=
  {| hours_score := _normalize_hours (avg_hours_worked metrics);
     cognitive_score := avg_cognitive_load metrics;
     isolation_score := _normalize_isolation (avg_social_interactions metrics);
     completion_score := 1.0 - avg_task_completion_rate metrics;
     sentiment_score := _normalize_sentiment (Some (avg_sentiment_score metrics)) |}.

Definition weighted_risk (c : Components) : float :=
  w_hours * hours_score c +
  w_cognitive * cognitive_score c +
  w_isolation * isolation_score c +
  w_completion * completion_score c +
  w_sentiment * sentiment_score c.

Definition calculate_risk_score (db : DB) (today : Date) (employee_id : UUID)
    (days : Z) : float :=
  match _get_recent_metrics db today employee_id days with
  | None => 0.0
  | Some metrics =>
      let risk := weighted_risk (component_scores metrics) in
      Qmin (Qmax risk 0.0) 1.0
  end.

(** The interventions are notifications; each helper is modelled by
    the notification it emits. *)
Inductive action : Type :=
| BlockNewTasks (employee_id : UUID)
| AlertManager (employee_id : UUID) (severity : string)
| SuggestDelegation (titles : list string)
| InsertMicroBreaks (employee_id : UUID).

Definition _block_new_tasks (employee_id : UUID) : list action :=
  [BlockNewTasks employee_id].

Definition _alert_manager (employee_id : UUID) (severity : string)
  : list action :=
  [AlertManager employee_id severity].

Definition priority_key (t : Task.t) : Q :=
  match Task.priority_score t with
  | Some p => p
  | None => 0
  end.

Definition _suggest_delegation (db : DB) (employee_id : UUID) : list action :=
  let candidates :=
    filter (fun t => opt_uuid_is (Task.assigned_to t) employee_id
                     && TaskStatus_eqb (Task.status t) PENDING
                     && match Task.priority_score t with
                        | Some p => p <? 0.6
                        | None => false
                        end)
           (tasks db) in
  let tasks := firstn 3 (sort_asc priority_key candidates) in
  [SuggestDelegation (map Task.title tasks)].

Definition _insert_micro_breaks (employee_id : UUID) : list action :=
  [InsertMicroBreaks employee_id].

Definition trigger_interventions (db : DB) (today : Date)
    (employee_id : UUID) : list action :=
  let risk_score := calculate_risk_score db today employee_id 7 in
  if risk_score >=? 0.9 then
    _block_new_tasks employee_id ++ _alert_manager employee_id "critical"
  else if risk_score >=? 0.8 then
    _alert_manager employee_id "high" ++ _suggest_delegation db employee_id
  else if risk_score >=? 0.7 then
    _suggest_delegation db employee_id
  else if risk_score >=? 0.5 then
    _insert_micro_breaks employee_id
  else [].

Definition same_day (employee_id : UUID) (metric_date : Date)
    (m : BurnoutMetric.t) : bool :=
  String.eqb (BurnoutMetric.employee_id m) employee_id
  && (BurnoutMetric.date m =? metric_date)%Z.

(** [if not metric_date: metric_date = date.today()] *)
Definition default_date (metric_date : option Date) (today : Date) : Date :=
  match metric_date with
  | Some d => d
  | None => today
  end.

(** The stored rows of one employee for one day. *)
Definition metrics_on (db : DB) (employee_id : UUID) (d : Date)
  : list BurnoutMetric.t :=
  filter (same_day employee_id d) (burnout_metrics db).

(** [existing] is the first row of the table with the key
    [(employee_id, metric_date)]; the attribute assignments on that
    object, and later on [metric], are updates of that row. *)
Definition update_daily_metric (db : DB) (today : Date) (employee_id : UUID)
    (hours_worked : float) (breaks_taken : Z) (sentiment : option float)
    (metric_date : option Date) : BurnoutMetric.t * DB :=
  let metric_date := default_date metric_date today in
  let key := same_day employee_id metric_date in
  let existing := find key (burnout_metrics db) in
  let '(metric, db) :=
    match existing with
    | Some existing =>
        let existing := BurnoutMetric.set_hours_worked hours_worked existing in
        let existing := BurnoutMetric.set_breaks_taken breaks_taken existing in
        let existing :=
          match sentiment with
          | Some _ => BurnoutMetric.set_sentiment_score sentiment existing
          | None => existing
          end in
        (existing,
         with_burnout_metrics
           (update_first key (fun _ => existing) (burnout_metrics db)) db)
    | None =>
        let metric :=
          BurnoutMetric.create employee_id metric_date hours_worked
            breaks_taken sentiment in
        (metric, with_burnout_metrics (burnout_metrics db ++ [metric]) db)
    end in
  let metric :=
    BurnoutMetric.set_risk_score
      (Some (calculate_risk_score db today employee_id 7)) metric in
  (metric,
   with_burnout_metrics
     (update_first key (fun _ => metric) (burnout_metrics db)) db).

(** The bounds that [BurnoutMetricBase] in [schemas/analytics_schema.py]
    declares for the three fields that enter the risk without a
    lookup table. *)
Definition within_schema (m : BurnoutMetric.t) : Prop :=
  0 <= BurnoutMetric.cognitive_load m <= 1 /\
  0 <= BurnoutMetric.task_completion_rate m <= 1 /\
  match BurnoutMetric.sentiment_score m with
  | Some s => -1 <= s <= 1
  | None => True
  end.

(** The [factors] dictionary of [get_burnout_analysis], in insertion
    order; it stays empty when there are no metrics. *)
Definition analysis_factors (metrics : option Metrics) : list (string * float) :=
  match metrics with
  | None => []
  | Some metrics =>
      [("overwork"%string, _normalize_hours (avg_hours_worked metrics));
       ("cognitive_overload"%string, avg_cognitive_load metrics);
       ("social_isolation"%string,
        _normalize_isolation (avg_social_interactions metrics));
       ("poor_completion"%string, 1.0 - avg_task_completion_rate metrics);
       ("negative_sentiment"%string,
        _normalize_sentiment (Some (avg_sentiment_score metrics)))]
  end.

(** [factors.get(key, default)] *)
Fixpoint factors_get (factors : list (string * float)) (key : string)
    (default : float) : float :=
  match factors with
  | [] => default
  | (k, v) :: rest => if String.eqb k key then v else factors_get rest key default
  end.

Definition _get_risk_level (score : float) : string :=
  if score >=? 0.8 then "critical"%string
  else if score >=? 0.6 then "high"%string
  else if score >=? 0.4 then "medium"%string
  else "low"%string.

Definition _generate_recommendations (risk_score : float)
    (factors : list (string * float)) : list string :=
  let recommendations :=
    (if risk_score >=? 0.8 then
       ["URGENT: Immediate intervention required. Consider task redistribution."%string]
     else [])
    ++ (if factors_get factors "overwork" 0 >? 0.6 then
          ["Reduce daily working hours. Block calendar for breaks."%string]
        else [])
    ++ (if factors_get factors "cognitive_overload" 0 >? 0.7 then
          ["Delegate complex tasks. Focus on simpler activities temporarily."%string]
        else [])
    ++ (if factors_get factors "social_isolation" 0 >? 0.6 then
          ["Schedule team meetings or informal check-ins."%string]
        else [])
    ++ (if factors_get factors "poor_completion" 0 >? 0.5 then
          ["Review task assignments. May indicate overload or unclear requirements."%string]
        else [])
    ++ (if factors_get factors "negative_sentiment" 0 >? 0.6 then
          ["Schedule 1-on-1 with manager to discuss concerns."%string]
        else []) in
  match recommendations with
  | [] => ["Keep up the good work! Maintain current work-life balance."%string]
  | _ :: _ => recommendations
  end.

Definition _calculate_trend (db : DB) (today : Date) (employee_id : UUID)
  : string :=
  let recent_risk := calculate_risk_score db today employee_id 3 in
  let previous_risk := calculate_risk_score db today employee_id 7 in
  if recent_risk <? previous_risk - 0.1 then "improving"%string
  else if recent_risk >? previous_risk + 0.1 then "declining"%string
  else "stable"%string.

Record BurnoutRiskResponse : Type := mkBurnoutRiskResponse {
  rr_employee_id : UUID;
  current_risk_score : float;
  risk_level : string;
  factors : list (string * float);
  recommendations : list string;
  trend : string
}.

(** The schema declares [current_risk_score] with [ge=0, le=1]. *)
Definition new_BurnoutRiskResponse (employee_id : UUID)
    (current_risk_score : float) (risk_level : string)
    (factors : list (string * float)) (recommendations : list string)
    (trend : string) : result BurnoutRiskResponse :=
  if (0 <=? current_risk_score) && (current_risk_score <=? 1) then
    Ok (mkBurnoutRiskResponse employee_id current_risk_score risk_level
          factors recommendations trend)
  else Raise ValidationError.

Definition get_burnout_analysis (db : DB) (today : Date) (employee_id : UUID)
  : result BurnoutRiskResponse :=
  let risk_score := calculate_risk_score db today employee_id 7 in
  let risk_level := _get_risk_level risk_score in
  let metrics := _get_recent_metrics db today employee_id 7 in
  let factors := analysis_factors metrics in
  let recommendations := _generate_recommendations risk_score factors in
  let trend := _calculate_trend db today employee_id in
  new_BurnoutRiskResponse employee_id risk_score risk_level factors
    recommendations trend.

End BurnoutDetectionService.

(** ** Task prioritization service *)

Module TaskPrioritizationService.

Definition w_urgency : float := 0.3.
Definition w_deadline : float := 0.25.
Definition w_effort : float := 0.2.
Definition w_productivity : float := 0.15.
Definition w_dependencies : float := 0.1.

(** A [datetime] is a number of seconds; [(deadline - now).days] is
    the floor of the difference in days. *)
Definition days_between (deadline now : datetime) : Z :=
  ((deadline - now) / 86400)%Z.

Definition hour_of (time : datetime) : Z := ((time mod 86400) / 3600)%Z.

Definition _normalize_deadline (now : datetime) (deadline : option datetime)
  : float :=
  match deadline with
  | None => 0.3
  | Some deadline =>
      let days_until := days_between deadline now in
      if (days_until <? 0)%Z then 1.0
      else if (days_until =? 0)%Z then 0.95
      else if (days_until <=? 2)%Z then 0.8
      else if (days_until <=? 7)%Z then 0.6
      else if (days_until <=? 14)%Z then 0.4
      else 0.2
  end.

(** [not estimated_effort] holds for [None] and for [0.0]. *)
Definition _normalize_effort (estimated_effort : option float) : float :=
  match estimated_effort with
  | None => 0.5
  | Some effort =>
      if Qeq_bool effort 0 then 0.5
      else if (2.0 <=? effort) && (effort <=? 4.0) then 1.0
      else if effort <? 2.0 then 0.7 + (effort / 2.0) * 0.3
      else if effort <=? 8.0 then 1.0 - ((effort - 4.0) / 4.0) * 0.3
      else 0.4
  end.

Fixpoint dict_get (d : list (string * float)) (k : string) (default : float)
  : float :=
  match d with
  | [] => default
  | (k', v) :: d' => if String.eqb k' k then v else dict_get d' k default
  end.

Definition _get_productivity_at_time (employee : Employee.t)
    (time : datetime) : float :=
  let hour := hour_of time in
  let period :=
    if (6 <=? hour)%Z && (hour <? 12)%Z then "morning"%string
    else if (12 <=? hour)%Z && (hour <? 18)%Z then "afternoon"%string
    else "evening"%string in
  dict_get (Employee.productivity_periods employee) period 0.7.

Record SubScores : Type := mkSubScores {
  urgency_norm : float;
  deadline_norm : float;
  effort_norm : float;
  productivity_norm : float;
  dependency_score : float
}.

Definition sub_scores (now : datetime) (task : Task.t)
    (employee : Employee.t) : SubScores :=
  {| urgency_norm := inject_Z (Task.urgency task) / 5.0;
     deadline_norm := _normalize_deadline now (Task.deadline task);
     effort_norm := _normalize_effort (Task.estimated_effort task);
     productivity_norm := _get_productivity_at_time employee now;
     dependency_score :=
       match Task.dependencies task with
       | [] => 0.5
       | _ :: _ => 1.0
       end |}.

Definition calculate_priority_score (now : datetime) (task : Task.t)
    (employee : Employee.t) : float :=
  let s := sub_scores now task employee in
  let score :=
    w_urgency * urgency_norm s +
    w_deadline * deadline_norm s +
    w_effort * effort_norm s +
    w_productivity * productivity_norm s +
    w_dependencies * dependency_score s in
  Qmin (Qmax score 0.0) 1.0.

(** The two lookups by primary key. *)
Definition task_has_id (task_id : UUID) (t : Task.t) : bool :=
  String.eqb (Task.id t) task_id.

Definition employee_has_id (employee_id : UUID) (e : Employee.t) : bool :=
  String.eqb (Employee.id e) employee_id.

(** The rows that are [task] objects of a query are rewritten where
    they stand. *)
Definition update_task_priority (db : DB) (now : datetime) (task_id : UUID)
    (employee_id : UUID) : result (float * DB) :=
  let task := find (fun t => String.eqb (Task.id t) task_id) (tasks db) in
  let employee :=
    find (fun e => String.eqb (Employee.id e) employee_id) (employees db) in
  match task, employee with
  | Some task, Some employee =>
      let score := calculate_priority_score now task employee in
      Ok (score,
          with_tasks
            (update_first (fun t => String.eqb (Task.id t) task_id)
               (Task.set_priority_score (Some score)) (tasks db)) db)
  | _, _ => Raise (ValueError "Task or Employee not found")
  end.

Definition is_open_task_of (employee_id : UUID) (t : Task.t) : bool :=
  opt_uuid_is (Task.assigned_to t) employee_id
  && (TaskStatus_eqb (Task.status t) PENDING
      || TaskStatus_eqb (Task.status t) IN_PROGRESS).

Definition recalculate_all_priorities (db : DB) (now : datetime)
    (employee_id : UUID) : result (nat * DB) :=
  match find (fun e => String.eqb (Employee.id e) employee_id) (employees db) with
  | None => Raise (ValueError "Employee not found")
  | Some employee =>
      let tasks' :=
        map (fun task =>
               if is_open_task_of employee_id task then
                 Task.set_priority_score
                   (Some (calculate_priority_score now task employee)) task
               else task)
            (tasks db) in
      let count := List.length (filter (is_open_task_of employee_id) (tasks db)) in
      Ok (count, with_tasks tasks' db)
  end.

(** The productivity that [_get_productivity_at_time] reads for the
    hours 6 to 11 and for the hours 12 to 17. *)
Definition morning_of (employee : Employee.t) : float :=
  dict_get (Employee.productivity_periods employee) "morning" 0.7.

Definition afternoon_of (employee : Employee.t) : float :=
  dict_get (Employee.productivity_periods employee) "afternoon" 0.7.

(** [time.replace(hour=hour, minute=0)]: the date and the seconds stay. *)
Definition replace_hour (time : datetime) (hour : Z) : datetime :=
  (time / 86400 * 86400 + hour * 3600 + time mod 60)%Z.

Definition slot_step (employee : Employee.t) (current : datetime)
    (acc : float * datetime) (day_hour : Z * Z) : float * datetime :=
  let '(max_productivity, best_slot) := acc in
  let '(day, hour) := day_hour in
  let candidate := (replace_hour current hour + day * 86400)%Z in
  let productivity := _get_productivity_at_time employee candidate in
  if productivity >? max_productivity then (productivity, candidate)
  else (max_productivity, best_slot).

(** The two nested [for] loops: days 0 to 6, hours 8 to 17. *)
Definition scanned_slots : list (Z * Z) :=
  flat_map (fun day => map (fun hour => (day, hour)) (range 8 18)) (range 0 7).

Definition _find_optimal_slot (employee : Employee.t) (start_from : datetime)
    (duration_hours : float) : datetime :=
  let current := start_from in
  snd (fold_left (slot_step employee current) scanned_slots (0, current)).

Record ScheduledTask : Type := mkScheduledTask {
  st_task_id : UUID;
  st_task_title : string;
  st_priority_score : float;
  suggested_start : datetime;
  suggested_end : datetime;
  st_urgency : Z;
  st_deadline : option datetime
}.

(** An entry of [task_scores]. *)
Record ScoredTask : Type := mkScoredTask {
  sc_task : Task.t;
  sc_score : float;
  sc_deadline : datetime
}.

(** The order of the keys [(-score, deadline)]. *)
Definition schedule_leb (a b : ScoredTask) : bool :=
  match (- sc_score a) ?= (- sc_score b) with
  | Lt => true
  | Eq => (sc_deadline a <=? sc_deadline b)%Z
  | Gt => false
  end.

Section Scheduling.
(** [timedelta(hours=h)] for a float [h], in the unit of the clock; its
    rounding is left as a parameter. *)
Variable timedelta_hours : float -> Z.

Fixpoint schedule_from (employee : Employee.t) (current_time : datetime)
    (task_scores : list ScoredTask) : list ScheduledTask :=
  match task_scores with
  | [] => []
  | item :: rest =>
      let task := sc_task item in
      let effort := or_float (Task.estimated_effort task) 2.0 in
      let optimal_slot := _find_optimal_slot employee current_time effort in
      let suggested_end := (optimal_slot + timedelta_hours effort)%Z in
      {| st_task_id := Task.id task;
         st_task_title := Task.title task;
         st_priority_score := sc_score item;
         suggested_start := optimal_slot;
         suggested_end := suggested_end;
         st_urgency := Task.urgency task;
         st_deadline := Task.deadline task |}
      :: schedule_from employee suggested_end rest
  end.

Definition suggest_scheduling (now : datetime) (tasks : list Task.t)
    (employee : Employee.t) (start_time : option datetime)
  : list ScheduledTask :=
  let start_time := match start_time with
                    | Some t => t
                    | None => now
                    end in
  let task_scores :=
    map (fun task =>
           {| sc_task := task;
              sc_score := calculate_priority_score now task employee;
              sc_deadline := match Task.deadline task with
                             | Some d => d
                             | None => (start_time + 30 * 86400)%Z
                             end |})
        tasks in
  let task_scores := sort_by schedule_leb task_scores in
  schedule_from employee start_time task_scores.
End Scheduling.

End TaskPrioritizationService.

(** ** Workload balancing service *)

Module WorkloadBalancingService.

Definition alpha : float := 0.6.
Definition beta : float := 0.4.

(** The dictionary returned by [_calculate_employee_workload]. *)
Record Workload : Type := mkWorkload {
  employee_id : UUID;
  employee_name : string;
  cumulative_load : float;
  critical_score : float;
  global_score : float;
  active_tasks_count : nat;
  high_priority_tasks_count : nat
}.

Record MemberWorkload : Type := mkMemberWorkload {
  mw_employee_id : string;
  mw_employee_name : string;
  mw_cumulative_load : float;
  mw_critical_score : float;
  mw_global_score : float;
  mw_active_tasks : nat
}.

Record TeamEquityResponse : Type := mkTeamEquityResponse {
  team_id : UUID;
  team_name : string;
  equity_score : float;
  member_workloads : list MemberWorkload;
  recommendations : list string
}.

(** The schema declares [equity_score] with [ge=0, le=1]. *)
Definition new_TeamEquityResponse (team_id : UUID) (team_name : string)
    (equity_score : float) (member_workloads : list MemberWorkload)
    (recommendations : list string) : result TeamEquityResponse :=
  if (0 <=? equity_score) && (equity_score <=? 1) then
    Ok (mkTeamEquityResponse team_id team_name equity_score member_workloads
          recommendations)
  else Raise ValidationError.

Record Suggestion : Type := mkSuggestion {
  task_id : string;
  task_title : string;
  from_employee : string;
  to_employee : string;
  sg_priority_score : option float;
  sg_estimated_effort : option float
}.

Definition team_by_id (db : DB) (team_id : UUID) : option Team.t :=
  find (fun t => String.eqb (Team.id t) team_id) (teams db).

Definition team_members (db : DB) (team_id : UUID) : list Employee.t :=
  filter (fun e => opt_uuid_is (Employee.team_id e) team_id) (employees db).

Definition is_active (t : Task.t) : bool :=
  TaskStatus_eqb (Task.status t) PENDING
  || TaskStatus_eqb (Task.status t) IN_PROGRESS.

Definition _calculate_employee_workload (db : DB) (employee_id : UUID)
  : result Workload :=
  let employee :=
    find (fun e => String.eqb (Employee.id e) employee_id) (employees db) in
  let tasks :=
    filter (fun t => opt_uuid_is (Task.assigned_to t) employee_id
                     && is_active t)
           (tasks db) in
  let cumulative_load :=
    py_sum (map (fun task => or_float (Task.estimated_effort task) 2.0
                             * or_float (Task.priority_score task) 0.5)
                tasks) in
  let critical_score :=
    py_sum (map (fun task => or_float (Task.priority_score task) 0.5)
                (filter (fun task => (4 <=? Task.urgency task)%Z) tasks)) in
  let high_priority_count :=
    List.length
      (filter (fun task => or_float (Task.priority_score task) 0 >=? 0.7)
              tasks) in
  let global_score := alpha * cumulative_load + beta * critical_score in
  match employee with
  | None => Raise AttributeError
  | Some employee =>
      Ok {| employee_id := employee_id;
            employee_name := Employee.name employee;
            cumulative_load := cumulative_load;
            critical_score := critical_score;
            global_score := global_score;
            active_tasks_count := List.length tasks;
            high_priority_tasks_count := high_priority_count |}
  end.

Definition current_workloads (db : DB) (employees : list Employee.t)
  : result (list Workload) :=
  mapM (fun emp => _calculate_employee_workload db (Employee.id emp))
       employees.

Section Equity.
(** [x ** 0.5], the square root, is left as a parameter: the
    rationals have none. *)
Variable pow_half : float -> float.

(** The equity score in exact arithmetic.  What is proved of it (its
    range) does not depend on a rounding; the score that binary64
    arithmetic gives is [Binary64._calculate_equity_score]. *)
Definition _calculate_equity_score (workloads : list Workload) : float :=
  match workloads with
  | [] => 1.0
  | _ :: _ =>
      let scores := map global_score workloads in
      let mean_score := py_sum scores / len scores in
      if Qeq_bool mean_score 0 then 1.0
      else
        let variance :=
          py_sum (map (fun s => (s - mean_score) ^ 2) scores)
          / len scores in
        let std_dev := pow_half variance in
        let cv := if mean_score >? 0 then std_dev / mean_score else 0 in
        Qmax 0.0 (1.0 - cv)
  end.

Definition str_of_nat (n : nat) : string :=
  NilZero.string_of_uint (Nat.to_uint n).

Definition _generate_balancing_recommendations (workloads : list Workload)
  : result (list string) :=
  match workloads with
  | [] => Ok ["No team members to analyze"%string]
  | _ :: _ =>
      let sorted_workloads := sort_desc global_score workloads in
      match sorted_workloads with
      | [] => Raise IndexError
      | overloaded :: _ =>
          let underloaded := last sorted_workloads overloaded in
          let divisor := global_score underloaded + 0.1 in
          if Qeq_bool divisor 0 then Raise ZeroDivisionError
          else
            let imbalance_ratio := global_score overloaded / divisor in
            let recommendations :=
              (if imbalance_ratio >? 2.0 then
                 [("CRITICAL: " ++ employee_name overloaded
                   ++ " is significantly overloaded. "
                   ++ "Consider redistributing tasks to "
                   ++ employee_name underloaded ++ ".")%string]
               else [])
              ++ (if imbalance_ratio >? 1.5 then
                    [("Workload imbalance detected. Review task distribution between "
                      ++ employee_name overloaded ++ " and "
                      ++ employee_name underloaded ++ ".")%string]
                  else [])
              ++ flat_map
                   (fun workload =>
                      if (5 <? high_priority_tasks_count workload)%nat then
                        [(employee_name workload ++ " has "
                          ++ str_of_nat (high_priority_tasks_count workload)
                          ++ " high-priority tasks. Consider delegating lower-priority items.")%string]
                      else [])
                   workloads in
            let total_load := py_sum (map global_score workloads) in
            let avg_load := total_load / len workloads in
            let recommendations :=
              recommendations
              ++ (if avg_load >? 20 then
                    ["Team appears to be operating at high capacity. Consider extending deadlines or requesting additional resources."%string]
                  else []) in
            match recommendations with
            | [] => Ok ["Workload is well-balanced across the team. Keep monitoring."%string]
            | _ :: _ => Ok recommendations
            end
      end
  end.

Definition calculate_team_equity (db : DB) (team_id : UUID)
  : result TeamEquityResponse :=
  match team_by_id db team_id with
  | None => Raise (ValueError "Team not found")
  | Some team =>
      match team_members db team_id with
      | [] =>
          new_TeamEquityResponse team_id (Team.name team) 1.0 []
            ["No team members found"%string]
      | (_ :: _) as employees =>
          workloads <- current_workloads db employees ;;
          let equity_score := _calculate_equity_score workloads in
          recommendations <- _generate_balancing_recommendations workloads ;;
          let member_workloads :=
            map (fun w =>
                   {| mw_employee_id := employee_id w;
                      mw_employee_name := employee_name w;
                      mw_cumulative_load := cumulative_load w;
                      mw_critical_score := critical_score w;
                      mw_global_score := global_score w;
                      mw_active_tasks := active_tasks_count w |})
                workloads in
          new_TeamEquityResponse team_id (Team.name team) equity_score
            member_workloads recommendations
      end
  end.
End Equity.

(** The engine behind the session.  [core/config.py] names a
    PostgreSQL database by default; the setting is read from the
    environment, and SQLite is the other engine considered. *)
Inductive Engine : Type := PostgreSQL | SQLite.

(** [ORDER BY priority_score ASC, deadline DESC] as SQLite evaluates
    it: [NULL] is smaller than every value, so it comes first when
    ascending and last when descending.
    [sorts_before a b] holds when [a] comes strictly before [b]. *)
Definition priority_order (a b : option float) : comparison :=
  match a, b with
  | Some x, Some y => x ?= y
  | None, Some _ => Lt
  | Some _, None => Gt
  | None, None => Eq
  end.

Definition deadline_order (a b : option datetime) : comparison :=
  match a, b with
  | Some x, Some y => (y ?= x)%Z
  | Some _, None => Lt
  | None, Some _ => Gt
  | None, None => Eq
  end.

Definition sorts_before (a b : Task.t) : bool :=
  match priority_order (Task.priority_score a) (Task.priority_score b) with
  | Lt => true
  | Gt => false
  | Eq =>
      match deadline_order (Task.deadline a) (Task.deadline b) with
      | Lt => true
      | _ => false
      end
  end.

Definition first_in_order (candidates : list Task.t) : option Task.t :=
  fold_left
    (fun best t =>
       match best with
       | None => Some t
       | Some b => if sorts_before t b then Some t else Some b
       end)
    candidates None.

(** The filter [Task.dependencies == []] compares the [JSON] column
    with a JSON text.  PostgreSQL has no equality operator for its
    [json] type and rejects the statement whatever the rows are:
    SQLAlchemy raises [ProgrammingError].  SQLite stores the column as
    text and compares it with the text of the empty list. *)
Definition _find_transferable_task (engine : Engine) (db : DB)
    (from_employee_id : UUID) (to_employee_id : UUID)
  : result (option Task.t) :=
  match engine with
  | PostgreSQL => Raise ProgrammingError
  | SQLite =>
      Ok (first_in_order
            (filter (fun t => opt_uuid_is (Task.assigned_to t) from_employee_id
                              && TaskStatus_eqb (Task.status t) PENDING
                              && match Task.dependencies t with
                                 | [] => true
                                 | _ :: _ => false
                                 end)
                    (tasks db)))
  end.

(** [transfer.assigned_to = ...; db.commit()]: the row of the task,
    found by its primary key, is rewritten. *)
Definition reassign (db : DB) (transfer : Task.t) (to_employee_id : UUID)
  : DB :=
  with_tasks
    (update_first (fun t => String.eqb (Task.id t) (Task.id transfer))
       (Task.set_assigned_to (Some to_employee_id)) (tasks db)) db.

Definition sorted_workloads (db : DB) (employees : list Employee.t)
  : result (list Workload) :=
  workloads <- current_workloads db employees ;;
  Ok (sort_desc global_score workloads).

(** The [while True] loop of [redistribute_tasks]; one unit of
    [fuel] is spent per iteration, [None] means the fuel ran out. *)
Fixpoint redistribute_loop (engine : Engine) (fuel : nat) (auto_assign : bool)
    (employees : list Employee.t) (db : DB) (workloads : list Workload)
    (suggestions : list Suggestion)
  : option (result (list Suggestion * DB)) :=
  match fuel with
  | O => None
  | S fuel =>
      match workloads with
      | [] => Some (Raise IndexError)
      | overloaded :: _ =>
          let underloaded := last workloads overloaded in
          if global_score overloaded <? 1.5 * global_score underloaded then
            Some (Ok (suggestions, db))
          else
            match _find_transferable_task engine db (employee_id overloaded)
                    (employee_id underloaded) with
            | Raise e => Some (Raise e)
            | Ok None => Some (Ok (suggestions, db))
            | Ok (Some transfer) =>
                let suggestions :=
                  suggestions ++
                    [{| task_id := Task.id transfer;
                        task_title := Task.title transfer;
                        from_employee := employee_name overloaded;
                        to_employee := employee_name underloaded;
                        sg_priority_score := Task.priority_score transfer;
                        sg_estimated_effort := Task.estimated_effort transfer |}] in
                let db :=
                  if auto_assign
                  then reassign db transfer (employee_id underloaded)
                  else db in
                match sorted_workloads db employees with
                | Raise e => Some (Raise e)
                | Ok workloads =>
                    if (10 <=? List.length suggestions)%nat then
                      Some (Ok (suggestions, db))
                    else
                      redistribute_loop engine fuel auto_assign employees db
                        workloads suggestions
                end
            end
      end
  end.

Definition redistribute_tasks (engine : Engine) (fuel : nat) (db : DB)
    (team_id : UUID) (auto_assign : bool)
  : option (result (list Suggestion * DB)) :=
  match team_by_id db team_id with
  | None => Some (Raise (ValueError "Team not found"))
  | Some team =>
      let employees := team_members db team_id in
      if (List.length employees <? 2)%nat then Some (Ok ([], db))
      else
        match sorted_workloads db employees with
        | Raise e => Some (Raise e)
        | Ok workloads =>
            redistribute_loop engine fuel auto_assign employees db workloads []
        end
  end.

(** A task as the schemas and the priority engine produce it: an
    estimate, when present, is not negative ([TaskBase]), and neither
    is a priority score. *)
Definition non_negative_task (t : Task.t) : Prop :=
  (forall effort, Task.estimated_effort t = Some effort -> 0 <= effort) /\
  (forall p, Task.priority_score t = Some p -> 0 <= p).

Section Assignment.
(** The rendering [f"{x:.2f}"] of a float is left as a parameter. *)
Variable format_2f : float -> string.

Definition suggest_new_task_assignment (db : DB) (team_id : UUID)
    (task : Task.t) : result (UUID * string) :=
  match team_members db team_id with
  | [] => Raise (ValueError "No employees in team")
  | [only] => Ok (Employee.id only, "Only team member available"%string)
  | (_ :: _ :: _) as employees =>
      workloads <- current_workloads db employees ;;
      match sort_asc global_score workloads with
      | [] => Raise IndexError
      | best_match :: _ =>
          Ok (employee_id best_match,
              ("Lowest current workload (score: "
               ++ format_2f (global_score best_match) ++ ")")%string)
      end
  end.
End Assignment.

End WorkloadBalancingService.

(** ** The equity score in binary64 arithmetic *)

Module Binary64.
Import PrimFloat.
#[local] Set Warnings "-inexact-float".
Local Open Scope float_scope.

(** A Python [float]: an IEEE 754 binary64 number.  A decimal literal
    denotes the nearest one, as in Python. *)
Definition binary64 : Set := PrimFloat.float.

(** [len(xs)] as the divisor of a float: the integer is converted to
    the nearest binary64 number. *)
Definition len {A : Type} (xs : list A) : binary64 :=
  of_uint63 (Uint63.of_Z (Z.of_nat (List.length xs))).

(** The builtin [sum] starts from the integer [0] and adds from the
    left.  Up to Python 3.11 that is all; from Python 3.12 on, once
    the running total is a float, it also accumulates the rounding
    error of every addition (Neumaier's compensation) and adds it at
    the end. *)
Inductive Summation : Type := LeftFold | Compensated.

Definition compensate (acc : binary64 * binary64) (x : binary64)
  : binary64 * binary64 :=
  let '(f_result, c) := acc in
  let t := f_result + x in
  if abs x <=? abs f_result then (t, c + ((f_result - t) + x))
  else (t, c + ((x - t) + f_result)).

Definition py_sum (summation : Summation) (xs : list binary64) : binary64 :=
  match summation, xs with
  | LeftFold, _ => fold_left add xs 0
  | Compensated, [] => 0
  | Compensated, x :: xs' =>
      let '(f_result, c) := fold_left compensate xs' (0 + x, 0) in
      if negb (c =? 0) && is_finite c then f_result + c else f_result
  end.

(** [max(a, b)]: the second argument wins only when it is greater. *)
Definition py_max (a b : binary64) : binary64 := if a <? b then b else a.

(** The dictionary returned by [_calculate_employee_workload]. *)
Record Workload : Type := mkWorkload {
  employee_id : UUID;
  employee_name : string;
  cumulative_load : binary64;
  critical_score : binary64;
  global_score : binary64;
  active_tasks_count : nat;
  high_priority_tasks_count : nat
}.

Section Equity.
Variable summation : Summation.
(** [x ** y] on floats is the [pow] of the C library, which IEEE 754
    does not pin down to the last bit; it is left as a parameter. *)
Variable pow : binary64 -> binary64 -> binary64.

Definition _calculate_equity_score (workloads : list Workload) : binary64 :=
  match workloads with
  | [] => 1.0
  | _ :: _ =>
      let scores := map global_score workloads in
      let mean_score := py_sum summation scores / len scores in
      if mean_score =? 0 then 1.0
      else
        let variance :=
          py_sum summation (map (fun s => pow (s - mean_score) 2) scores)
          / len scores in
        let std_dev := pow variance 0.5 in
        let cv := if 0 <? mean_score then std_dev / mean_score else 0 in
        py_max 0.0 (1.0 - cv)
  end.
End Equity.

End Binary64.

(** ** Recognition service *)

Module RecognitionService.

Definition has_id (achievement_id : UUID) (a : Achievement.t) : bool :=
  String.eqb (Achievement.id a) achievement_id.

Definition manager_recognition (db : DB) (achievement_id : UUID)
    (recognition_note : string) : result (Achievement.t * DB) :=
  match find (has_id achievement_id) (achievements db) with
  | None => Raise (ValueError "Achievement not found")
  | Some achievement =>
      let achievement := Achievement.recognize recognition_note achievement in
      Ok (achievement,
          with_achievements
            (update_first (has_id achievement_id) (fun _ => achievement)
               (achievements db)) db)
  end.


(** Modelled from the spec: the primary key of the new row is drawn by
    [BaseModel] in [models/base.py], which is not part of the sources
    at hand; it is the argument [new_id].  The flag and the note take
    the declared column defaults. *)
Definition track_achievement (db : DB) (new_id : UUID) (employee_id : UUID)
    (achievement_type : AchievementType) (description : string)
    (impact_score : float) (related_task_id : option UUID)
  : Achievement.t * DB :=
  let achievement :=
    Achievement.mk new_id employee_id achievement_type description
      impact_score false None related_task_id in
  (achievement, with_achievements (achievements db ++ [achievement]) db).
End RecognitionService.

(** * Sample databases *)

Module Samples.
Local Open Scope string_scope.

Definition empty_db : DB := mkDB [] [] [] [] [].

(** One employee, one day of heavy work: twelve hours, full cognitive
    load, a single interaction, 1% of the tasks completed, sentiment
    at its minimum. *)
Definition db_hot : DB :=
  with_burnout_metrics
    [BurnoutMetric.mk "e1" 10 12 0 1 1 0.01 (Some (-1)) None] empty_db.

(** One employee, one day with cognitive load 0 and completion rate 0. *)
Definition db_idle : DB :=
  with_burnout_metrics
    [BurnoutMetric.mk "e1" 10 8 2 0.0 12 0.0 (Some 1) None] empty_db.

(** A metric of another employee and one that is too old. *)
Definition db_stale : DB :=
  with_burnout_metrics
    [BurnoutMetric.mk "e2" 10 12 0 1 1 0.5 None None;
     BurnoutMetric.mk "e1" 2 12 0 1 1 0.5 None None] empty_db.

(** An achievement that no manager has recognised yet. *)
Definition db_award : DB :=
  with_achievements
    [Achievement.mk "a1" "e1" DELIVERABLE "Shipped the release" 0.8 false
       None None] empty_db.

(** A team without members. *)
Definition db_vacant : DB :=
  mkDB [Team.mk "t1" "Platform"] [Employee.mk "e9" "Zoe" None []] [] [] [].

(** The artificial dataset: one member holds twelve transferable
    low-priority pending tasks, the other member holds nothing. *)
Definition low_priority_task (n : nat) : Task.t :=
  Task.mk (String.append "k" (NilZero.string_of_uint (Nat.to_uint n)))
    "Tidy backlog" (Some "e1") 2 None (Some 1) PENDING (Some 0.1) [].

Definition db_flood : DB :=
  mkDB [Team.mk "t1" "Platform"]
    [Employee.mk "e1" "Ada" (Some "t1") []; Employee.mk "e2" "Bo" (Some "t1") []]
    (map low_priority_task (seq 1 12)) [] [].

(** An employee with one metric of today and one of last month. *)
Definition db_staff : DB :=
  mkDB [] [Employee.mk "e1" "Ada" None []] []
    [BurnoutMetric.mk "e1" 10 9 1 0.6 4 0.8 (Some 0.2) None;
     BurnoutMetric.mk "e1" (-20) 12 0 1 1 0.5 None None] [].

(** The recognised employee of [db_award], on the payroll. *)
Definition db_award_staff : DB :=
  mkDB [] [Employee.mk "e1" "Ada" None []] [] [] (achievements db_award).

(** A floor square root on the rationals, to nine decimals; it stands
    in for [** 0.5] where a sample is evaluated. *)
Definition sqrt_approx (x : Q) : Q :=
  (Z.sqrt (Qnum x * Zpos (Qden x) * 10 ^ 18) # (Qden x * 10 ^ 9))%Z.

(** One employee with an open task, a completed task, and a task of
    somebody else. *)
Definition db_tasks : DB :=
  mkDB [] [Employee.mk "e1" "Ada" None [("morning", 0.9)]]
    [Task.mk "k1" "Write notes" (Some "e1") 3 None (Some 2) PENDING None [];
     Task.mk "k2" "Old report" (Some "e1") 2 None None COMPLETED (Some 0.3) [];
     Task.mk "k3" "Fix build" (Some "e2") 4 None None IN_PROGRESS None []]
    [] [].

(** A duration in hours as whole seconds; it stands in for
    [timedelta(hours=h)] where a sample is evaluated. *)
Definition whole_seconds (h : Q) : Z := Qfloor (h * 3600).

(** Three tasks of one employee who works best in the morning. *)
Definition morning_person : Employee.t :=
  Employee.mk "e1" "Ada" None [("morning", 0.9); ("afternoon", 0.6)].

Definition batch : list Task.t :=
  [Task.mk "k1" "Write notes" (Some "e1") 3 None (Some 2) PENDING None [];
   Task.mk "k2" "Fix build" (Some "e1") 5 None (Some 3) PENDING None [];
   Task.mk "k3" "Plan sprint" (Some "e1") 4 None None PENDING None []].

(** Two decimals of a non-negative rational, rounded half up; it
    stands in for the rendering [f"{x:.2f}"] where a sample is
    evaluated. *)
Definition two_decimals (x : Q) : string :=
  let cents := Z.to_nat (Qfloor (x * 100 + (1 # 2))) in
  let digits n := NilZero.string_of_uint (Nat.to_uint n) in
  String.append (digits (cents / 100)%nat)
    (String.append "."
       (String.append (digits ((cents / 10) mod 10)%nat)
          (digits (cents mod 10)%nat))).

(** One employee whose only metric is dated five days after the day
    of the samples (day 10): [update_daily_metric] stores the
    [metric_date] it is given. *)
Definition db_ahead : DB :=
  snd (BurnoutDetectionService.update_daily_metric
         (mkDB [] [Employee.mk "e1" "Ada" None []] [] [] [])
         10 "e1" 12 0 None (Some 15%Z)).

End Samples.

Module SamplesBinary64.
Import PrimFloat Binary64.
#[local] Set Warnings "-inexact-float".
Local Open Scope float_scope.

(** The square and the square root, each rounded once; they stand in
    for [x ** 2] and [x ** 0.5] where a sample is evaluated.  In the
    samples both results are exact in binary64. *)
Definition pow_exact (x y : binary64) : binary64 :=
  if y =? 2 then x * x else if y =? 0.5 then sqrt x else nan.

(** The workload of a member without critical tasks, from the number
    of open tasks and the cumulative load as
    [_calculate_employee_workload] combines them. *)
Definition member (name : string) (active_tasks : nat)
    (cumulative_load : binary64) : Workload :=
  {| employee_id := name;
     employee_name := name;
     cumulative_load := cumulative_load;
     critical_score := 0;
     global_score := 0.6 * cumulative_load + 0.4 * 0;
     active_tasks_count := active_tasks;
     high_priority_tasks_count := 0 |}.

(** Teams of equally loaded members.  In [trio] and [pair] every
    member has one open task without estimate at priority 0.15, a
    load of [2.0 * 0.15] and a global score of 0.18; in [idle_pair]
    nobody has an open task. *)
Definition trio : list Workload :=
  [member "Ada" 1 (0 + 2.0 * 0.15); member "Bo" 1 (0 + 2.0 * 0.15);
   member "Cy" 1 (0 + 2.0 * 0.15)].

Definition pair : list Workload :=
  [member "Ada" 1 (0 + 2.0 * 0.15); member "Bo" 1 (0 + 2.0 * 0.15)].

Definition idle_pair : list Workload := [member "Ada" 0 0; member "Bo" 0 0].

End SamplesBinary64.

(** * Properties *)

(** ** Comparisons and sums on rationals *)

Lemma Qleb_le x y : (x <=? y) = true <-> x <= y.
Proof. apply Qle_bool_iff. Qed.

Lemma Qleb_gt x y : (x <=? y) = false <-> y < x.
Proof.
  unfold Qleb. split; intro H.
  - apply Qnot_le_lt. intro Hle. apply Qle_bool_iff in Hle. congruence.
  - destruct (Qle_bool x y) eqn:E; [|reflexivity].
    apply Qle_bool_iff in E. exfalso. apply (Qlt_not_le _ _ H E).
Qed.

Lemma Qgeb_le x y : (x >=? y) = true <-> y <= x.
Proof. apply Qle_bool_iff. Qed.

Lemma Qgeb_lt x y : (x >=? y) = false <-> x < y.
Proof. apply Qleb_gt. Qed.

Lemma Qltb_lt x y : (x <? y) = true <-> x < y.
Proof.
  unfold Qltb. rewrite negb_true_iff. apply Qleb_gt.
Qed.

Lemma Qltb_ge x y : (x <? y) = false <-> y <= x.
Proof.
  unfold Qltb. rewrite negb_false_iff. apply Qle_bool_iff.
Qed.

Lemma Qeq_bool_false x y : Qeq_bool x y = false <-> ~ x == y.
Proof.
  split; [apply Qeq_bool_neq|].
  intro H. destruct (Qeq_bool x y) eqn:E; [|reflexivity].
  apply Qeq_bool_eq in E. contradiction.
Qed.

Lemma fold_left_Qplus_acc (xs : list Q) (a : Q) :
  fold_left Qplus xs a == a + fold_left Qplus xs 0.
Proof.
  revert a. induction xs as [|x xs IH]; intro a; simpl.
  - lra.
  - rewrite (IH (a + x)), (IH (0 + x)). lra.
Qed.

Lemma py_sum_cons x xs : py_sum (x :: xs) == x + py_sum xs.
Proof.
  unfold py_sum. simpl. rewrite fold_left_Qplus_acc. lra.
Qed.

Lemma len_cons {A : Type} (x : A) (xs : list A) : len (x :: xs) == 1 + len xs.
Proof.
  unfold len. cbn [List.length]. rewrite Nat2Z.inj_succ, <- Z.add_1_l.
  rewrite inject_Z_plus. reflexivity.
Qed.

Lemma len_nonneg {A : Type} (xs : list A) : 0 <= len xs.
Proof.
  unfold len. change 0 with (inject_Z 0). rewrite <- Zle_Qle. lia.
Qed.

Lemma len_pos {A : Type} (x : A) (xs : list A) : 0 < len (x :: xs).
Proof.
  rewrite len_cons. pose proof (len_nonneg xs). lra.
Qed.

(** ** Lists: queries and row updates *)

Lemma find_hd_filter {A : Type} (p : A -> bool) (l : list A) :
  find p l = hd_error (filter p l).
Proof.
  induction l as [|x l IH]; simpl; [reflexivity|].
  destruct (p x); [reflexivity|exact IH].
Qed.

Lemma filter_update_first_const {A : Type} (p : A -> bool) (y : A) (l : list A) :
  p y = true ->
  filter p (update_first p (fun _ => y) l) =
  match filter p l with
  | [] => []
  | _ :: rest => y :: rest
  end.
Proof.
  intro Hy. induction l as [|x l IH]; simpl; [reflexivity|].
  destruct (p x) eqn:E; simpl.
  - rewrite Hy. reflexivity.
  - rewrite E. exact IH.
Qed.

Lemma update_first_const_found {A : Type} (p : A -> bool) (f : A -> A)
    (x : A) (l : list A) :
  find p l = Some x ->
  update_first p (fun _ => f x) l = update_first p f l.
Proof.
  induction l as [|y l IH]; simpl; [discriminate|].
  destruct (p y); intro H.
  - injection H as ->. reflexivity.
  - rewrite IH by assumption. reflexivity.
Qed.

Lemma map_filter_update_first {A B : Type} (p key : A -> bool) (g : A -> B)
    (f : A -> A) (l : list A) :
  (forall x, p (f x) = p x) ->
  (forall x, g (f x) = g x) ->
  map g (filter p (update_first key f l)) = map g (filter p l).
Proof.
  intros Hp Hg. induction l as [|x l IH]; simpl; [reflexivity|].
  destruct (key x); simpl.
  - rewrite Hp. destruct (p x); simpl; [rewrite Hg|]; reflexivity.
  - destruct (p x); simpl; [rewrite IH|]; auto.
Qed.

Lemma insert_desc_length {A : Type} (key : A -> Q) (x : A) (l : list A) :
  List.length (insert_desc key x l) = S (List.length l).
Proof.
  induction l as [|y l IH]; simpl; [reflexivity|].
  destruct (key y <=? key x); simpl; congruence.
Qed.

Lemma sort_desc_length {A : Type} (key : A -> Q) (l : list A) :
  List.length (sort_desc key l) = List.length l.
Proof.
  induction l as [|x l IH]; simpl; [reflexivity|].
  rewrite insert_desc_length. congruence.
Qed.

Lemma insert_desc_In {A : Type} (key : A -> Q) (x y : A) (l : list A) :
  In y (insert_desc key x l) -> y = x \/ In y l.
Proof.
  induction l as [|z l IH]; simpl.
  - intros [->|[]]. now left.
  - destruct (key z <=? key x); simpl.
    + intros [->|H]; [now left|now right].
    + intros [->|H]; [right; now left|].
      destruct (IH H) as [->|H']; [now left|right; now right].
Qed.

Lemma sort_desc_In {A : Type} (key : A -> Q) (y : A) (l : list A) :
  In y (sort_desc key l) -> In y l.
Proof.
  induction l as [|x l IH]; simpl; [tauto|].
  intro H. apply insert_desc_In in H. destruct H as [->|H]; auto.
Qed.

Lemma last_In {A : Type} (l : list A) (d : A) : l <> [] -> In (last l d) l.
Proof.
  induction l as [|x l IH]; [congruence|].
  intros _. destruct l as [|y l].
  - now left.
  - right. apply IH. discriminate.
Qed.

(** ** Risk engine *)

Section RiskEngine.
Import BurnoutDetectionService.
Local Open Scope string_scope.

Lemma recent_rows_none db today employee_id days :
  (forall m, In m (burnout_metrics db) ->
     BurnoutMetric.employee_id m = employee_id ->
     (BurnoutMetric.date m < today - days)%Z) ->
  recent_rows db today employee_id days = [].
Proof.
  unfold recent_rows. induction (burnout_metrics db) as [|m l IH];
    intro H; simpl; [reflexivity|].
  destruct (String.eqb_spec (BurnoutMetric.employee_id m) employee_id) as [E|E];
    simpl.
  - pose proof (H m (or_introl eq_refl) E) as Hd.
    destruct (Z.leb_spec (today - days) (BurnoutMetric.date m)); [lia|].
    apply IH. intros m' Hin. apply H. now right.
  - apply IH. intros m' Hin. apply H. now right.
Qed.

(** C3, amended.  The window of [calculate_risk_score] is bounded
    below only: it is the filter [date >= today - days], and a metric
    dated after today is in it.  When the table holds no metric of the
    employee dated on or after [today - days], the function returns
    exactly 0.0; it is total, so no error is raised. *)
Theorem calculate_risk_score_no_metrics db today employee_id days :
  (forall m, In m (burnout_metrics db) ->
     BurnoutMetric.employee_id m = employee_id ->
     (BurnoutMetric.date m < today - days)%Z) ->
  calculate_risk_score db today employee_id days = 0.0.
Proof.
  intro H. unfold calculate_risk_score, _get_recent_metrics.
  rewrite (recent_rows_none _ _ _ _ H). reflexivity.
Qed.

Lemma calculate_risk_score_no_metrics_witness :
  calculate_risk_score Samples.db_stale 10 "e1" 7 = 0.0.
Proof.
  apply calculate_risk_score_no_metrics.
  intros m [<-|[<-|[]]]; simpl; intro E; [discriminate E|lia].
Defined.

(** C3 as stated fails.  On day 10 the only metric of the employee is
    dated day 15, as [update_daily_metric] stored it: twelve hours and
    the column defaults.  The seven days up to today, [3, 10], hold no
    metric, and yet the 7-day risk score is 0.58, not 0.0. *)
Lemma calculate_risk_score_counts_later_rows :
  map BurnoutMetric.date (burnout_metrics Samples.db_ahead) = [15%Z] /\
  (forall m, In m (burnout_metrics Samples.db_ahead) ->
     ~ (10 - 7 <= BurnoutMetric.date m <= 10)%Z) /\
  calculate_risk_score Samples.db_ahead 10 "e1" 7 == 0.58 /\
  ~ calculate_risk_score Samples.db_ahead 10 "e1" 7 == 0.0.
Proof.
  split; [reflexivity|]. split.
  - intros m [<-|[]]. cbn. lia.
  - split; [vm_compute; reflexivity|].
    intro H. vm_compute in H. discriminate H.
Qed.

Lemma clamp_range (risk : Q) : 0 <= Qmin (Qmax risk 0.0) 1.0 <= 1.
Proof.
  split.
  - apply Q.min_glb.
    + apply Qle_trans with 0.0; [discriminate|apply Q.le_max_r].
    + discriminate.
  - apply Qle_trans with 1.0; [apply Q.le_min_r|discriminate].
Qed.

(** C9. Whatever the stored metrics are, [calculate_risk_score]
    returns a value of the closed interval [0, 1]. *)
Theorem calculate_risk_score_range db today employee_id days :
  0 <= calculate_risk_score db today employee_id days <= 1.
Proof.
  unfold calculate_risk_score.
  destruct (_get_recent_metrics db today employee_id days) as [metrics|].
  - apply clamp_range.
  - split; discriminate.
Qed.

(** The two factors read the aggregate through [or]: they are the
    window's means unless a mean is zero (or, for a nullable column,
    absent). *)
Lemma component_scores_of_means db today employee_id days metrics :
  _get_recent_metrics db today employee_id days = Some metrics ->
  let rows := recent_rows db today employee_id days in
  cognitive_score (component_scores metrics) =
    or_float (sql_avg (map BurnoutMetric.cognitive_load rows)) 0.5 /\
  completion_score (component_scores metrics) =
    1.0 - or_float (sql_avg (map BurnoutMetric.task_completion_rate rows)) 1.0.
Proof.
  unfold _get_recent_metrics.
  destruct (sql_avg (map BurnoutMetric.hours_worked _)); [|discriminate].
  intro H. injection H as <-. split; reflexivity.
Qed.

Lemma component_scores_nonzero_means db today employee_id days metrics
    mean_load mean_rate :
  _get_recent_metrics db today employee_id days = Some metrics ->
  let rows := recent_rows db today employee_id days in
  sql_avg (map BurnoutMetric.cognitive_load rows) = Some mean_load ->
  sql_avg (map BurnoutMetric.task_completion_rate rows) = Some mean_rate ->
  ~ mean_load == 0 -> ~ mean_rate == 0 ->
  cognitive_score (component_scores metrics) = mean_load /\
  completion_score (component_scores metrics) = 1.0 - mean_rate.
Proof.
  intros H rows Hl Hr Nl Nr.
  destruct (component_scores_of_means _ _ _ _ _ H) as [-> ->].
  fold rows. rewrite Hl, Hr. unfold or_float.
  apply Qeq_bool_false in Nl, Nr. rewrite Nl, Nr. split; reflexivity.
Qed.

(** C2. On a window whose only row has cognitive load 0.0 and
    completion rate 0.0 both means are 0, yet the cognitive factor is
    0.5 and the completion deficit is 0: [_get_recent_metrics]
    replaces a zero mean by the default meant for a missing one. *)
Theorem zero_means_replaced_by_defaults :
  let rows := recent_rows Samples.db_idle 10 "e1" 7 in
  exists metrics mean_load mean_rate,
    _get_recent_metrics Samples.db_idle 10 "e1" 7 = Some metrics /\
    sql_avg (map BurnoutMetric.cognitive_load rows) = Some mean_load /\
    sql_avg (map BurnoutMetric.task_completion_rate rows) = Some mean_rate /\
    mean_load == 0 /\ mean_rate == 0 /\
    cognitive_score (component_scores metrics) == 0.5 /\
    ~ cognitive_score (component_scores metrics) == mean_load /\
    completion_score (component_scores metrics) == 0 /\
    ~ completion_score (component_scores metrics) == 1 - mean_rate.
Proof.
  cbv zeta. eexists. eexists. eexists.
  split; [vm_compute; reflexivity|].
  split; [vm_compute; reflexivity|].
  split; [vm_compute; reflexivity|].
  repeat split; try (vm_compute; reflexivity);
    intro H; vm_compute in H; discriminate H.
Qed.

(** C1 as stated fails: at a risk score of 0.999 only the two
    actions of the top band are emitted; neither the high alert, nor
    a delegation suggestion, nor the micro-breaks fire. *)
Lemma trigger_interventions_top_band_only :
  0.9 <= calculate_risk_score Samples.db_hot 10 "e1" 7 /\
  trigger_interventions Samples.db_hot 10 "e1" =
    [BlockNewTasks "e1"; AlertManager "e1" "critical"] /\
  ~ In (InsertMicroBreaks "e1") (trigger_interventions Samples.db_hot 10 "e1") /\
  ~ In (AlertManager "e1" "high") (trigger_interventions Samples.db_hot 10 "e1").
Proof.
  split; [apply Qle_bool_iff; vm_compute; reflexivity|].
  split; [vm_compute; reflexivity|].
  split; intro H; vm_compute in H; intuition discriminate.
Qed.

(** C1, amended. The bands are mutually exclusive: exactly the
    actions of the highest band the score reaches are emitted.  From
    0.9 the assignment block and the critical alert; in [0.8, 0.9)
    the high alert and the delegation suggestion; in [0.7, 0.8) the
    delegation suggestion alone; in [0.5, 0.7) the micro-breaks;
    below 0.5 nothing. *)
Theorem trigger_interventions_exclusive_bands db today employee_id :
  let risk_score := calculate_risk_score db today employee_id 7 in
  (0.9 <= risk_score ->
     trigger_interventions db today employee_id =
       [BlockNewTasks employee_id; AlertManager employee_id "critical"]) /\
  (0.8 <= risk_score < 0.9 ->
     trigger_interventions db today employee_id =
       AlertManager employee_id "high" :: _suggest_delegation db employee_id) /\
  (0.7 <= risk_score < 0.8 ->
     trigger_interventions db today employee_id =
       _suggest_delegation db employee_id) /\
  (0.5 <= risk_score < 0.7 ->
     trigger_interventions db today employee_id =
       [InsertMicroBreaks employee_id]) /\
  (risk_score < 0.5 -> trigger_interventions db today employee_id = []).
Proof.
  intro risk_score. unfold trigger_interventions. fold risk_score.
  destruct (risk_score >=? 0.9) eqn:E9;
    [apply Qgeb_le in E9|apply Qgeb_lt in E9];
  (destruct (risk_score >=? 0.8) eqn:E8;
    [apply Qgeb_le in E8|apply Qgeb_lt in E8]);
  (destruct (risk_score >=? 0.7) eqn:E7;
    [apply Qgeb_le in E7|apply Qgeb_lt in E7]);
  (destruct (risk_score >=? 0.5) eqn:E5;
    [apply Qgeb_le in E5|apply Qgeb_lt in E5]);
  repeat split; intros; try reflexivity; exfalso; lra.
Qed.

Lemma trigger_interventions_exclusive_bands_witness :
  trigger_interventions Samples.db_hot 10 "e1" =
    [BlockNewTasks "e1"; AlertManager "e1" "critical"].
Proof.
  apply (proj1 (trigger_interventions_exclusive_bands Samples.db_hot 10 "e1")).
  apply Qle_bool_iff. vm_compute. reflexivity.
Defined.

(** *** The daily metric upsert *)

Lemma risk_ignores_risk_column db key r today employee_id days :
  calculate_risk_score
    (with_burnout_metrics
       (update_first key (BurnoutMetric.set_risk_score r) (burnout_metrics db))
       db) today employee_id days =
  calculate_risk_score db today employee_id days.
Proof.
  unfold calculate_risk_score, _get_recent_metrics, recent_rows.
  cbn [burnout_metrics with_burnout_metrics].
  rewrite !map_filter_update_first by (intros []; reflexivity).
  reflexivity.
Qed.

Lemma same_day_create e d h b s :
  same_day e d (BurnoutMetric.create e d h b s) = true.
Proof.
  unfold same_day. cbn. now rewrite String.eqb_refl, Z.eqb_refl.
Qed.

Lemma filter_head_true {A : Type} (p : A -> bool) l x rest :
  filter p l = x :: rest -> p x = true.
Proof.
  intro H. assert (Hin : In x (filter p l)) by (rewrite H; now left).
  apply filter_In in Hin. tauto.
Qed.

(** One call: afterwards the key has the returned row first, with the
    hours and breaks of the call, the sentiment of the call if it has
    one and the stored one otherwise, and the risk score of the
    database the call leaves behind. *)
Lemma update_daily_metric_row db today employee_id hours breaks sentiment
    metric_date metric db' :
  update_daily_metric db today employee_id hours breaks sentiment metric_date
    = (metric, db') ->
  let d := default_date metric_date today in
  metrics_on db' employee_id d = metric :: tl (metrics_on db employee_id d) /\
  BurnoutMetric.hours_worked metric = hours /\
  BurnoutMetric.breaks_taken metric = breaks /\
  BurnoutMetric.sentiment_score metric =
    match sentiment, metrics_on db employee_id d with
    | Some _, _ => sentiment
    | None, existing :: _ => BurnoutMetric.sentiment_score existing
    | None, [] => None
    end /\
  BurnoutMetric.risk_score metric =
    Some (calculate_risk_score db' today employee_id 7).
Proof.
  unfold update_daily_metric, metrics_on.
  set (d := default_date metric_date today).
  set (key := same_day employee_id d).
  rewrite find_hd_filter.
  destruct (filter key (burnout_metrics db)) as [|x rest] eqn:F;
    cbn [hd_error tl].
  - (* insert *)
    set (m0 := BurnoutMetric.create employee_id d hours breaks sentiment).
    set (db0 := with_burnout_metrics (burnout_metrics db ++ [m0])%list db).
    set (r := calculate_risk_score db0 today employee_id 7).
    intro H. injection H as <- <-. cbv zeta.
    assert (K0 : key m0 = true) by apply same_day_create.
    assert (F0 : filter key (burnout_metrics db0) = [m0]).
    { unfold db0. cbn [burnout_metrics with_burnout_metrics].
      rewrite filter_app, F. cbn. now rewrite K0. }
    change (burnout_metrics db ++ [m0])%list with (burnout_metrics db0).
    split; [|split; [reflexivity|split; [reflexivity|split]]].
    + change (burnout_metrics (with_burnout_metrics ?l _)) with l.
      rewrite filter_update_first_const by exact K0. now rewrite F0.
    + destruct sentiment; reflexivity.
    + cbn [BurnoutMetric.risk_score BurnoutMetric.set_risk_score]. f_equal.
      rewrite (update_first_const_found key
                 (BurnoutMetric.set_risk_score (Some r)) m0).
      * symmetry. apply (risk_ignores_risk_column db0).
      * rewrite find_hd_filter, F0. reflexivity.
  - (* overwrite *)
    assert (Kx : key x = true) by (eapply filter_head_true; eassumption).
    set (m0 := match sentiment with
               | Some _ => BurnoutMetric.set_sentiment_score sentiment _
               | None => _
               end).
    set (db0 := with_burnout_metrics
                  (update_first key (fun _ => m0) (burnout_metrics db)) db).
    set (r := calculate_risk_score db0 today employee_id 7).
    intro H. injection H as <- <-.
    assert (K0 : key m0 = true) by (unfold m0; destruct sentiment; exact Kx).
    assert (F0 : filter key (burnout_metrics db0) = m0 :: rest).
    { unfold db0. cbn [burnout_metrics with_burnout_metrics].
      rewrite filter_update_first_const by exact K0. now rewrite F. }
    change (update_first key (fun _ => m0) (burnout_metrics db))
      with (burnout_metrics db0).
    split; [|split; [|split; [|split]]].
    + change (burnout_metrics (with_burnout_metrics ?l _)) with l.
      rewrite filter_update_first_const by exact K0. now rewrite F0.
    + unfold m0. destruct sentiment; reflexivity.
    + unfold m0. destruct sentiment; reflexivity.
    + unfold m0. destruct sentiment; reflexivity.
    + cbn [BurnoutMetric.risk_score BurnoutMetric.set_risk_score]. f_equal.
      rewrite (update_first_const_found key
                 (BurnoutMetric.set_risk_score (Some r)) m0).
      * symmetry. apply (risk_ignores_risk_column db0).
      * rewrite find_hd_filter, F0. reflexivity.
Qed.

(** C5 as stated fails for the sentiment: a second call without a
    sentiment leaves the sentiment of the first call in the row. *)
Lemma update_daily_metric_keeps_sentiment :
  let first := update_daily_metric Samples.empty_db 10 "e1" 8 2 (Some (-0.5)) None in
  let second := update_daily_metric (snd first) 10 "e1" 9 1 None None in
  metrics_on (snd second) "e1" 10 = [fst second] /\
  BurnoutMetric.hours_worked (fst second) = 9 /\
  BurnoutMetric.sentiment_score (fst second) = Some (-0.5) /\
  BurnoutMetric.sentiment_score (fst second) <> None.
Proof.
  cbv zeta. repeat split; try (vm_compute; reflexivity).
  vm_compute. discriminate.
Qed.

(** C5, amended. Two calls for the same employee and date, on a
    table with at most one row for that key, leave exactly one row
    for it: the row the second call returns.  Its hours and breaks
    are those of the second call; its sentiment is the second call's
    when that call passes one, and otherwise the sentiment the row
    had after the first call; its risk score is the score computed on
    the database as the second call leaves it. *)
Theorem update_daily_metric_twice db today1 today2 employee_id d
    hours1 breaks1 sentiment1 date1 hours2 breaks2 sentiment2 date2
    m1 db1 m2 db2 :
  default_date date1 today1 = d ->
  default_date date2 today2 = d ->
  (List.length (metrics_on db employee_id d) <= 1)%nat ->
  update_daily_metric db today1 employee_id hours1 breaks1 sentiment1 date1
    = (m1, db1) ->
  update_daily_metric db1 today2 employee_id hours2 breaks2 sentiment2 date2
    = (m2, db2) ->
  metrics_on db2 employee_id d = [m2] /\
  BurnoutMetric.hours_worked m2 = hours2 /\
  BurnoutMetric.breaks_taken m2 = breaks2 /\
  BurnoutMetric.sentiment_score m2 =
    match sentiment2 with
    | Some _ => sentiment2
    | None => BurnoutMetric.sentiment_score m1
    end /\
  BurnoutMetric.risk_score m2 =
    Some (calculate_risk_score db2 today2 employee_id 7).
Proof.
  intros D1 D2 Hlen H1 H2.
  apply update_daily_metric_row in H1. rewrite D1 in H1.
  destruct H1 as (R1 & _).
  apply update_daily_metric_row in H2. rewrite D2 in H2.
  destruct H2 as (R2 & Hh & Hb & Hs & Hr).
  assert (T : tl (metrics_on db employee_id d) = []).
  { destruct (metrics_on db employee_id d) as [|x [|y l]];
      try reflexivity. simpl in Hlen. lia. }
  rewrite T in R1. rewrite R1 in R2, Hs. cbn [tl] in R2.
  repeat split; assumption.
Qed.

Lemma update_daily_metric_twice_witness :
  let first := update_daily_metric Samples.empty_db 10 "e1" 8 2 (Some (-0.5)) None in
  let second := update_daily_metric (snd first) 11 "e1" 9 1 (Some 0.5) (Some 10%Z) in
  metrics_on (snd second) "e1" 10 = [fst second] /\
  BurnoutMetric.hours_worked (fst second) = 9 /\
  BurnoutMetric.breaks_taken (fst second) = 1%Z /\
  BurnoutMetric.sentiment_score (fst second) = Some 0.5 /\
  BurnoutMetric.risk_score (fst second) =
    Some (calculate_risk_score (snd second) 11 "e1" 7).
Proof.
  cbv zeta.
  eapply (update_daily_metric_twice Samples.empty_db 10 11 "e1" 10
            8 2 (Some (-0.5)) None 9 1 (Some 0.5) (Some 10%Z)).
  - reflexivity.
  - reflexivity.
  - simpl. lia.
  - apply surjective_pairing.
  - apply surjective_pairing.
Defined.

End RiskEngine.

(** ** Priority engine *)

Section PriorityEngine.
Import TaskPrioritizationService.

(** C6 as stated fails at an estimate of 0.0: the effort sub-score
    is 0.5, not the 0.7 that the formula for efforts below two hours
    gives. *)
Lemma effort_zero_is_no_estimate :
  _normalize_effort (Some 0.0) = 0.5 /\
  ~ _normalize_effort (Some 0.0) == 0.7 + (0.0 / 2) * 0.3.
Proof.
  split; [reflexivity|].
  intro H. vm_compute in H. discriminate H.
Qed.

Lemma _normalize_effort_cases (effort : float) :
  (effort == 0 -> _normalize_effort (Some effort) = 0.5) /\
  (~ effort == 0 -> effort < 2 ->
     _normalize_effort (Some effort) = 0.7 + (effort / 2.0) * 0.3) /\
  (2 <= effort <= 4 -> _normalize_effort (Some effort) = 1.0) /\
  (4 < effort <= 8 ->
     _normalize_effort (Some effort) = 1.0 - ((effort - 4.0) / 4.0) * 0.3) /\
  (8 < effort -> _normalize_effort (Some effort) = 0.4).
Proof.
  unfold _normalize_effort.
  destruct (Qeq_bool effort 0) eqn:E0;
    [apply Qeq_bool_eq in E0|apply Qeq_bool_false in E0];
  (destruct (2.0 <=? effort) eqn:E2;
    [apply Qleb_le in E2|apply Qleb_gt in E2]);
  (destruct (effort <=? 4.0) eqn:E4;
    [apply Qleb_le in E4|apply Qleb_gt in E4]);
  (destruct (effort <? 2.0) eqn:L2;
    [apply Qltb_lt in L2|apply Qltb_ge in L2]);
  (destruct (effort <=? 8.0) eqn:E8;
    [apply Qleb_le in E8|apply Qleb_gt in E8]);
  cbn [andb]; repeat split; intros; try reflexivity; exfalso; lra.
Qed.

(** C6, amended. The effort sub-score of [calculate_priority_score]
    is 0.5 when the task has no estimate or an estimate of zero; for
    a non-zero estimate below 2 hours it is 0.7 + (effort/2)*0.3;
    from 2 to 4 hours it is 1.0; above 4 and up to 8 hours it is
    1.0 - ((effort-4)/4)*0.3; above 8 hours it is 0.4. *)
Theorem effort_sub_score_piecewise now task employee :
  let score := effort_norm (sub_scores now task employee) in
  match Task.estimated_effort task with
  | None => score = 0.5
  | Some effort =>
      (effort == 0 -> score = 0.5) /\
      (~ effort == 0 -> effort < 2 -> score = 0.7 + (effort / 2.0) * 0.3) /\
      (2 <= effort <= 4 -> score = 1.0) /\
      (4 < effort <= 8 -> score = 1.0 - ((effort - 4.0) / 4.0) * 0.3) /\
      (8 < effort -> score = 0.4)
  end.
Proof.
  cbn [effort_norm sub_scores].
  destruct (Task.estimated_effort task) as [effort|].
  - apply _normalize_effort_cases.
  - reflexivity.
Qed.

Lemma effort_sub_score_piecewise_witness :
  effort_norm
    (sub_scores 0
       (Task.mk "t1" "Draft report" (Some "e1"%string) 3 None (Some 1) PENDING
          None [])
       (Employee.mk "e1" "Ada" None [])) = 0.7 + (1 / 2.0) * 0.3.
Proof.
  refine (proj1 (proj2 (effort_sub_score_piecewise 0
            (Task.mk "t1" "Draft report" (Some "e1"%string) 3 None (Some 1)
               PENDING None [])
            (Employee.mk "e1" "Ada" None []))) _ _).
  - intro H. vm_compute in H. discriminate H.
  - vm_compute. reflexivity.
Defined.

End PriorityEngine.

(** ** Equity engine *)

Lemma mapM_ok {A B : Type} (f : A -> result B) (l : list A) :
  (forall a, In a l -> exists b, f a = Ok b) ->
  exists bs, mapM f l = Ok bs /\ List.length bs = List.length l.
Proof.
  induction l as [|a l IH]; intro H; simpl.
  - exists []. split; reflexivity.
  - destruct (H a (or_introl eq_refl)) as [b Hb].
    destruct IH as (bs & Hbs & Hlen); [intros; apply H; now right|].
    exists (b :: bs). rewrite Hb, Hbs. simpl. split; congruence.
Qed.

Lemma mapM_In {A B : Type} (f : A -> result B) (l : list A) (bs : list B) :
  mapM f l = Ok bs ->
  forall b, In b bs -> exists a, In a l /\ f a = Ok b.
Proof.
  revert bs. induction l as [|a l IH]; intros bs H b Hb; simpl in H.
  - injection H as <-. destruct Hb.
  - destruct (f a) as [b0|] eqn:Ea; [|discriminate]. simpl in H.
    destruct (mapM f l) as [bs0|] eqn:El; [|discriminate]. simpl in H.
    injection H as <-. destruct Hb as [<-|Hb].
    + exists a. split; [now left|assumption].
    + destruct (IH bs0 eq_refl b Hb) as (a' & Hin & Ha').
      exists a'. split; [now right|assumption].
Qed.

Section EquityEngine.
Import WorkloadBalancingService.
Local Open Scope string_scope.

Lemma workload_ok db emp :
  In emp (employees db) ->
  exists w, _calculate_employee_workload db (Employee.id emp) = Ok w.
Proof.
  intro Hin. unfold _calculate_employee_workload.
  destruct (find _ (employees db)) as [e|] eqn:F.
  - eexists. reflexivity.
  - apply (find_none _ _ F) in Hin. cbv beta in Hin.
    rewrite String.eqb_refl in Hin. discriminate.
Qed.

Lemma current_workloads_ok db emps :
  (forall emp, In emp emps -> In emp (employees db)) ->
  exists ws, current_workloads db emps = Ok ws /\
             List.length ws = List.length emps.
Proof.
  intro H. apply mapM_ok. intros emp Hin. apply workload_ok. auto.
Qed.

Lemma team_members_stored db team_id emp :
  In emp (team_members db team_id) -> In emp (employees db).
Proof.
  unfold team_members. intro H. apply filter_In in H. tauto.
Qed.

(** C8. For a team that exists and has no members,
    [calculate_team_equity] returns a response (it raises nothing)
    whose equity score is exactly 1.0 and whose recommendation list
    is the single, hence non-empty, entry "No team members found". *)
Theorem calculate_team_equity_empty_team pow_half db team_id team :
  team_by_id db team_id = Some team ->
  team_members db team_id = [] ->
  exists r,
    calculate_team_equity pow_half db team_id = Ok r /\
    equity_score r = 1.0 /\
    member_workloads r = [] /\
    recommendations r = ["No team members found"] /\
    recommendations r <> [].
Proof.
  intros Ht Hm. unfold calculate_team_equity. rewrite Ht, Hm.
  eexists. split; [reflexivity|]. cbn. repeat split. discriminate.
Qed.

Lemma calculate_team_equity_empty_team_witness :
  exists r,
    calculate_team_equity Samples.sqrt_approx Samples.db_vacant "t1" = Ok r /\
    equity_score r = 1.0 /\
    member_workloads r = [] /\
    recommendations r = ["No team members found"] /\
    recommendations r <> [].
Proof.
  apply (calculate_team_equity_empty_team Samples.sqrt_approx
           Samples.db_vacant "t1" (Team.mk "t1" "Platform"));
    reflexivity.
Defined.

End EquityEngine.

(** *** The equity score in binary64 arithmetic *)

Section EquityBinary64.
Import PrimFloat SpecFloat FloatOps FloatAxioms.
Import Binary64.
#[local] Set Warnings "-inexact-float".
Local Open Scope float_scope.

Lemma zero_spec (x : binary64) :
  (x =? 0) = true <-> exists b, Prim2SF x = S754_zero b.
Proof.
  rewrite eqb_spec. change (Prim2SF 0) with (S754_zero false).
  destruct (Prim2SF x) as [b|b| |b m e]; unfold SFeqb; simpl.
  - split; [intros _; now exists b|reflexivity].
  - split; [destruct b; discriminate|intros [? H]; discriminate H].
  - split; [discriminate|intros [? H]; discriminate H].
  - split; [destruct b; discriminate|intros [? H]; discriminate H].
Qed.

(** A float that compares equal to zero is one of the two zeros. *)
Lemma zero_cases (x : binary64) : (x =? 0) = true -> x = 0 \/ x = (-0).
Proof.
  intro H. apply zero_spec in H. destruct H as [[|] H]; [right|left];
    apply Prim2SF_inj; rewrite H; reflexivity.
Qed.

Lemma finite_cases (s : binary64) :
  is_finite s = true ->
  (exists b, Prim2SF s = S754_zero b) \/
  (exists b m e, Prim2SF s = S754_finite b m e).
Proof.
  unfold is_finite, is_nan, is_infinity.
  rewrite !eqb_spec, abs_spec.
  change (Prim2SF infinity) with (S754_infinity false).
  destruct (Prim2SF s) as [b|b| |b m e]; simpl.
  - intros _. left. now exists b.
  - destruct b; discriminate.
  - discriminate.
  - intros _. right. now exists b, m, e.
Qed.

Lemma finite_not_zero (x : binary64) b m e :
  Prim2SF x = S754_finite b m e -> (x =? 0) = false.
Proof.
  intro H. rewrite eqb_spec, H. destruct b; reflexivity.
Qed.

(** A finite number minus itself is [+0]. *)
Lemma sub_diag (s : binary64) b m e :
  Prim2SF s = S754_finite b m e -> s - s = 0.
Proof.
  intro H. apply Prim2SF_inj. rewrite sub_spec, H.
  unfold SF64sub, SFsub. rewrite Z.sub_diag. reflexivity.
Qed.

(** [==] with a finite number that is not zero is equality. *)
Lemma eqb_finite_eq (x s : binary64) b m e :
  Prim2SF s = S754_finite b m e -> (x =? s) = true -> x = s.
Proof.
  intros Hs H. rewrite eqb_spec, Hs in H. apply Prim2SF_inj. rewrite Hs.
  unfold SFeqb in H.
  destruct (Prim2SF x) as [b'|b'| |b' m' e']; simpl in H;
    try (destruct b'; discriminate H); try (destruct b; discriminate H);
    try discriminate H.
  destruct b', b; try discriminate H;
    (destruct (e' ?= e)%Z eqn:Ez; try discriminate H;
     destruct (Pos.compare_cont Eq m' m) eqn:Em; try discriminate H;
     apply Z.compare_eq in Ez; apply Pos.compare_eq in Em; now subst).
Qed.

Lemma digits2_pos_iter p k :
  digits2_pos (Pos.iter xO p k) = (digits2_pos p + k)%positive.
Proof.
  induction k as [|k IH] using Pos.peano_ind.
  - simpl. now rewrite Pos.add_1_r.
  - rewrite Pos.iter_succ. simpl. rewrite IH. now rewrite Pos.add_succ_r.
Qed.

Lemma digits2_pos_bound p : forall k, (0 <= k)%Z ->
  (Zpos p < 2 ^ k)%Z -> (Zpos (digits2_pos p) <= k)%Z.
Proof.
  induction p as [p IH|p IH|]; intros k Hk H; simpl.
  - assert (k <> 0)%Z by (intros ->; simpl in H; lia).
    replace k with (Z.succ (k - 1))%Z in H by lia.
    rewrite Z.pow_succ_r in H by lia.
    specialize (IH (k - 1)%Z). lia.
  - assert (k <> 0)%Z by (intros ->; simpl in H; lia).
    replace k with (Z.succ (k - 1))%Z in H by lia.
    rewrite Z.pow_succ_r in H by lia.
    specialize (IH (k - 1)%Z). lia.
  - assert (k <> 0)%Z by (intros ->; simpl in H; lia). lia.
Qed.

(** A positive integer below [2 ^ 53] converts to a positive finite
    number (exactly, which is not needed here). *)
Lemma binary_normalize_small p :
  (Zpos p < 2 ^ 53)%Z ->
  exists m e,
    binary_normalize prec emax (Zpos p) 0 false = S754_finite false m e.
Proof.
  intro H. pose proof (digits2_pos_bound p 53 ltac:(lia) H) as Hd.
  unfold binary_normalize, binary_round.
  set (d := digits2_pos p) in *.
  assert (Hf : fexp prec emax (Zpos d + 0) = (Zpos d - 53)%Z).
  { unfold fexp, emin, prec, emax. lia. }
  rewrite Hf. unfold shl_align.
  assert (Haux : forall mz ez,
            (Zpos (digits2_pos mz) + ez = Zpos d)%Z -> (ez = Zpos d - 53)%Z ->
            exists m e, binary_round_aux prec emax false (Zpos mz) ez loc_Exact
                        = S754_finite false m e).
  { intros mz ez H1 H2. unfold binary_round_aux, shr_fexp.
    cbn [Zdigits2 shr_record_of_loc].
    assert (Hn : (fexp prec emax (Zpos (digits2_pos mz) + ez) - ez = 0)%Z).
    { unfold fexp, emin, prec, emax. lia. }
    rewrite Hn. cbn [shr loc_of_shr_record shr_m round_nearest_even Zdigits2
                      shr_record_of_loc].
    rewrite Hn. cbn [shr shr_m].
    assert (Hle : (ez <=? emax - prec)%Z = true).
    { apply Z.leb_le. unfold emax, prec. lia. }
    rewrite Hle. now exists mz, ez. }
  destruct (Zpos d - 53 - 0)%Z as [|q|q] eqn:E.
  - apply Haux; lia.
  - lia.
  - apply Haux; [|lia]. rewrite digits2_pos_iter. fold d. lia.
Qed.

Lemma len_finite {A : Type} (xs : list A) :
  xs <> [] -> (Z.of_nat (List.length xs) < 2 ^ 53)%Z ->
  exists m e, Prim2SF (len xs) = S754_finite false m e.
Proof.
  intros Hne Hlt. unfold len. rewrite of_uint63_spec, Uint63.of_Z_spec.
  rewrite Z.mod_small.
  2:{ split; [lia|]. eapply Z.lt_trans; [exact Hlt|]. reflexivity. }
  destruct xs as [|x xs]; [congruence|].
  cbn [List.length] in *. rewrite Nat2Z.inj_succ in *.
  destruct (Z.succ (Z.of_nat (List.length xs))) as [|p|p] eqn:E; try lia.
  now apply binary_normalize_small.
Qed.

Lemma add_zero_l (x : binary64) : (x =? 0) = true -> 0 + x = 0.
Proof. intro H. destruct (zero_cases x H) as [->| ->]; reflexivity. Qed.

Lemma compensate_zero (x : binary64) :
  (x =? 0) = true -> compensate (0, 0) x = (0, 0).
Proof. intro H. destruct (zero_cases x H) as [->| ->]; reflexivity. Qed.

(** Either way of summing, zeros add up to [+0]. *)
Lemma py_sum_zeros summation (xs : list binary64) :
  Forall (fun x => (x =? 0) = true) xs -> py_sum summation xs = 0.
Proof.
  intro H. destruct summation.
  - cbn [py_sum]. induction H as [|x xs Hx _ IH]; [reflexivity|].
    cbn [fold_left]. now rewrite (add_zero_l x Hx).
  - destruct H as [|x xs Hx H]; [reflexivity|].
    cbn [py_sum]. rewrite (add_zero_l x Hx).
    assert (E : fold_left compensate xs (0, 0) = (0, 0)).
    { induction H as [|y ys Hy _ IH]; [reflexivity|].
      cbn [fold_left]. now rewrite (compensate_zero y Hy). }
    rewrite E. reflexivity.
Qed.

Lemma div_zero_finite (x y : binary64) b m e :
  (x =? 0) = true -> Prim2SF y = S754_finite b m e -> (x / y =? 0) = true.
Proof.
  intros Hx Hy. apply zero_spec in Hx. destruct Hx as [bx Hx].
  apply zero_spec. rewrite div_spec, Hx, Hy. eexists. reflexivity.
Qed.

Lemma div_zero_positive (y : binary64) m e :
  Prim2SF y = S754_finite false m e -> 0 / y = 0.
Proof.
  intro Hy. apply Prim2SF_inj. rewrite div_spec, Hy. reflexivity.
Qed.

Lemma one_minus_zero (cv : binary64) :
  (cv =? 0) = true -> py_max 0.0 (1.0 - cv) = 1.0.
Proof. intro H. destruct (zero_cases cv H) as [->| ->]; reflexivity. Qed.

(** C7, amended.  Take a team of at least one and fewer than [2 ^ 53]
    members who all have the same global score [s].  If [s] is zero,
    the equity score is exactly 1.0: the mean is zero and the function
    returns before any division.  If [s] is finite and the mean that
    the code computes, [sum(scores) / len(scores)], is equal to [s],
    the equity score is exactly 1.0 as well (given that [0.0 ** 2] and
    [0.0 ** 0.5] are [0.0]).  This holds for both ways of summing.
    Without the condition on the mean the score can fall below 1.0. *)
Theorem _calculate_equity_score_identical_scores summation pow workloads s :
  workloads <> [] ->
  (Z.of_nat (List.length workloads) < 2 ^ 53)%Z ->
  (forall w, In w workloads -> global_score w = s) ->
  let scores := map global_score workloads in
  ((s =? 0) = true ->
   _calculate_equity_score summation pow workloads = 1.0) /\
  (is_finite s = true ->
   (py_sum summation scores / len scores =? s) = true ->
   pow 0 2 = 0 -> pow 0 0.5 = 0 ->
   _calculate_equity_score summation pow workloads = 1.0).
Proof.
  intros Hne Hlen Hall scores.
  assert (Hscores : Forall (fun x => x = s) scores).
  { apply Forall_forall. intros x Hx. apply in_map_iff in Hx.
    destruct Hx as (w & <- & Hw). now apply Hall. }
  destruct (len_finite scores) as (lm & le & Hlenf).
  { unfold scores. destruct workloads; [congruence|discriminate]. }
  { unfold scores. now rewrite length_map. }
  assert (Hzero : (s =? 0) = true ->
                  _calculate_equity_score summation pow workloads = 1.0).
  { intro Hs. unfold _calculate_equity_score.
    destruct workloads as [|w ws]; [congruence|]. fold scores.
    rewrite (py_sum_zeros summation scores).
    2:{ revert Hscores. apply Forall_impl. now intros x ->. }
    now rewrite (div_zero_positive _ _ _ Hlenf). }
  split; [exact Hzero|].
  intros Hfin Hmean Hpow2 Hpowh.
  destruct (finite_cases s Hfin) as [[b Hs]|(b & m & e & Hs)].
  { apply Hzero. apply zero_spec. now exists b. }
  apply (eqb_finite_eq _ _ _ _ _ Hs) in Hmean.
  unfold _calculate_equity_score.
  destruct workloads as [|w ws]; [congruence|]. fold scores.
  rewrite Hmean. rewrite (finite_not_zero _ _ _ _ Hs).
  rewrite (py_sum_zeros summation (map (fun s0 => pow (s0 - s) 2) scores)).
  2:{ apply Forall_map. revert Hscores. apply Forall_impl. intros x ->.
      rewrite (sub_diag _ _ _ _ Hs), Hpow2. reflexivity. }
  rewrite (div_zero_positive _ _ _ Hlenf), Hpowh.
  apply one_minus_zero.
  destruct (0 <? s); [|reflexivity].
  apply (div_zero_finite 0 s b m e); [reflexivity|exact Hs].
Qed.

Lemma _calculate_equity_score_identical_scores_witness :
  _calculate_equity_score LeftFold SamplesBinary64.pow_exact
    SamplesBinary64.idle_pair = 1.0 /\
  _calculate_equity_score Compensated SamplesBinary64.pow_exact
    SamplesBinary64.pair = 1.0.
Proof.
  split.
  - refine (proj1 (_calculate_equity_score_identical_scores LeftFold
                     SamplesBinary64.pow_exact SamplesBinary64.idle_pair 0
                     _ _ _) _).
    + discriminate.
    + vm_compute. reflexivity.
    + intros w [<-|[<-|[]]]; reflexivity.
    + reflexivity.
  - refine (proj2 (_calculate_equity_score_identical_scores Compensated
                     SamplesBinary64.pow_exact SamplesBinary64.pair 0.18
                     _ _ _) _ _ _ _).
    + discriminate.
    + vm_compute. reflexivity.
    + intros w [<-|[<-|[]]]; reflexivity.
    + reflexivity.
    + reflexivity.
    + reflexivity.
    + reflexivity.
Defined.

(** C7 as stated fails.  Three members with the same global score
    0.18 (one open task each, without estimate, at priority 0.15):
    the sum is 0.54 rounded up, the mean 0.18000000000000002 is not
    0.18, the deviations are [-2 ^ -55], and the equity score is
    0.9999999999999999, the float next below 1.0.  Both ways of
    summing give it. *)
Lemma _calculate_equity_score_three_members :
  Forall (fun w => global_score w = 0.18) SamplesBinary64.trio /\
  forall summation,
    py_sum summation (map global_score SamplesBinary64.trio)
      / len SamplesBinary64.trio = 0.18000000000000002 /\
    _calculate_equity_score summation SamplesBinary64.pow_exact
      SamplesBinary64.trio = 0.9999999999999999 /\
    (_calculate_equity_score summation SamplesBinary64.pow_exact
       SamplesBinary64.trio =? 1.0) = false.
Proof.
  split; [repeat constructor|].
  intros []; repeat split; vm_compute; reflexivity.
Qed.

End EquityBinary64.

(** *** The redistribution loop *)

Section Redistribution.
Import WorkloadBalancingService.
Local Open Scope string_scope.

Lemma sorted_workloads_ok db emps :
  (forall emp, In emp emps -> In emp (employees db)) ->
  exists ws, sorted_workloads db emps = Ok ws /\
             List.length ws = List.length emps.
Proof.
  intro H. destruct (current_workloads_ok db emps H) as (ws & Hws & Hlen).
  unfold sorted_workloads. rewrite Hws. cbn [bind].
  eexists. split; [reflexivity|].
  now rewrite sort_desc_length.
Qed.





(** The artificial dataset: without [auto_assign] the workloads never
    change.  On SQLite the same task is suggested again and again, and
    the loop stops at ten suggestions; nine units of fuel do not
    suffice.  On PostgreSQL the first search for a task is the end. *)
Lemma redistribute_tasks_flood :
  (exists suggestions,
     redistribute_tasks SQLite 10 Samples.db_flood "t1" false
       = Some (Ok (suggestions, Samples.db_flood)) /\
     List.length suggestions = 10%nat /\
     Forall (fun sg => task_id sg = "k1") suggestions /\
     redistribute_tasks SQLite 9 Samples.db_flood "t1" false = None) /\
  redistribute_tasks PostgreSQL 1 Samples.db_flood "t1" false
    = Some (Raise ProgrammingError).
Proof.
  split; [|vm_compute; reflexivity].
  eexists. split; [vm_compute; reflexivity|].
  split; [reflexivity|]. split; [repeat constructor|].
  vm_compute. reflexivity.
Qed.

(** With [auto_assign] tasks do move, and the loop stops by itself
    once the loads are balanced. *)
Lemma redistribute_tasks_flood_auto :
  exists suggestions db',
    redistribute_tasks SQLite 10 Samples.db_flood "t1" true
      = Some (Ok (suggestions, db')) /\
    map task_id suggestions = ["k1"; "k2"; "k3"; "k4"; "k5"].
Proof.
  do 2 eexists. split; vm_compute; reflexivity.
Qed.

End Redistribution.


(** ** Recognition engine *)

Section RecognitionEngine.
Import RecognitionService.
Local Open Scope string_scope.

(** C10 as stated fails: an empty note is accepted, and the flag is
    set together with it. *)
Lemma manager_recognition_accepts_empty_note :
  exists a db',
    manager_recognition Samples.db_award "a1" "" = Ok (a, db') /\
    find (has_id "a1") (achievements Samples.db_award)
      = Some (Achievement.mk "a1" "e1" DELIVERABLE "Shipped the release" 0.8
                false None None) /\
    find (has_id "a1") (achievements db') = Some a /\
    Achievement.recognized_by_manager a = true /\
    Achievement.recognition_note a = Some "".
Proof.
  do 2 eexists. split; [vm_compute; reflexivity|].
  repeat split.
Qed.

Lemma Forall2_update_first {A : Type} (R : A -> A -> Prop) (p : A -> bool)
    (f : A -> A) (l : list A) :
  (forall x, R x x) ->
  (forall x, p x = true -> R x (f x)) ->
  Forall2 R l (update_first p f l).
Proof.
  intros Hrefl Hf. induction l as [|x l IH]; simpl; [constructor|].
  destruct (p x) eqn:E.
  - constructor; [now apply Hf|].
    clear -Hrefl. induction l; constructor; auto.
  - constructor; auto.
Qed.

(** C10, amended. On an achievement that exists,
    [manager_recognition] sets the flag and stores the note it is
    given, whatever the note is (the empty one included).  No call
    resets a flag: every achievement recognised before the call is
    recognised after it, so the flag of an achievement turns from
    false to true at most once; the rows of other achievements are
    left as they were. *)
Theorem manager_recognition_sets_flag_with_note db achievement_id note a :
  find (has_id achievement_id) (achievements db) = Some a ->
  exists a' db',
    manager_recognition db achievement_id note = Ok (a', db') /\
    find (has_id achievement_id) (achievements db') = Some a' /\
    Achievement.recognized_by_manager a' = true /\
    Achievement.recognition_note a' = Some note /\
    Forall2
      (fun old new =>
         Achievement.id new = Achievement.id old /\
         (Achievement.recognized_by_manager old = true ->
          Achievement.recognized_by_manager new = true) /\
         (Achievement.id old <> achievement_id -> new = old))
      (achievements db) (achievements db').
Proof.
  intro Hfind. unfold manager_recognition. rewrite Hfind.
  do 2 eexists. split; [reflexivity|].
  cbn [achievements with_achievements].
  assert (Ha : has_id achievement_id a = true).
  { apply find_some in Hfind. tauto. }
  split; [|split; [reflexivity|split; [reflexivity|]]].
  - rewrite find_hd_filter.
    rewrite filter_update_first_const by exact Ha.
    rewrite find_hd_filter in Hfind.
    destruct (filter (has_id achievement_id) (achievements db));
      [discriminate|reflexivity].
  - rewrite (update_first_const_found _ (Achievement.recognize note) a)
      by exact Hfind.
    apply Forall2_update_first.
    + intro x. repeat split; auto.
    + intros x Hx. apply String.eqb_eq in Hx.
      repeat split; auto. intro N. contradiction.
Qed.

Lemma manager_recognition_sets_flag_with_note_witness :
  exists a' db',
    manager_recognition Samples.db_award "a1" "Well done" = Ok (a', db') /\
    find (has_id "a1") (achievements db') = Some a' /\
    Achievement.recognized_by_manager a' = true /\
    Achievement.recognition_note a' = Some "Well done" /\
    Forall2
      (fun old new =>
         Achievement.id new = Achievement.id old /\
         (Achievement.recognized_by_manager old = true ->
          Achievement.recognized_by_manager new = true) /\
         (Achievement.id old <> "a1" -> new = old))
      (achievements Samples.db_award) (achievements db').
Proof.
  eapply manager_recognition_sets_flag_with_note. reflexivity.
Defined.

Lemma manager_recognition_not_found db achievement_id note :
  find (has_id achievement_id) (achievements db) = None ->
  manager_recognition db achievement_id note
    = Raise (ValueError "Achievement not found").
Proof.
  intro H. unfold manager_recognition. now rewrite H.
Qed.

End RecognitionEngine.


(** * Further properties of the services *)

(** ** Risk engine: normalisation, analysis and trend *)

Section RiskAnalysis.
Import BurnoutDetectionService.
Local Open Scope string_scope.

Ltac by_thresholds :=
  repeat match goal with
         | |- context [(?a <=? ?b)%Q] =>
             let E := fresh "E" in
             destruct (a <=? b)%Q eqn:E;
             [apply Qleb_le in E|apply Qleb_gt in E]
         | |- context [(?a >=? ?b)%Q] =>
             let E := fresh "E" in
             destruct (a >=? b)%Q eqn:E;
             [apply Qgeb_le in E|apply Qgeb_lt in E]
         end.

(** X1. Working more hours never lowers the hours factor. *)
Theorem _normalize_hours_monotone (h1 h2 : float) :
  h1 <= h2 -> _normalize_hours h1 <= _normalize_hours h2.
Proof.
  intro H. unfold _normalize_hours. by_thresholds; lra.
Qed.

Lemma _normalize_hours_monotone_witness :
  _normalize_hours 8.5 <= _normalize_hours 10.5.
Proof.
  apply _normalize_hours_monotone. lra.
Defined.

(** X2. More social interactions never raise the isolation factor. *)
Theorem _normalize_isolation_antitone (i1 i2 : float) :
  i1 <= i2 -> _normalize_isolation i2 <= _normalize_isolation i1.
Proof.
  intro H. unfold _normalize_isolation. by_thresholds; lra.
Qed.

Lemma _normalize_isolation_antitone_witness :
  _normalize_isolation 8 <= _normalize_isolation 2.
Proof.
  apply _normalize_isolation_antitone. lra.
Defined.

Lemma _normalize_hours_range h : 0 <= _normalize_hours h <= 1.
Proof. unfold _normalize_hours. by_thresholds; lra. Qed.

Lemma _normalize_isolation_range i : 0 <= _normalize_isolation i <= 1.
Proof. unfold _normalize_isolation. by_thresholds; lra. Qed.

(** X3. A sentiment in [-1, 1] gives a sentiment risk in [0, 1], the
    two ends swapped: 1 gives 0, -1 gives 1, and a better sentiment
    never gives a higher risk. *)
Theorem _normalize_sentiment_range (s1 s2 : float) :
  -1 <= s1 -> s1 <= s2 -> s2 <= 1 ->
  0 <= _normalize_sentiment (Some s2) /\
  _normalize_sentiment (Some s2) <= _normalize_sentiment (Some s1) /\
  _normalize_sentiment (Some s1) <= 1 /\
  _normalize_sentiment (Some 1) == 0 /\
  _normalize_sentiment (Some (-1)) == 1.
Proof.
  intros H1 H12 H2. unfold _normalize_sentiment.
  repeat split; try reflexivity;
    unfold Qdiv; change (/ 2.0) with (10 # 20); lra.
Qed.

Lemma _normalize_sentiment_range_witness :
  0 <= _normalize_sentiment (Some 0.5) /\
  _normalize_sentiment (Some 0.5) <= _normalize_sentiment (Some (-0.5)) /\
  _normalize_sentiment (Some (-0.5)) <= 1 /\
  _normalize_sentiment (Some 1) == 0 /\
  _normalize_sentiment (Some (-1)) == 1.
Proof.
  apply _normalize_sentiment_range; lra.
Defined.

Lemma py_sum_bounds (a b : Q) (xs : list Q) :
  Forall (fun x => a <= x <= b) xs ->
  len xs * a <= py_sum xs <= len xs * b.
Proof.
  induction 1 as [|x xs Hx _ IH].
  - change (len (@nil Q)) with 0. change (py_sum []) with 0. lra.
  - rewrite py_sum_cons, len_cons. nra.
Qed.

Lemma sql_avg_bounds (a b : Q) (xs : list Q) (m : Q) :
  Forall (fun x => a <= x <= b) xs ->
  sql_avg xs = Some m -> a <= m <= b.
Proof.
  intros Hall H. destruct xs as [|x xs]; [discriminate|].
  injection H as <-.
  pose proof (len_pos x xs) as Hpos.
  destruct (py_sum_bounds a b _ Hall) as [Hlo Hhi].
  split.
  - apply Qle_shift_div_l; [exact Hpos|]. rewrite Qmult_comm. exact Hlo.
  - apply Qle_shift_div_r; [exact Hpos|]. rewrite Qmult_comm. exact Hhi.
Qed.

Lemma or_float_bounds (a b d : Q) (x : option float) :
  a <= d <= b ->
  (forall v, x = Some v -> a <= v <= b) ->
  a <= or_float x d <= b.
Proof.
  intros Hd Hx. unfold or_float. destruct x as [v|]; [|exact Hd].
  destruct (Qeq_bool v 0); [exact Hd|]. now apply Hx.
Qed.

Lemma clamp_id (risk : Q) :
  0 <= risk <= 1 -> Qmin (Qmax risk 0.0) 1.0 = risk.
Proof.
  intros [H0 H1]. unfold Qmin, Qmax, GenericMinMax.gmin, GenericMinMax.gmax.
  destruct (risk ?= 0.0)%Q eqn:C0.
  - destruct (risk ?= 1.0)%Q eqn:C1; try reflexivity.
    apply Qgt_alt in C1. lra.
  - apply Qlt_alt in C0. lra.
  - destruct (risk ?= 1.0)%Q eqn:C1; try reflexivity.
    apply Qgt_alt in C1. lra.
Qed.

Lemma non_null_Forall {A : Type} (P : A -> Prop) (xs : list (option A)) :
  Forall (fun o => match o with Some a => P a | None => True end) xs ->
  Forall P (non_null xs).
Proof.
  induction 1 as [|[a|] xs Hx _ IH]; simpl; auto.
Qed.

(** X4. When every stored metric respects the bounds of the schema,
    the weighted sum of the five factors already lies in [0, 1]: the
    clamp of [calculate_risk_score] changes nothing and the score is
    the weighted sum itself. *)
Theorem risk_score_is_weighted_sum_within_schema db today employee_id days
    metrics :
  (forall m, In m (burnout_metrics db) -> within_schema m) ->
  _get_recent_metrics db today employee_id days = Some metrics ->
  0 <= weighted_risk (component_scores metrics) <= 1 /\
  calculate_risk_score db today employee_id days
    = weighted_risk (component_scores metrics).
Proof.
  intros Hvalid Hm.
  assert (Hrange : 0 <= weighted_risk (component_scores metrics) <= 1).
  { unfold _get_recent_metrics in Hm.
    set (rows := recent_rows db today employee_id days) in *.
    assert (Hrows : Forall within_schema rows).
    { apply Forall_forall. intros m Hin. apply Hvalid.
      unfold rows, recent_rows in Hin. apply filter_In in Hin. tauto. }
    destruct (sql_avg (map BurnoutMetric.hours_worked rows)); [|discriminate].
    injection Hm as <-.
    unfold weighted_risk, component_scores.
    cbn [hours_score cognitive_score isolation_score completion_score
         sentiment_score avg_hours_worked avg_cognitive_load
         avg_social_interactions avg_task_completion_rate avg_sentiment_score].
    match goal with
    | |- context [_normalize_hours ?h] =>
        pose proof (_normalize_hours_range h) as Hh;
        set (hs := _normalize_hours h) in *
    end.
    match goal with
    | |- context [_normalize_isolation ?i] =>
        pose proof (_normalize_isolation_range i) as Hi;
        set (iso := _normalize_isolation i) in *
    end.
    assert (Hc : 0 <= or_float (sql_avg (map BurnoutMetric.cognitive_load rows)) 0.5 <= 1).
    { apply or_float_bounds; [lra|]. intros v Hv.
      apply (sql_avg_bounds 0 1 _ v) in Hv; [exact Hv|].
      apply Forall_map. revert Hrows. apply Forall_impl.
      intros m Hmw. apply Hmw. }
    assert (Hr : 0 <= or_float (sql_avg (map BurnoutMetric.task_completion_rate rows)) 1.0 <= 1).
    { apply or_float_bounds; [lra|]. intros v Hv.
      apply (sql_avg_bounds 0 1 _ v) in Hv; [exact Hv|].
      apply Forall_map. revert Hrows. apply Forall_impl.
      intros m Hmw. apply Hmw. }
    assert (Hs : -1 <= or_float (sql_avg (non_null (map BurnoutMetric.sentiment_score rows))) 0.0 <= 1).
    { apply or_float_bounds; [lra|]. intros v Hv.
      apply (sql_avg_bounds (-1) 1 _ v) in Hv; [exact Hv|].
      apply non_null_Forall. apply Forall_map. revert Hrows.
      apply Forall_impl. intros m Hmw. apply Hmw. }
    set (c := or_float (sql_avg (map BurnoutMetric.cognitive_load rows)) 0.5) in *.
    set (r := or_float (sql_avg (map BurnoutMetric.task_completion_rate rows)) 1.0) in *.
    set (sn := or_float (sql_avg (non_null (map BurnoutMetric.sentiment_score rows))) 0.0) in *.
    unfold _normalize_sentiment, w_hours, w_cognitive, w_isolation,
      w_completion, w_sentiment, Qdiv.
    change (/ 2.0) with (10 # 20). lra. }
  split; [exact Hrange|].
  unfold calculate_risk_score. rewrite Hm. apply clamp_id. exact Hrange.
Qed.

Lemma risk_score_is_weighted_sum_within_schema_witness :
  exists metrics,
    _get_recent_metrics Samples.db_hot 10 "e1" 7 = Some metrics /\
    0 <= weighted_risk (component_scores metrics) <= 1 /\
    calculate_risk_score Samples.db_hot 10 "e1" 7
      = weighted_risk (component_scores metrics).
Proof.
  eexists. split; [reflexivity|].
  apply risk_score_is_weighted_sum_within_schema; [|reflexivity].
  intros m [<-|[]]. unfold within_schema. cbn. lra.
Defined.

(** X5. The interventions and the risk level agree in one direction
    only.  At level "low" nothing is triggered.  A block of new tasks
    and every alert to the manager, the one of severity "high"
    included, occur only at level "critical"; at level "high" no
    manager is ever alerted. *)
Theorem interventions_and_risk_level db today employee_id :
  let level := _get_risk_level (calculate_risk_score db today employee_id 7) in
  let actions := trigger_interventions db today employee_id in
  (level = "low" -> actions = []) /\
  (In (BlockNewTasks employee_id) actions -> level = "critical") /\
  (forall severity,
     In (AlertManager employee_id severity) actions -> level = "critical") /\
  (level = "high" ->
     forall someone severity, ~ In (AlertManager someone severity) actions).
Proof.
  cbv zeta. unfold trigger_interventions, _get_risk_level,
    _block_new_tasks, _alert_manager, _suggest_delegation, _insert_micro_breaks.
  set (risk := calculate_risk_score db today employee_id 7).
  by_thresholds; cbn [app In];
    repeat split; intros; try reflexivity; try discriminate; try lra;
    repeat match goal with
           | H : _ \/ _ |- _ => destruct H
           | H : False |- _ => destruct H
           | H : ~ _ |- _ => idtac
           end;
    try discriminate; try lra;
    try (intro Hin; cbn in Hin; intuition discriminate).
Qed.

(** X6. [get_burnout_analysis] always returns a response: the bound
    that the response schema puts on the score cannot fail.  The score
    is the 7-day risk score, the level is the level of that score, and
    the list of recommendations is never empty. *)
Theorem get_burnout_analysis_total db today employee_id :
  exists r,
    get_burnout_analysis db today employee_id = Ok r /\
    current_risk_score r = calculate_risk_score db today employee_id 7 /\
    0 <= current_risk_score r <= 1 /\
    risk_level r = _get_risk_level (current_risk_score r) /\
    trend r = _calculate_trend db today employee_id /\
    recommendations r <> [].
Proof.
  unfold get_burnout_analysis, new_BurnoutRiskResponse.
  set (risk := calculate_risk_score db today employee_id 7).
  assert (Hr : 0 <= risk <= 1).
  { unfold risk, calculate_risk_score.
    destruct (_get_recent_metrics db today employee_id 7).
    - apply clamp_range.
    - split; discriminate. }
  assert (H0 : (0 <=? risk)%Q = true) by (apply Qleb_le; tauto).
  assert (H1 : (risk <=? 1)%Q = true) by (apply Qleb_le; tauto).
  rewrite H0, H1. cbn [andb]. eexists. split; [reflexivity|].
  cbn [current_risk_score risk_level trend recommendations].
  repeat split; try tauto.
  unfold _generate_recommendations.
  match goal with
  | |- (match ?l with [] => _ | _ :: _ => _ end) <> [] =>
      destruct l; discriminate
  end.
Qed.

(** X7. When no metric of the employee is dated on or after
    [today - 7] (a metric dated after today would count: the window
    has no upper bound), the analysis is the neutral one: score 0.0,
    level "low", no factors, the single encouragement as
    recommendation, trend "stable". *)
Theorem get_burnout_analysis_without_metrics db today employee_id :
  (forall m, In m (burnout_metrics db) ->
     BurnoutMetric.employee_id m = employee_id ->
     (BurnoutMetric.date m < today - 7)%Z) ->
  get_burnout_analysis db today employee_id =
    Ok {| rr_employee_id := employee_id;
          current_risk_score := 0.0;
          risk_level := "low";
          factors := [];
          recommendations :=
            ["Keep up the good work! Maintain current work-life balance."];
          trend := "stable" |}.
Proof.
  intro H.
  assert (H7 : recent_rows db today employee_id 7 = [])
    by (apply recent_rows_none; exact H).
  assert (H3 : recent_rows db today employee_id 3 = []).
  { apply recent_rows_none. intros m Hin He.
    specialize (H m Hin He). lia. }
  unfold get_burnout_analysis, _calculate_trend, calculate_risk_score,
    _get_recent_metrics.
  rewrite H7, H3. reflexivity.
Qed.

Lemma get_burnout_analysis_without_metrics_witness :
  get_burnout_analysis Samples.db_stale 10 "e1" =
    Ok {| rr_employee_id := "e1";
          current_risk_score := 0.0;
          risk_level := "low";
          factors := [];
          recommendations :=
            ["Keep up the good work! Maintain current work-life balance."];
          trend := "stable" |}.
Proof.
  apply get_burnout_analysis_without_metrics.
  intros m [<-|[<-|[]]]; simpl; intro E; [discriminate E|lia].
Defined.

(** X8. The recommendations are never empty; the urgent notice comes
    first exactly when the score is at least 0.8; the encouragement is
    given only when no rule fired, and then it is the whole list. *)
Theorem _generate_recommendations_shape risk_score factors :
  let recs := _generate_recommendations risk_score factors in
  recs <> [] /\
  (0.8 <= risk_score <->
   hd_error recs =
     Some "URGENT: Immediate intervention required. Consider task redistribution.") /\
  (In "Keep up the good work! Maintain current work-life balance." recs ->
   recs = ["Keep up the good work! Maintain current work-life balance."]).
Proof.
  cbv zeta. unfold _generate_recommendations.
  destruct (risk_score >=? 0.8)%Q eqn:E;
    [apply Qgeb_le in E|apply Qgeb_lt in E];
  destruct (factors_get factors "overwork" 0 >? 0.6)%Q;
  destruct (factors_get factors "cognitive_overload" 0 >? 0.7)%Q;
  destruct (factors_get factors "social_isolation" 0 >? 0.6)%Q;
  destruct (factors_get factors "poor_completion" 0 >? 0.5)%Q;
  destruct (factors_get factors "negative_sentiment" 0 >? 0.6)%Q;
  cbn [app hd_error In];
  (split; [discriminate|]);
  (split; [split; intro H; try reflexivity; try assumption;
           try discriminate H; try lra|]);
  intro H; try reflexivity; exfalso;
  repeat (destruct H as [H|H]; [discriminate H|]); exact H.
Qed.

Lemma calculate_risk_score_same_rows db today employee_id days1 days2 :
  recent_rows db today employee_id days1 = recent_rows db today employee_id days2 ->
  calculate_risk_score db today employee_id days1
    = calculate_risk_score db today employee_id days2.
Proof.
  intro H. unfold calculate_risk_score, _get_recent_metrics.
  now rewrite H.
Qed.

(** X9. When no metric of the employee lies in the older part of the
    week (from seven to four days back), the 3-day and the 7-day score
    coincide and the trend is "stable"; an employee without metrics is
    the special case. *)
Theorem _calculate_trend_stable db today employee_id :
  (forall m, In m (burnout_metrics db) ->
     BurnoutMetric.employee_id m = employee_id ->
     (today - 7 <= BurnoutMetric.date m)%Z ->
     (today - 3 <= BurnoutMetric.date m)%Z) ->
  _calculate_trend db today employee_id = "stable".
Proof.
  intro H. unfold _calculate_trend.
  rewrite (calculate_risk_score_same_rows db today employee_id 3 7).
  - set (r := calculate_risk_score db today employee_id 7).
    assert (E1 : (r <? r - 0.1)%Q = false) by (apply Qltb_ge; lra).
    assert (E2 : (r >? r + 0.1)%Q = false).
    { unfold Qgtb. rewrite negb_false_iff. apply Qle_bool_iff. lra. }
    now rewrite E1, E2.
  - unfold recent_rows. apply filter_ext_in. intros m Hin.
    destruct (String.eqb_spec (BurnoutMetric.employee_id m) employee_id) as [E|E];
      [|reflexivity].
    cbn [andb]. specialize (H m Hin E).
    destruct (Z.leb_spec (today - 7) (BurnoutMetric.date m)) as [L7|L7];
      destruct (Z.leb_spec (today - 3) (BurnoutMetric.date m)) as [L3|L3];
      try reflexivity; lia.
Qed.

Lemma _calculate_trend_stable_witness :
  _calculate_trend Samples.db_hot 10 "e1" = "stable".
Proof.
  apply _calculate_trend_stable.
  intros m [<-|[]] _ _. simpl. lia.
Defined.

End RiskAnalysis.

(** ** Risk engine: the daily metric upsert, continued *)

Lemma update_first_length {A : Type} (p : A -> bool) (f : A -> A) (l : list A) :
  List.length (update_first p f l) = List.length l.
Proof.
  induction l as [|x l IH]; simpl; [reflexivity|].
  destruct (p x); simpl; congruence.
Qed.

Lemma update_first_same {A : Type} (p : A -> bool) (x : A) (l : list A) :
  find p l = Some x -> update_first p (fun _ => x) l = l.
Proof.
  induction l as [|y l IH]; simpl; [reflexivity|].
  destruct (p y); intro H.
  - now injection H as ->.
  - now rewrite IH.
Qed.

Lemma find_update_first {A : Type} (p : A -> bool) (f : A -> A) (x : A)
    (l : list A) :
  find p l = Some x -> p (f x) = true ->
  find p (update_first p f l) = Some (f x).
Proof.
  induction l as [|y l IH]; simpl; [discriminate|].
  destruct (p y) eqn:E; intros H Hf.
  - injection H as ->. simpl. now rewrite Hf.
  - simpl. rewrite E. now apply IH.
Qed.

Lemma filter_others_update_first {A : Type} (p : A -> bool) (f : A -> A)
    (l : list A) :
  (forall x, p x = true -> p (f x) = true) ->
  filter (fun x => negb (p x)) (update_first p f l)
    = filter (fun x => negb (p x)) l.
Proof.
  intro Hf. induction l as [|x l IH]; simpl; [reflexivity|].
  destruct (p x) eqn:E; simpl.
  - now rewrite (Hf x E).
  - rewrite E. simpl. now rewrite IH.
Qed.

Section MetricUpsert.
Import BurnoutDetectionService.
Local Open Scope string_scope.

(** The shape of what a call leaves behind: a database [db0] in which
    the row [m0] of the key carries the values of the call, and on top
    of it the risk score of [db0] written into that row. *)
Lemma update_daily_metric_shape db today employee_id hours breaks sentiment
    metric_date metric db' :
  update_daily_metric db today employee_id hours breaks sentiment metric_date
    = (metric, db') ->
  let key := same_day employee_id (default_date metric_date today) in
  exists m0 db0,
    key m0 = true /\
    find key (burnout_metrics db0) = Some m0 /\
    BurnoutMetric.hours_worked m0 = hours /\
    BurnoutMetric.breaks_taken m0 = breaks /\
    (forall v, sentiment = Some v -> BurnoutMetric.sentiment_score m0 = Some v) /\
    teams db0 = teams db /\ employees db0 = employees db /\
    tasks db0 = tasks db /\ achievements db0 = achievements db /\
    filter (fun m => negb (key m)) (burnout_metrics db0)
      = filter (fun m => negb (key m)) (burnout_metrics db) /\
    List.length (burnout_metrics db0) =
      match filter key (burnout_metrics db) with
      | [] => S (List.length (burnout_metrics db))
      | _ :: _ => List.length (burnout_metrics db)
      end /\
    metric =
      BurnoutMetric.set_risk_score
        (Some (calculate_risk_score db0 today employee_id 7)) m0 /\
    db' =
      with_burnout_metrics
        (update_first key
           (BurnoutMetric.set_risk_score
              (Some (calculate_risk_score db0 today employee_id 7)))
           (burnout_metrics db0)) db0.
Proof.
  unfold update_daily_metric.
  set (d := default_date metric_date today).
  set (key := same_day employee_id d).
  rewrite find_hd_filter.
  destruct (filter key (burnout_metrics db)) as [|x rest] eqn:F;
    cbn [hd_error].
  - set (m0 := BurnoutMetric.create employee_id d hours breaks sentiment).
    set (db0 := with_burnout_metrics (burnout_metrics db ++ [m0])%list db).
    intro H. injection H as <- <-. cbv zeta.
    assert (K0 : key m0 = true) by apply same_day_create.
    assert (F0 : find key (burnout_metrics db0) = Some m0).
    { rewrite find_hd_filter. unfold db0.
      cbn [burnout_metrics with_burnout_metrics].
      rewrite filter_app, F. cbn. now rewrite K0. }
    exists m0, db0. repeat split; try reflexivity; try assumption.
    + intros v ->. reflexivity.
    + unfold db0. cbn [burnout_metrics with_burnout_metrics].
      rewrite filter_app. cbn. rewrite K0. cbn. apply app_nil_r.
    + unfold db0. cbn [burnout_metrics with_burnout_metrics].
      rewrite length_app. cbn. lia.
    + change (burnout_metrics db ++ [m0])%list with (burnout_metrics db0).
      f_equal.
      now apply (update_first_const_found key (BurnoutMetric.set_risk_score _) m0).
  - assert (Kx : key x = true) by (eapply filter_head_true; eassumption).
    set (m0 := match sentiment with
               | Some _ => BurnoutMetric.set_sentiment_score sentiment _
               | None => _
               end).
    set (db0 := with_burnout_metrics
                  (update_first key (fun _ => m0) (burnout_metrics db)) db).
    intro H. injection H as <- <-. cbv zeta.
    assert (K0 : key m0 = true) by (unfold m0; destruct sentiment; exact Kx).
    assert (Fx : find key (burnout_metrics db) = Some x)
      by (rewrite find_hd_filter, F; reflexivity).
    assert (F0 : find key (burnout_metrics db0) = Some m0).
    { unfold db0. cbn [burnout_metrics with_burnout_metrics].
      apply (find_update_first key (fun _ => m0) x); assumption. }
    exists m0, db0. repeat split; try reflexivity; try assumption.
    + unfold m0. destruct sentiment; reflexivity.
    + unfold m0. destruct sentiment; reflexivity.
    + intros v ->. reflexivity.
    + unfold db0. cbn [burnout_metrics with_burnout_metrics].
      apply filter_others_update_first. intros; exact K0.
    + unfold db0. cbn [burnout_metrics with_burnout_metrics].
      apply update_first_length.
    + change (update_first key (fun _ => m0) (burnout_metrics db))
        with (burnout_metrics db0).
      f_equal.
      now apply (update_first_const_found key (BurnoutMetric.set_risk_score _) m0).
Qed.

(** X10. For an employee that exists, a call touches nothing but the
    row of its key: the rows of other employees and of other days stay
    as they are, the other tables stay as they are, and the table of
    metrics grows by one row when the key was new and keeps its size
    otherwise. *)
Theorem update_daily_metric_frame db today employee_id hours breaks sentiment
    metric_date metric db' :
  In employee_id (map Employee.id (employees db)) ->
  update_daily_metric db today employee_id hours breaks sentiment metric_date
    = (metric, db') ->
  let d := default_date metric_date today in
  filter (fun m => negb (same_day employee_id d m)) (burnout_metrics db')
    = filter (fun m => negb (same_day employee_id d m)) (burnout_metrics db) /\
  List.length (burnout_metrics db') =
    match metrics_on db employee_id d with
    | [] => S (List.length (burnout_metrics db))
    | _ :: _ => List.length (burnout_metrics db)
    end /\
  teams db' = teams db /\ employees db' = employees db /\
  tasks db' = tasks db /\ achievements db' = achievements db.
Proof.
  intros _ H. apply update_daily_metric_shape in H.
  destruct H as (m0 & db0 & K0 & F0 & _ & _ & _ & Ht & He & Hk & Ha & Hf
                 & Hl & _ & ->).
  cbn [burnout_metrics teams employees tasks achievements with_burnout_metrics].
  repeat split; try assumption.
  - rewrite filter_others_update_first; [exact Hf|].
    intros x Hx. exact Hx.
  - rewrite update_first_length. exact Hl.
Qed.

Lemma update_daily_metric_frame_witness :
  let out := update_daily_metric Samples.db_staff 10 "e1" 8 2 None None in
  filter (fun m => negb (same_day "e1" 10 m)) (burnout_metrics (snd out))
    = filter (fun m => negb (same_day "e1" 10 m))
        (burnout_metrics Samples.db_staff) /\
  List.length (burnout_metrics (snd out)) =
    match metrics_on Samples.db_staff "e1" 10 with
    | [] => S (List.length (burnout_metrics Samples.db_staff))
    | _ :: _ => List.length (burnout_metrics Samples.db_staff)
    end /\
  teams (snd out) = teams Samples.db_staff /\
  employees (snd out) = employees Samples.db_staff /\
  tasks (snd out) = tasks Samples.db_staff /\
  achievements (snd out) = achievements Samples.db_staff.
Proof.
  cbv zeta.
  apply (update_daily_metric_frame Samples.db_staff 10 "e1" 8 2 None None
           (fst (update_daily_metric Samples.db_staff 10 "e1" 8 2 None None))).
  - simpl. now left.
  - apply surjective_pairing.
Defined.

(** X11. The upsert is idempotent: for an employee that exists,
    repeating a call with the same arguments on the same day returns
    the same row and leaves the database as the first call left it. *)
Theorem update_daily_metric_idempotent db today employee_id hours breaks
    sentiment metric_date metric db' :
  In employee_id (map Employee.id (employees db)) ->
  update_daily_metric db today employee_id hours breaks sentiment metric_date
    = (metric, db') ->
  update_daily_metric db' today employee_id hours breaks sentiment metric_date
    = (metric, db').
Proof.
  intros _ H. apply update_daily_metric_shape in H.
  set (key := same_day employee_id (default_date metric_date today)) in *.
  destruct H as (m0 & db0 & K0 & F0 & Hh & Hb & Hs & _ & _ & _ & _ & _ & _
                 & -> & ->).
  set (r := calculate_risk_score db0 today employee_id 7).
  set (m1 := BurnoutMetric.set_risk_score (Some r) m0).
  set (rows1 := update_first key (BurnoutMetric.set_risk_score (Some r))
                  (burnout_metrics db0)).
  assert (F1 : find key rows1 = Some m1)
    by (apply find_update_first; assumption).
  assert (R1 : calculate_risk_score (with_burnout_metrics rows1 db0) today
                 employee_id 7 = r)
    by apply risk_ignores_risk_column.
  unfold update_daily_metric. fold key.
  cbn [burnout_metrics with_burnout_metrics]. rewrite F1.
  assert (E : match sentiment with
              | Some _ =>
                  BurnoutMetric.set_sentiment_score sentiment
                    (BurnoutMetric.set_breaks_taken breaks
                       (BurnoutMetric.set_hours_worked hours m1))
              | None =>
                  BurnoutMetric.set_breaks_taken breaks
                    (BurnoutMetric.set_hours_worked hours m1)
              end = m1).
  { unfold m1, BurnoutMetric.set_sentiment_score,
      BurnoutMetric.set_breaks_taken, BurnoutMetric.set_hours_worked,
      BurnoutMetric.set_risk_score.
    destruct sentiment as [v|]; cbn; rewrite <- Hh, <- Hb;
      [rewrite (Hs v eq_refl)|]; reflexivity. }
  cbv zeta. rewrite E.
  rewrite (update_first_same key m1 rows1 F1).
  change (with_burnout_metrics rows1 (with_burnout_metrics rows1 db0))
    with (with_burnout_metrics rows1 db0).
  rewrite R1.
  change (BurnoutMetric.set_risk_score (Some r) m1) with m1.
  cbn [burnout_metrics with_burnout_metrics].
  rewrite (update_first_same key m1 rows1 F1). reflexivity.
Qed.

Lemma update_daily_metric_idempotent_witness :
  let out := update_daily_metric Samples.db_staff 10 "e1" 9 1 None None in
  update_daily_metric (snd out) 10 "e1" 9 1 None None = out.
Proof.
  cbv zeta.
  rewrite (surjective_pairing
             (update_daily_metric Samples.db_staff 10 "e1" 9 1 None None)) at 2.
  apply (update_daily_metric_idempotent Samples.db_staff).
  - simpl. now left.
  - apply surjective_pairing.
Defined.

End MetricUpsert.

(** ** Priority engine: scores and stored priorities *)

Section PriorityScores.
Import TaskPrioritizationService.
Local Open Scope string_scope.

(** X12. The priority score lies in [0, 1] for every task, employee
    and instant. *)
Theorem calculate_priority_score_range now task employee :
  0 <= calculate_priority_score now task employee <= 1.
Proof.
  unfold calculate_priority_score. apply clamp_range.
Qed.

(** X13. The top score is reached: a task of urgency 5 that is past
    its deadline, has an estimate between 2 and 4 hours and at least
    one dependency, for an employee whose productivity at the current
    hour is 1, scores 1. *)
Theorem calculate_priority_score_maximum now task employee d effort :
  Task.urgency task = 5%Z ->
  Task.deadline task = Some d -> (d < now)%Z ->
  Task.estimated_effort task = Some effort -> 2 <= effort <= 4 ->
  Task.dependencies task <> [] ->
  _get_productivity_at_time employee now == 1 ->
  calculate_priority_score now task employee == 1.
Proof.
  intros Hu Hd Hlt He Hrange Hdeps Hp.
  unfold calculate_priority_score, sub_scores.
  cbn [urgency_norm deadline_norm effort_norm productivity_norm
       dependency_score].
  rewrite Hu, Hd, He.
  assert (Hdays : (days_between d now <? 0)%Z = true).
  { apply Z.ltb_lt. unfold days_between.
    apply Z.div_lt_upper_bound; lia. }
  unfold _normalize_deadline. rewrite Hdays.
  assert (Heff : _normalize_effort (Some effort) = 1.0).
  { destruct (_normalize_effort_cases effort) as (_ & _ & H & _).
    apply H. lra. }
  rewrite Heff.
  destruct (Task.dependencies task) as [|dep deps]; [congruence|].
  set (p := _get_productivity_at_time employee now) in *.
  assert (Hsum : w_urgency * (inject_Z 5 / 5.0) + w_deadline * 1.0
                 + w_effort * 1.0 + w_productivity * p
                 + w_dependencies * 1.0 == 1).
  { rewrite Hp. reflexivity. }
  rewrite Hsum. reflexivity.
Qed.

Lemma calculate_priority_score_maximum_witness :
  calculate_priority_score 90000
    (Task.mk "k1" "Release" (Some "e1") 5 (Some 100%Z) (Some 3) PENDING None
       ["k0"])
    (Employee.mk "e1" "Ada" None [("evening", 1.0)]) == 1.
Proof.
  apply (calculate_priority_score_maximum 90000 _ _ 100%Z 3);
    try reflexivity; try lia; try lra; discriminate.
Defined.

(** X14. A later deadline never gives a higher deadline score. *)
Theorem _normalize_deadline_antitone now (d1 d2 : datetime) :
  (d1 <= d2)%Z ->
  _normalize_deadline now (Some d2) <= _normalize_deadline now (Some d1).
Proof.
  intro H. unfold _normalize_deadline.
  assert (Hdays : (days_between d1 now <= days_between d2 now)%Z).
  { unfold days_between. apply Z.div_le_mono; lia. }
  repeat match goal with
         | |- context [(?a <? ?b)%Z] => destruct (Z.ltb_spec a b)
         | |- context [(?a =? ?b)%Z] => destruct (Z.eqb_spec a b)
         | |- context [(?a <=? ?b)%Z] => destruct (Z.leb_spec a b)
         end; try lia; lra.
Qed.

Lemma _normalize_deadline_antitone_witness :
  _normalize_deadline 0 (Some 900000%Z) <= _normalize_deadline 0 (Some 90000%Z).
Proof.
  apply _normalize_deadline_antitone. lia.
Defined.

(** X15. For an estimate that is absent or not negative the effort
    score lies between 0.4 and 1. *)
Theorem _normalize_effort_range (estimated_effort : option float) :
  (forall effort, estimated_effort = Some effort -> 0 <= effort) ->
  0.4 <= _normalize_effort estimated_effort <= 1.
Proof.
  intro H. destruct estimated_effort as [effort|]; [|cbn; lra].
  specialize (H effort eq_refl). unfold _normalize_effort.
  destruct (Qeq_bool effort 0); [lra|].
  destruct (2.0 <=? effort)%Q eqn:E2;
    [apply Qleb_le in E2|apply Qleb_gt in E2];
  (destruct (effort <=? 4.0)%Q eqn:E4;
    [apply Qleb_le in E4|apply Qleb_gt in E4]);
  (destruct (effort <? 2.0)%Q eqn:L2;
    [apply Qltb_lt in L2|apply Qltb_ge in L2]);
  (destruct (effort <=? 8.0)%Q eqn:E8;
    [apply Qleb_le in E8|apply Qleb_gt in E8]);
  cbn [andb]; unfold Qdiv; try change (/ 2.0) with (10 # 20);
  try change (/ 4.0) with (10 # 40); lra.
Qed.

Lemma _normalize_effort_range_witness :
  0.4 <= _normalize_effort (Some 6) <= 1.
Proof.
  apply _normalize_effort_range. intros effort H. injection H as <-. lra.
Defined.

End PriorityScores.

Section StoredPriorities.
Import TaskPrioritizationService.
Local Open Scope string_scope.

(** X16. [update_task_priority] fails exactly when the task or the
    employee is missing, always with the same [ValueError]. *)
Theorem update_task_priority_not_found db now task_id employee_id :
  (find (task_has_id task_id) (tasks db) = None \/
   find (employee_has_id employee_id) (employees db) = None) <->
  update_task_priority db now task_id employee_id
    = Raise (ValueError "Task or Employee not found").
Proof.
  unfold update_task_priority, task_has_id, employee_has_id.
  destruct (find _ (tasks db)) as [t|];
    destruct (find _ (employees db)) as [e|];
    split; intro H; try reflexivity; try discriminate;
    try (destruct H; discriminate); auto.
Qed.

(** X17. When both exist, [update_task_priority] returns the priority
    score of the task for that employee, a value of [0, 1], and stores
    it in the task: the row keeps all its other fields, rows with
    another id are left alone, and so are the other tables. *)
Theorem update_task_priority_stores_score db now task_id employee_id task
    employee :
  find (task_has_id task_id) (tasks db) = Some task ->
  find (employee_has_id employee_id) (employees db) = Some employee ->
  exists score db',
    update_task_priority db now task_id employee_id = Ok (score, db') /\
    score = calculate_priority_score now task employee /\
    0 <= score <= 1 /\
    find (task_has_id task_id) (tasks db')
      = Some (Task.set_priority_score (Some score) task) /\
    filter (fun t => negb (task_has_id task_id t)) (tasks db')
      = filter (fun t => negb (task_has_id task_id t)) (tasks db) /\
    List.length (tasks db') = List.length (tasks db) /\
    teams db' = teams db /\ employees db' = employees db /\
    burnout_metrics db' = burnout_metrics db /\
    achievements db' = achievements db.
Proof.
  intros Ht He. unfold update_task_priority.
  change (fun t => String.eqb (Task.id t) task_id) with (task_has_id task_id).
  change (fun e => String.eqb (Employee.id e) employee_id)
    with (employee_has_id employee_id).
  rewrite Ht, He. do 2 eexists. split; [reflexivity|].
  cbn [tasks teams employees burnout_metrics achievements with_tasks].
  assert (Hid : task_has_id task_id task = true).
  { apply find_some in Ht. tauto. }
  repeat split.
  - apply clamp_range.
  - apply clamp_range.
  - apply find_update_first; assumption.
  - apply filter_others_update_first. intros x Hx. exact Hx.
  - apply update_first_length.
Qed.

Lemma update_task_priority_stores_score_witness :
  exists score db',
    update_task_priority Samples.db_tasks 0 "k1" "e1" = Ok (score, db') /\
    score = calculate_priority_score 0
              (Task.mk "k1" "Write notes" (Some "e1") 3 None (Some 2) PENDING
                 None [])
              (Employee.mk "e1" "Ada" None [("morning", 0.9)]) /\
    0 <= score <= 1 /\
    find (task_has_id "k1") (tasks db')
      = Some (Task.set_priority_score (Some score)
                (Task.mk "k1" "Write notes" (Some "e1") 3 None (Some 2) PENDING
                   None [])) /\
    filter (fun t => negb (task_has_id "k1" t)) (tasks db')
      = filter (fun t => negb (task_has_id "k1" t)) (tasks Samples.db_tasks) /\
    List.length (tasks db') = List.length (tasks Samples.db_tasks) /\
    teams db' = teams Samples.db_tasks /\
    employees db' = employees Samples.db_tasks /\
    burnout_metrics db' = burnout_metrics Samples.db_tasks /\
    achievements db' = achievements Samples.db_tasks.
Proof.
  apply update_task_priority_stores_score; reflexivity.
Defined.

Lemma is_open_task_of_set_priority employee_id v t :
  is_open_task_of employee_id (Task.set_priority_score v t)
    = is_open_task_of employee_id t.
Proof. reflexivity. Qed.

Lemma calculate_priority_score_ignores_priority now v t employee :
  calculate_priority_score now (Task.set_priority_score v t) employee
    = calculate_priority_score now t employee.
Proof. reflexivity. Qed.

Lemma filter_map_same {A : Type} (p : A -> bool) (f : A -> A) (l : list A) :
  (forall x, p (f x) = p x) ->
  List.length (filter p (map f l)) = List.length (filter p l).
Proof.
  intro H. induction l as [|x l IH]; simpl; [reflexivity|].
  rewrite H. destruct (p x); simpl; congruence.
Qed.

(** X18. For an employee that exists, [recalculate_all_priorities]
    returns the number of the employee's pending and in-progress
    tasks; afterwards each of these tasks carries a score in [0, 1];
    every other task is left as it was, and no task is added or
    removed. *)
Theorem recalculate_all_priorities_effect db now employee_id employee :
  find (employee_has_id employee_id) (employees db) = Some employee ->
  exists db',
    recalculate_all_priorities db now employee_id
      = Ok (List.length (filter (is_open_task_of employee_id) (tasks db)), db') /\
    Forall (fun t => is_open_task_of employee_id t = true ->
                     exists p, Task.priority_score t = Some p /\ 0 <= p <= 1)
           (tasks db') /\
    filter (fun t => negb (is_open_task_of employee_id t)) (tasks db')
      = filter (fun t => negb (is_open_task_of employee_id t)) (tasks db) /\
    map Task.id (tasks db') = map Task.id (tasks db) /\
    employees db' = employees db.
Proof.
  intro He. unfold recalculate_all_priorities.
  change (fun e => String.eqb (Employee.id e) employee_id)
    with (employee_has_id employee_id).
  rewrite He. eexists. split; [reflexivity|].
  cbn [tasks employees with_tasks].
  split; [|split; [|split; [|reflexivity]]].
  - apply Forall_forall. intros t Hin Hopen.
    apply in_map_iff in Hin. destruct Hin as (old & <- & _).
    destruct (is_open_task_of employee_id old) eqn:E.
    + eexists. split; [reflexivity|]. apply clamp_range.
    + congruence.
  - induction (tasks db) as [|t l IH]; simpl; [reflexivity|].
    destruct (is_open_task_of employee_id t) eqn:E; simpl.
    + rewrite is_open_task_of_set_priority, E. simpl. exact IH.
    + rewrite E. simpl. now rewrite IH.
  - rewrite map_map. apply map_ext. intro t.
    destruct (is_open_task_of employee_id t); reflexivity.
Qed.

Lemma recalculate_all_priorities_effect_witness :
  exists db',
    recalculate_all_priorities Samples.db_tasks 0 "e1"
      = Ok (List.length (filter (is_open_task_of "e1") (tasks Samples.db_tasks)),
            db') /\
    Forall (fun t => is_open_task_of "e1" t = true ->
                     exists p, Task.priority_score t = Some p /\ 0 <= p <= 1)
           (tasks db') /\
    filter (fun t => negb (is_open_task_of "e1" t)) (tasks db')
      = filter (fun t => negb (is_open_task_of "e1" t)) (tasks Samples.db_tasks) /\
    map Task.id (tasks db') = map Task.id (tasks Samples.db_tasks) /\
    employees db' = employees Samples.db_tasks.
Proof.
  eapply recalculate_all_priorities_effect. reflexivity.
Defined.

(** X19. Recalculating at the same instant a second time changes
    nothing: the count and the database are those of the first run.
    An employee that does not exist gives the [ValueError] and no
    other error is possible. *)
Theorem recalculate_all_priorities_idempotent db now employee_id :
  match recalculate_all_priorities db now employee_id with
  | Ok (count, db') =>
      recalculate_all_priorities db' now employee_id = Ok (count, db')
  | Raise e =>
      e = ValueError "Employee not found" /\
      find (employee_has_id employee_id) (employees db) = None
  end.
Proof.
  unfold recalculate_all_priorities.
  change (fun e => String.eqb (Employee.id e) employee_id)
    with (employee_has_id employee_id).
  destruct (find (employee_has_id employee_id) (employees db)) as [employee|]
    eqn:He; [|split; reflexivity].
  cbn [tasks employees with_tasks]. rewrite He.
  f_equal. f_equal.
  - apply filter_map_same. intro t.
    destruct (is_open_task_of employee_id t) eqn:E; [|exact E].
    rewrite is_open_task_of_set_priority. exact E.
  - unfold with_tasks. cbn [teams employees burnout_metrics achievements].
    f_equal. rewrite map_map. apply map_ext. intro t.
    destruct (is_open_task_of employee_id t) eqn:E.
    + rewrite is_open_task_of_set_priority, E. reflexivity.
    + rewrite E. reflexivity.
Qed.

End StoredPriorities.

(** ** Priority engine: slots and schedules *)

Section Slots.
Import TaskPrioritizationService.
Local Open Scope string_scope.

Lemma hour_of_replace_hour (time hour day : Z) :
  (0 <= hour < 24)%Z ->
  hour_of (replace_hour time hour + day * 86400) = hour.
Proof.
  intro H. unfold hour_of, replace_hour.
  pose proof (Z.mod_pos_bound time 60 ltac:(lia)) as Hs.
  replace (time / 86400 * 86400 + hour * 3600 + time mod 60 + day * 86400)%Z
    with (hour * 3600 + time mod 60 + (time / 86400 + day) * 86400)%Z by ring.
  rewrite Z.mod_add by lia.
  rewrite Z.mod_small by lia.
  rewrite Z.add_comm, Z.div_add by lia.
  rewrite Z.div_small by lia. reflexivity.
Qed.

Lemma Qgtb_irrefl (x : Q) : (x >? x)%Q = false.
Proof.
  unfold Qgtb. rewrite negb_false_iff. apply Qle_bool_iff. lra.
Qed.

Lemma Qgtb_true (x y : Q) : (x >? y)%Q = true <-> y < x.
Proof.
  unfold Qgtb. rewrite negb_true_iff. apply Qleb_gt.
Qed.

Lemma Qgtb_false (x y : Q) : (x >? y)%Q = false <-> x <= y.
Proof.
  unfold Qgtb. rewrite negb_false_iff. apply Qle_bool_iff.
Qed.

Lemma slot_step_morning employee current mx best day hour :
  (6 <= hour < 12)%Z ->
  slot_step employee current (mx, best) (day, hour) =
    if (morning_of employee >? mx)%Q
    then (morning_of employee, (replace_hour current hour + day * 86400)%Z)
    else (mx, best).
Proof.
  intro H. unfold slot_step, _get_productivity_at_time.
  rewrite hour_of_replace_hour by lia.
  destruct (Z.leb_spec 6 hour); [|lia].
  destruct (Z.ltb_spec hour 12); [|lia]. reflexivity.
Qed.

Lemma slot_step_afternoon employee current mx best day hour :
  (12 <= hour < 18)%Z ->
  slot_step employee current (mx, best) (day, hour) =
    if (afternoon_of employee >? mx)%Q
    then (afternoon_of employee, (replace_hour current hour + day * 86400)%Z)
    else (mx, best).
Proof.
  intro H. unfold slot_step, _get_productivity_at_time.
  rewrite hour_of_replace_hour by lia.
  destruct (Z.leb_spec 6 hour); [|lia].
  destruct (Z.ltb_spec hour 12); [lia|].
  destruct (Z.leb_spec 12 hour); [|lia].
  destruct (Z.ltb_spec hour 18); [|lia]. reflexivity.
Qed.

(** The ten hours of one day: the first morning hour wins if the
    morning beats the running maximum, the first afternoon hour if the
    afternoon beats what is then the maximum. *)
Lemma day_scan employee current day mx best :
  fold_left (slot_step employee current)
    (map (fun hour => (day, hour)) (range 8 18)) (mx, best) =
  if (morning_of employee >? mx)%Q then
    if (afternoon_of employee >? morning_of employee)%Q
    then (afternoon_of employee, (replace_hour current 12 + day * 86400)%Z)
    else (morning_of employee, (replace_hour current 8 + day * 86400)%Z)
  else if (afternoon_of employee >? mx)%Q
       then (afternoon_of employee, (replace_hour current 12 + day * 86400)%Z)
       else (mx, best).
Proof.
  change (range 8 18) with [8; 9; 10; 11; 12; 13; 14; 15; 16; 17]%Z.
  cbn [map fold_left].
  destruct (morning_of employee >? mx)%Q eqn:Em;
    destruct (afternoon_of employee >? morning_of employee)%Q eqn:Eam;
    destruct (afternoon_of employee >? mx)%Q eqn:Eax;
    repeat first
      [ rewrite slot_step_morning by lia;
        rewrite ?Em, ?Qgtb_irrefl
      | rewrite slot_step_afternoon by lia;
        rewrite ?Eam, ?Eax, ?Qgtb_irrefl ];
    reflexivity.
Qed.

Lemma scanned_slots_by_day :
  scanned_slots =
    flat_map (fun day => map (fun hour => (day, hour)) (range 8 18))
      [0; 1; 2; 3; 4; 5; 6]%Z.
Proof. reflexivity. Qed.

(** Where the scan of seven days ends. *)
Lemma _find_optimal_slot_eq employee start_from duration_hours :
  _find_optimal_slot employee start_from duration_hours =
    if (morning_of employee >? 0)%Q then
      if (afternoon_of employee >? morning_of employee)%Q
      then replace_hour start_from 12
      else replace_hour start_from 8
    else if (afternoon_of employee >? 0)%Q
         then replace_hour start_from 12
         else start_from.
Proof.
  unfold _find_optimal_slot. rewrite scanned_slots_by_day.
  cbn [flat_map]. rewrite app_nil_r, !fold_left_app.
  set (m := morning_of employee). set (a := afternoon_of employee).
  rewrite (day_scan employee start_from 0). fold m a.
  change (0 * 86400)%Z with 0%Z. rewrite !Z.add_0_r.
  destruct (m >? 0)%Q eqn:Em.
  - destruct (a >? m)%Q eqn:Ea.
    + assert (Hma : (m >? a)%Q = false).
      { apply Qgtb_true in Ea. apply Qgtb_false. lra. }
      repeat (rewrite day_scan; fold m a; rewrite Hma, Qgtb_irrefl).
      reflexivity.
    + repeat (rewrite day_scan; fold m a; rewrite Qgtb_irrefl, Ea).
      reflexivity.
  - destruct (a >? 0)%Q eqn:Ea.
    + assert (Hma : (m >? a)%Q = false).
      { apply Qgtb_true in Ea. apply Qgtb_false in Em. apply Qgtb_false. lra. }
      repeat (rewrite day_scan; fold m a; rewrite Hma, Qgtb_irrefl).
      reflexivity.
    + repeat (rewrite day_scan; fold m a; rewrite Em, Ea).
      reflexivity.
Qed.

(** X20. The scan of seven days by ten hours never leaves the first
    day.  With [m] and [a] the morning and afternoon productivity of
    the employee: if [m > 0] and [a <= m] the slot is 08:00 of the day
    of [start_from]; if [a > 0] and [a > m] it is 12:00 of that day;
    if neither is positive it is [start_from] itself.  The slot keeps
    the seconds of [start_from], it does not depend on the duration,
    and it may lie before [start_from]. *)
Theorem _find_optimal_slot_first_day employee start_from duration_hours :
  let m := morning_of employee in
  let a := afternoon_of employee in
  (0 < m -> a <= m ->
   _find_optimal_slot employee start_from duration_hours
     = replace_hour start_from 8) /\
  (0 < a -> m < a ->
   _find_optimal_slot employee start_from duration_hours
     = replace_hour start_from 12) /\
  (m <= 0 -> a <= 0 ->
   _find_optimal_slot employee start_from duration_hours = start_from) /\
  (forall hour, (0 <= hour < 24)%Z ->
     (replace_hour start_from hour / 86400 = start_from / 86400)%Z /\
     hour_of (replace_hour start_from hour) = hour /\
     (replace_hour start_from hour mod 60 = start_from mod 60)%Z).
Proof.
  cbv zeta. rewrite _find_optimal_slot_eq.
  set (m := morning_of employee). set (a := afternoon_of employee).
  split; [|split; [|split]].
  - intros Hm Ha. apply Qgtb_true in Hm. apply Qgtb_false in Ha.
    now rewrite Hm, Ha.
  - intros Ha Hma.
    destruct (m >? 0)%Q.
    + apply Qgtb_true in Hma. now rewrite Hma.
    + apply Qgtb_true in Ha. now rewrite Ha.
  - intros Hm Ha. apply Qgtb_false in Hm, Ha. now rewrite Hm, Ha.
  - intros hour Hhour.
    pose proof (Z.mod_pos_bound start_from 60 ltac:(lia)) as Hs.
    split; [|split].
    + unfold replace_hour.
      replace (start_from / 86400 * 86400 + hour * 3600 + start_from mod 60)%Z
        with (hour * 3600 + start_from mod 60 + start_from / 86400 * 86400)%Z
        by ring.
      rewrite Z.div_add by lia. rewrite Z.div_small by lia. reflexivity.
    + pose proof (hour_of_replace_hour start_from hour 0 Hhour) as Hh.
      change (0 * 86400)%Z with 0%Z in Hh. rewrite Z.add_0_r in Hh.
      exact Hh.
    + unfold replace_hour.
      replace (start_from / 86400 * 86400 + hour * 3600 + start_from mod 60)%Z
        with (start_from mod 60 + (start_from / 86400 * 1440 + hour * 60) * 60)%Z
        by ring.
      rewrite Z.mod_add by lia. apply Z.mod_mod. lia.
Qed.

Lemma _find_optimal_slot_first_day_witness :
  _find_optimal_slot (Employee.mk "e1" "Ada" None [("morning", 0.9)])
    (3 * 86400 + 15 * 3600 + 42) 2.0
  = replace_hour (3 * 86400 + 15 * 3600 + 42) 8.
Proof.
  apply (proj1 (_find_optimal_slot_first_day
                  (Employee.mk "e1" "Ada" None [("morning", 0.9)])
                  (3 * 86400 + 15 * 3600 + 42) 2.0)).
  - vm_compute. reflexivity.
  - apply Qle_bool_iff. vm_compute. reflexivity.
Defined.

End Slots.

Section Schedules.
Import TaskPrioritizationService.
Local Open Scope string_scope.

Lemma insert_by_perm {A : Type} (leb : A -> A -> bool) (x : A) (l : list A) :
  Permutation (insert_by leb x l) (x :: l).
Proof.
  induction l as [|y l IH]; simpl; [reflexivity|].
  destruct (leb x y); [reflexivity|].
  rewrite IH. apply perm_swap.
Qed.

Lemma sort_by_perm {A : Type} (leb : A -> A -> bool) (l : list A) :
  Permutation (sort_by leb l) l.
Proof.
  induction l as [|x l IH]; simpl; [reflexivity|].
  rewrite insert_by_perm. now constructor.
Qed.

Lemma insert_by_sorted {A : Type} (leb : A -> A -> bool) (x : A) (l : list A) :
  (forall a b, leb a b = false -> leb b a = true) ->
  Sorted (fun a b => leb a b = true) l ->
  Sorted (fun a b => leb a b = true) (insert_by leb x l).
Proof.
  intros Htotal Hl. induction l as [|y l IH]; simpl.
  - repeat constructor.
  - destruct (leb x y) eqn:E.
    + constructor; [exact Hl|]. constructor. exact E.
    + inversion Hl as [|? ? Hs Hhd]; subst.
      constructor; [now apply IH|].
      destruct l as [|z l]; simpl.
      * constructor. now apply Htotal.
      * destruct (leb x z); constructor.
        -- now apply Htotal.
        -- now inversion Hhd.
Qed.

Lemma sort_by_sorted {A : Type} (leb : A -> A -> bool) (l : list A) :
  (forall a b, leb a b = false -> leb b a = true) ->
  Sorted (fun a b => leb a b = true) (sort_by leb l).
Proof.
  intro Htotal. induction l as [|x l IH]; simpl; [constructor|].
  now apply insert_by_sorted.
Qed.

Lemma schedule_leb_total a b :
  schedule_leb a b = false -> schedule_leb b a = true.
Proof.
  unfold schedule_leb. rewrite <- (Qcompare_antisym (- sc_score a)).
  destruct (- sc_score a ?= - sc_score b)%Q; simpl; try discriminate.
  - intro H. apply Z.leb_gt in H. apply Z.leb_le. lia.
  - reflexivity.
Qed.

Lemma schedule_leb_scores a b :
  schedule_leb a b = true -> sc_score b <= sc_score a.
Proof.
  unfold schedule_leb.
  destruct (- sc_score a ?= - sc_score b)%Q eqn:C; try discriminate; intros _.
  - apply Qeq_alt in C. lra.
  - apply Qlt_alt in C. lra.
Qed.

Lemma Sorted_map_scores {A : Type} (R : A -> A -> Prop) (f : A -> Q)
    (l : list A) :
  (forall a b, R a b -> f b <= f a) ->
  Sorted R l -> Sorted (fun x y => y <= x) (map f l).
Proof.
  intros HR. induction 1 as [|x l Hs IH Hhd]; simpl; constructor; auto.
  destruct Hhd; simpl; constructor. now apply HR.
Qed.

Variable timedelta_hours : float -> Z.

Lemma schedule_from_scores employee current_time l :
  map st_priority_score (schedule_from timedelta_hours employee current_time l)
    = map sc_score l.
Proof.
  revert current_time. induction l as [|item l IH]; intro t;
    cbn [schedule_from map st_priority_score]; [reflexivity|].
  now rewrite IH.
Qed.

Lemma schedule_from_ids employee current_time l :
  map st_task_id (schedule_from timedelta_hours employee current_time l)
    = map (fun item => Task.id (sc_task item)) l.
Proof.
  revert current_time. induction l as [|item l IH]; intro t;
    cbn [schedule_from map st_task_id]; [reflexivity|].
  now rewrite IH.
Qed.

Lemma schedule_from_entries employee (P : ScoredTask -> ScheduledTask -> Prop) :
  (forall item slot,
     P item
       {| st_task_id := Task.id (sc_task item);
          st_task_title := Task.title (sc_task item);
          st_priority_score := sc_score item;
          suggested_start := slot;
          suggested_end :=
            (slot + timedelta_hours
                      (or_float (Task.estimated_effort (sc_task item)) 2.0))%Z;
          st_urgency := Task.urgency (sc_task item);
          st_deadline := Task.deadline (sc_task item) |}) ->
  forall l current_time,
    Forall (fun s => exists item, In item l /\ P item s)
      (schedule_from timedelta_hours employee current_time l).
Proof.
  intros HP l. induction l as [|item l IH]; intro t; cbn [schedule_from];
    constructor.
  - exists item. split; [now left|apply HP].
  - specialize (IH (_find_optimal_slot employee t
                      (or_float (Task.estimated_effort (sc_task item)) 2.0)
                    + timedelta_hours
                        (or_float (Task.estimated_effort (sc_task item)) 2.0))%Z).
    revert IH. apply Forall_impl. intros s (it & Hin & Hs).
    exists it. split; [now right|exact Hs].
Qed.

(** X21. [suggest_scheduling] schedules every task of the batch once:
    the task ids of the schedule are a rearrangement of those of the
    input.  The entries come in order of non-increasing priority
    score.  Each entry carries the priority score of its task, a
    value of [0, 1], and ends one task duration (the estimate, or two
    hours when there is none) after it starts. *)
Theorem suggest_scheduling_order now tasks employee start_time :
  let schedule :=
    suggest_scheduling timedelta_hours now tasks employee start_time in
  Permutation (map st_task_id schedule) (map Task.id tasks) /\
  Sorted (fun x y => y <= x) (map st_priority_score schedule) /\
  Forall (fun s =>
            exists task,
              In task tasks /\
              st_task_id s = Task.id task /\
              st_priority_score s = calculate_priority_score now task employee /\
              0 <= st_priority_score s <= 1 /\
              suggested_end s =
                (suggested_start s
                 + timedelta_hours (or_float (Task.estimated_effort task) 2.0))%Z)
         schedule.
Proof.
  cbv zeta. unfold suggest_scheduling.
  set (start := match start_time with Some t => t | None => now end).
  set (scored := map _ tasks).
  split; [|split].
  - rewrite schedule_from_ids.
    rewrite (Permutation_map _ (sort_by_perm schedule_leb scored)).
    unfold scored. rewrite map_map. cbn [sc_task]. reflexivity.
  - rewrite schedule_from_scores.
    apply (Sorted_map_scores (fun a b => schedule_leb a b = true)).
    + apply schedule_leb_scores.
    + apply sort_by_sorted. apply schedule_leb_total.
  - pose proof (schedule_from_entries employee
                  (fun item s =>
                     st_task_id s = Task.id (sc_task item) /\
                     st_priority_score s = sc_score item /\
                     suggested_end s =
                       (suggested_start s
                        + timedelta_hours
                            (or_float (Task.estimated_effort (sc_task item)) 2.0))%Z))
      as H.
    specialize (H ltac:(intros; repeat split)
                  (sort_by schedule_leb scored) start).
    revert H. apply Forall_impl. intros s (item & Hin & Hid & Hsc & Hend).
    apply (Permutation_in _ (sort_by_perm schedule_leb scored)) in Hin.
    unfold scored in Hin. apply in_map_iff in Hin.
    destruct Hin as (task & <- & Htask). cbn [sc_task sc_score] in *.
    exists task. repeat split; try assumption.
    + rewrite Hsc. apply clamp_range.
    + rewrite Hsc. apply clamp_range.
Qed.

Lemma replace_hour_eight_day (t delta : Z) :
  (0 <= delta <= 57540)%Z ->
  (replace_hour t 8 / 86400 = t / 86400)%Z /\
  ((replace_hour t 8 + delta) / 86400 = t / 86400)%Z /\
  hour_of (replace_hour t 8) = 8%Z /\
  ((replace_hour t 8 mod 3600) / 60 = 0)%Z.
Proof.
  intro Hd. unfold hour_of, replace_hour.
  pose proof (Z.mod_pos_bound t 60 ltac:(lia)) as Hs.
  set (q := (t / 86400)%Z). set (sec := (t mod 60)%Z) in *.
  repeat split.
  - replace (q * 86400 + 8 * 3600 + sec)%Z
      with (8 * 3600 + sec + q * 86400)%Z by ring.
    rewrite Z.div_add by lia. rewrite Z.div_small by lia. reflexivity.
  - replace (q * 86400 + 8 * 3600 + sec + delta)%Z
      with (8 * 3600 + sec + delta + q * 86400)%Z by ring.
    rewrite Z.div_add by lia. rewrite Z.div_small by lia. reflexivity.
  - replace (q * 86400 + 8 * 3600 + sec)%Z
      with (8 * 3600 + sec + q * 86400)%Z by ring.
    rewrite Z.mod_add by lia. rewrite Z.mod_small by lia.
    replace (8 * 3600 + sec)%Z with (sec + 8 * 3600)%Z by ring.
    rewrite Z.div_add by lia. rewrite Z.div_small by lia. reflexivity.
  - replace (q * 86400 + 8 * 3600 + sec)%Z
      with (sec + (q * 24 + 8) * 3600)%Z by ring.
    rewrite Z.mod_add by lia. rewrite Z.mod_small by lia.
    apply Z.div_small. lia.
Qed.

Lemma schedule_from_at_eight employee :
  0 < morning_of employee ->
  afternoon_of employee <= morning_of employee ->
  forall l current_time,
    Forall (fun item =>
              (0 <= timedelta_hours
                      (or_float (Task.estimated_effort (sc_task item)) 2.0)
               <= 57540)%Z) l ->
    Forall (fun s =>
              (suggested_start s / 86400 = current_time / 86400)%Z /\
              hour_of (suggested_start s) = 8%Z /\
              ((suggested_start s mod 3600) / 60 = 0)%Z)
      (schedule_from timedelta_hours employee current_time l).
Proof.
  intros Hm Ha l. induction l as [|item l IH]; intros t Hall;
    cbn [schedule_from]; constructor.
  - rewrite _find_optimal_slot_eq.
    apply Qgtb_true in Hm. apply Qgtb_false in Ha. rewrite Hm, Ha.
    cbn [suggested_start].
    destruct (replace_hour_eight_day t 0 ltac:(lia)) as (H1 & _ & H3 & H4).
    auto.
  - inversion Hall as [|? ? Hitem Hrest]; subst.
    rewrite _find_optimal_slot_eq.
    pose proof Hm as Hm'. pose proof Ha as Ha'.
    apply Qgtb_true in Hm'. apply Qgtb_false in Ha'. rewrite Hm', Ha'.
    destruct (replace_hour_eight_day t _ Hitem) as (_ & H2 & _).
    rewrite <- H2. apply IH. exact Hrest.
Qed.

(** X22. The slots of a batch overlap.  For an employee whose morning
    productivity is positive and not below the afternoon one, and
    tasks that each last at most 15 hours 59 minutes, every task of
    the batch, not only the first, is suggested at 08:00 of the day of
    the start time; the cursor that is moved to the end of a task has
    no effect on the hour of the next one. *)
Theorem suggest_scheduling_all_at_eight now tasks employee start_time :
  0 < morning_of employee ->
  afternoon_of employee <= morning_of employee ->
  (forall task, In task tasks ->
     (0 <= timedelta_hours (or_float (Task.estimated_effort task) 2.0)
      <= 57540)%Z) ->
  let start := match start_time with Some t => t | None => now end in
  Forall (fun s =>
            (suggested_start s / 86400 = start / 86400)%Z /\
            hour_of (suggested_start s) = 8%Z /\
            ((suggested_start s mod 3600) / 60 = 0)%Z)
    (suggest_scheduling timedelta_hours now tasks employee start_time).
Proof.
  intros Hm Ha Hd. cbv zeta. unfold suggest_scheduling.
  apply schedule_from_at_eight; try assumption.
  apply Forall_forall. intros item Hin.
  apply (Permutation_in _ (sort_by_perm schedule_leb _)) in Hin.
  apply in_map_iff in Hin. destruct Hin as (task & <- & Htask).
  cbn [sc_task]. now apply Hd.
Qed.

End Schedules.

Lemma suggest_scheduling_all_at_eight_witness :
  Forall (fun s =>
            (TaskPrioritizationService.suggested_start s / 86400
             = (3 * 86400 + 15 * 3600 + 42) / 86400)%Z /\
            TaskPrioritizationService.hour_of
              (TaskPrioritizationService.suggested_start s) = 8%Z /\
            ((TaskPrioritizationService.suggested_start s mod 3600) / 60 = 0)%Z)
    (TaskPrioritizationService.suggest_scheduling Samples.whole_seconds 0
       Samples.batch Samples.morning_person
       (Some (3 * 86400 + 15 * 3600 + 42)%Z)).
Proof.
  apply (suggest_scheduling_all_at_eight Samples.whole_seconds 0 Samples.batch
           Samples.morning_person (Some (3 * 86400 + 15 * 3600 + 42)%Z)).
  - vm_compute. reflexivity.
  - apply Qle_bool_iff. vm_compute. reflexivity.
  - intros task [<-|[<-|[<-|[]]]]; vm_compute; split; discriminate.
Defined.

(** ** Equity engine: workloads, equity and assignment *)

Lemma py_sum_nonneg (xs : list Q) :
  Forall (fun x => 0 <= x) xs -> 0 <= py_sum xs.
Proof.
  induction 1 as [|x xs Hx _ IH].
  - change (py_sum []) with 0. lra.
  - rewrite py_sum_cons. lra.
Qed.

Lemma or_float_nonneg (x : option float) (d : Q) :
  0 <= d -> (forall v, x = Some v -> 0 <= v) -> 0 <= or_float x d.
Proof.
  intros Hd Hx. unfold or_float. destruct x as [v|]; [|exact Hd].
  destruct (Qeq_bool v 0); [exact Hd|]. now apply Hx.
Qed.

Lemma mapM_In_Ok {A B : Type} (f : A -> result B) (l : list A) (bs : list B) :
  mapM f l = Ok bs ->
  forall a b, In a l -> f a = Ok b -> In b bs.
Proof.
  revert bs. induction l as [|x l IH]; intros bs H a b Hin Hb; simpl in H.
  - destruct Hin.
  - destruct (f x) as [b0|] eqn:Ex; [|discriminate]. simpl in H.
    destruct (mapM f l) as [bs0|] eqn:El; [|discriminate]. simpl in H.
    injection H as <-. destruct Hin as [->|Hin].
    + left. congruence.
    + right. eapply IH; eauto.
Qed.

Lemma mapM_length {A B : Type} (f : A -> result B) (l : list A) (bs : list B) :
  mapM f l = Ok bs -> List.length bs = List.length l.
Proof.
  revert bs. induction l as [|x l IH]; intros bs H; simpl in H.
  - now injection H as <-.
  - destruct (f x) as [b0|]; [|discriminate]. simpl in H.
    destruct (mapM f l) as [bs0|]; [|discriminate]. simpl in H.
    injection H as <-. simpl. f_equal. now apply IH.
Qed.

Section EquityTotal.
Import WorkloadBalancingService.
Local Open Scope string_scope.

Lemma workload_global_nonneg db employee_id w :
  (forall t, In t (tasks db) -> non_negative_task t) ->
  _calculate_employee_workload db employee_id = Ok w ->
  0 <= global_score w.
Proof.
  intros Hnn H. unfold _calculate_employee_workload in H.
  destruct (find _ (employees db)) as [emp|]; [|discriminate].
  injection H as <-. cbn [global_score].
  set (mine := filter _ (tasks db)).
  assert (Hmine : forall t, In t mine -> non_negative_task t).
  { intros t Hin. apply Hnn. unfold mine in Hin. apply filter_In in Hin. tauto. }
  assert (Hc : 0 <= py_sum
                      (map (fun task => or_float (Task.estimated_effort task) 2.0
                                        * or_float (Task.priority_score task) 0.5)
                           mine)).
  { apply py_sum_nonneg, Forall_map, Forall_forall. intros t Hin.
    destruct (Hmine t Hin) as [He Hp].
    apply Qmult_le_0_compat; apply or_float_nonneg; auto; lra. }
  assert (Hk : 0 <= py_sum
                      (map (fun task => or_float (Task.priority_score task) 0.5)
                           (filter (fun task => (4 <=? Task.urgency task)%Z) mine))).
  { apply py_sum_nonneg, Forall_map, Forall_forall. intros t Hin.
    apply filter_In in Hin. destruct (Hmine t (proj1 Hin)) as [_ Hp].
    apply or_float_nonneg; auto; lra. }
  unfold alpha, beta. lra.
Qed.

Lemma recommendations_nonneg_ok (workloads : list Workload) :
  Forall (fun w => 0 <= global_score w) workloads ->
  exists recs,
    _generate_balancing_recommendations workloads = Ok recs /\ recs <> [].
Proof.
  intros Hall. unfold _generate_balancing_recommendations.
  destruct workloads as [|w ws]; [eexists; split; [reflexivity|discriminate]|].
  pose proof (sort_desc_length global_score (w :: ws)) as Hlen.
  destruct (sort_desc global_score (w :: ws)) as [|o rest] eqn:E;
    [discriminate|].
  set (u := last (o :: rest) o).
  assert (Hu : 0 <= global_score u).
  { assert (Hin : In u (w :: ws)).
    { apply (sort_desc_In global_score). rewrite E.
      apply last_In. discriminate. }
    rewrite Forall_forall in Hall. now apply Hall. }
  destruct (Qeq_bool (global_score u + 0.1) 0) eqn:D.
  - apply Qeq_bool_eq in D. exfalso. lra.
  - match goal with
    | |- exists recs, match ?l with [] => _ | _ :: _ => _ end = _ /\ _ =>
        destruct l; eexists; (split; [reflexivity|discriminate])
    end.
Qed.

Variable pow_half : float -> float.
Hypothesis pow_half_nonneg : forall x, 0 <= pow_half x.

Lemma equity_score_range (workloads : list Workload) :
  0 <= _calculate_equity_score pow_half workloads <= 1.
Proof.
  unfold _calculate_equity_score.
  destruct workloads as [|w ws]; [lra|].
  set (scores := map global_score (w :: ws)).
  remember (py_sum scores / len scores) as mean_score eqn:Emean. clear Emean.
  destruct (Qeq_bool mean_score 0); [lra|].
  remember (pow_half _) as std_dev eqn:Estd.
  assert (Hstd : 0 <= std_dev) by (rewrite Estd; apply pow_half_nonneg).
  clear Estd.
  assert (Hcv : 0 <= (if (mean_score >? 0)%Q then std_dev / mean_score else 0)).
  { destruct (mean_score >? 0)%Q eqn:G; [|lra].
    apply Qgtb_true in G. apply Qle_shift_div_l; [exact G|lra]. }
  remember (if (mean_score >? 0)%Q then std_dev / mean_score else 0) as cv
    eqn:Ecv. clear Ecv.
  split.
  - apply Qle_trans with 0.0; [lra|apply Q.le_max_l].
  - apply Q.max_lub; lra.
Qed.

(** X23. On a database whose tasks have no negative estimate and no
    negative priority score, [calculate_team_equity] raises nothing
    for a team that exists, whatever the loads are: it returns a
    response with an equity score in [0, 1], one workload entry per
    member and at least one recommendation.  (The square root is only
    required not to be negative.) *)
Theorem calculate_team_equity_total db team_id team :
  team_by_id db team_id = Some team ->
  (forall t, In t (tasks db) -> non_negative_task t) ->
  exists r,
    calculate_team_equity pow_half db team_id = Ok r /\
    0 <= equity_score r <= 1 /\
    List.length (member_workloads r)
      = List.length (team_members db team_id) /\
    recommendations r <> [].
Proof.
  intros Ht Hnn. unfold calculate_team_equity. rewrite Ht.
  destruct (team_members db team_id) as [|e es] eqn:Em.
  - eexists. split; [reflexivity|]. cbn. repeat split; try lra; discriminate.
  - cbv beta iota.
    destruct (current_workloads_ok db (e :: es)) as (ws & Hws & Hlen).
    { intros emp Hin. apply (team_members_stored db team_id).
      now rewrite Em. }
    rewrite Hws. cbn [bind].
    assert (Hglobal : Forall (fun w => 0 <= global_score w) ws).
    { apply Forall_forall. intros w Hw.
      destruct (mapM_In _ _ _ Hws w Hw) as (emp & _ & Hemp).
      exact (workload_global_nonneg db _ w Hnn Hemp). }
    destruct (recommendations_nonneg_ok ws Hglobal) as (recs & Hrecs & Hne).
    rewrite Hrecs. cbn [bind].
    pose proof (equity_score_range ws) as [H0 H1].
    unfold new_TeamEquityResponse.
    apply Qleb_le in H0, H1. rewrite H0, H1. cbn [andb].
    eexists. split; [reflexivity|].
    cbn [equity_score member_workloads recommendations].
    apply Qleb_le in H0, H1.
    repeat split; try assumption.
    rewrite length_map. exact Hlen.
Qed.

End EquityTotal.

Lemma calculate_team_equity_total_witness :
  exists r,
    WorkloadBalancingService.calculate_team_equity Samples.sqrt_approx
      Samples.db_flood "t1" = Ok r /\
    0 <= WorkloadBalancingService.equity_score r <= 1 /\
    List.length (WorkloadBalancingService.member_workloads r)
      = List.length (WorkloadBalancingService.team_members Samples.db_flood "t1") /\
    WorkloadBalancingService.recommendations r <> [].
Proof.
  apply (calculate_team_equity_total Samples.sqrt_approx)
    with (team := Team.mk "t1" "Platform").
  - intro x. unfold Samples.sqrt_approx, Qle. simpl.
    rewrite Z.mul_1_r. apply Z.sqrt_nonneg.
  - reflexivity.
  - intros t Hin. unfold Samples.db_flood in Hin. cbn [tasks] in Hin.
    apply in_map_iff in Hin. destruct Hin as (n & <- & _).
    split; intros v H; injection H as <-; lra.
Defined.

Lemma insert_asc_In {A : Type} (key : A -> Q) (x y : A) (l : list A) :
  In y (insert_asc key x l) -> y = x \/ In y l.
Proof.
  induction l as [|z l IH]; simpl.
  - intros [->|[]]. now left.
  - destruct (key x <=? key z); simpl.
    + intros [->|H]; [now left|now right].
    + intros [->|H]; [right; now left|].
      destruct (IH H) as [->|H']; [now left|right; now right].
Qed.

Lemma sort_asc_In {A : Type} (key : A -> Q) (y : A) (l : list A) :
  In y (sort_asc key l) -> In y l.
Proof.
  induction l as [|x l IH]; simpl; [tauto|].
  intro H. apply insert_asc_In in H. destruct H as [->|H]; auto.
Qed.

Lemma insert_asc_head_min {A : Type} (key : A -> Q) (x : A) (l : list A) :
  (forall h t y, l = h :: t -> In y l -> key h <= key y) ->
  forall b rest y,
    insert_asc key x l = b :: rest -> In y (x :: l) -> key b <= key y.
Proof.
  intros Hl b rest y. destruct l as [|h t]; simpl.
  - intros H [<-|[]]. injection H as <- _. lra.
  - destruct (key x <=? key h) eqn:E.
    + apply Qleb_le in E. intros H Hy. injection H as <- _.
      destruct Hy as [<-|Hy]; [lra|].
      pose proof (Hl h t y eq_refl Hy). lra.
    + apply Qleb_gt in E. intros H Hy. injection H as <- _.
      destruct Hy as [<-|Hy]; [lra|].
      exact (Hl h t y eq_refl Hy).
Qed.

Lemma insert_asc_In_conv {A : Type} (key : A -> Q) (x y : A) (l : list A) :
  y = x \/ In y l -> In y (insert_asc key x l).
Proof.
  induction l as [|z l IH]; simpl.
  - intros [->|[]]. now left.
  - destruct (key x <=? key z); simpl.
    + intros [->|H]; [now left|now right].
    + intros [->|[->|H]]; [right; apply IH; now left|now left|].
      right. apply IH. now right.
Qed.

Lemma sort_asc_In_conv {A : Type} (key : A -> Q) (y : A) (l : list A) :
  In y l -> In y (sort_asc key l).
Proof.
  induction l as [|x l IH]; simpl; [tauto|].
  intros [->|H]; apply insert_asc_In_conv; [now left|right; auto].
Qed.

Lemma sort_asc_head_min {A : Type} (key : A -> Q) (l : list A) :
  forall b rest y, sort_asc key l = b :: rest -> In y l -> key b <= key y.
Proof.
  induction l as [|x l IH]; intros b rest y; simpl; [discriminate|].
  intros H Hy.
  apply (insert_asc_head_min key x (sort_asc key l)) with (rest := rest).
  - intros h t z E Hz. apply (IH h t z E).
    apply (sort_asc_In key). exact Hz.
  - exact H.
  - destruct Hy as [->|Hy]; [now left|right].
    now apply sort_asc_In_conv.
Qed.

Lemma sort_asc_length {A : Type} (key : A -> Q) (l : list A) :
  List.length (sort_asc key l) = List.length l.
Proof.
  induction l as [|x l IH]; simpl; [reflexivity|].
  rewrite <- IH. generalize (sort_asc key l). intro s.
  induction s as [|y s IHs]; simpl; [reflexivity|].
  destruct (key x <=? key y); simpl; congruence.
Qed.

Section AssignmentChoice.
Import WorkloadBalancingService.
Local Open Scope string_scope.

Variable format_2f : float -> string.

Lemma workload_employee_id db employee_id w :
  _calculate_employee_workload db employee_id = Ok w ->
  WorkloadBalancingService.employee_id w = employee_id.
Proof.
  unfold _calculate_employee_workload.
  destruct (find _ (employees db)); [|discriminate].
  intro H. now injection H as <-.
Qed.

(** X24. [suggest_new_task_assignment] fails exactly when the team
    has no member (a team that does not exist included).  Otherwise it
    names a member of the team whose global workload score is not
    above that of any other member. *)
Theorem suggest_new_task_assignment_least_loaded db team_id task :
  (team_members db team_id = [] <->
   suggest_new_task_assignment format_2f db team_id task
     = Raise (ValueError "No employees in team")) /\
  (team_members db team_id <> [] ->
   exists chosen reason,
     suggest_new_task_assignment format_2f db team_id task
       = Ok (Employee.id chosen, reason) /\
     In chosen (team_members db team_id) /\
     forall other w_chosen w_other,
       In other (team_members db team_id) ->
       _calculate_employee_workload db (Employee.id chosen) = Ok w_chosen ->
       _calculate_employee_workload db (Employee.id other) = Ok w_other ->
       global_score w_chosen <= global_score w_other).
Proof.
  unfold suggest_new_task_assignment.
  destruct (team_members db team_id) as [|e [|e2 es]] eqn:Em.
  - split; [split; reflexivity|congruence].
  - split; [split; intro H; discriminate|]. intros _.
    exists e. eexists. split; [reflexivity|]. split; [now left|].
    intros other w1 w2 [<-|[]] H1 H2. rewrite H1 in H2.
    injection H2 as <-. lra.
  - cbv beta iota.
    destruct (current_workloads_ok db (e :: e2 :: es)) as (ws & Hws & Hlen).
    { intros emp Hin. apply (team_members_stored db team_id).
      now rewrite Em. }
    rewrite Hws. cbn [bind].
    pose proof (sort_asc_length global_score ws) as Hsl.
    destruct (sort_asc global_score ws) as [|best rest] eqn:Es.
    { rewrite Hlen in Hsl. discriminate Hsl. }
    split; [split; intro H; discriminate|]. intros _.
    assert (Hbest : In best ws).
    { apply (sort_asc_In global_score). rewrite Es. now left. }
    destruct (mapM_In _ _ _ Hws best Hbest) as (chosen & Hin & Hchosen).
    exists chosen. eexists. split.
    + rewrite (workload_employee_id db _ _ Hchosen). reflexivity.
    + split; [exact Hin|].
      intros other w1 w2 Hother H1 H2.
      rewrite Hchosen in H1. injection H1 as <-.
      apply (sort_asc_head_min global_score ws best rest w2 Es).
      exact (mapM_In_Ok _ _ _ Hws other w2 Hother H2).
Qed.

End AssignmentChoice.

Lemma suggest_new_task_assignment_least_loaded_witness :
  exists chosen reason,
    WorkloadBalancingService.suggest_new_task_assignment Samples.two_decimals
      Samples.db_flood "t1" (Samples.low_priority_task 13)
      = Ok (Employee.id chosen, reason) /\
    In chosen (WorkloadBalancingService.team_members Samples.db_flood "t1") /\
    forall other w_chosen w_other,
      In other (WorkloadBalancingService.team_members Samples.db_flood "t1") ->
      WorkloadBalancingService._calculate_employee_workload Samples.db_flood
        (Employee.id chosen) = Ok w_chosen ->
      WorkloadBalancingService._calculate_employee_workload Samples.db_flood
        (Employee.id other) = Ok w_other ->
      WorkloadBalancingService.global_score w_chosen
        <= WorkloadBalancingService.global_score w_other.
Proof.
  apply (proj2 (suggest_new_task_assignment_least_loaded Samples.two_decimals
                  Samples.db_flood "t1" (Samples.low_priority_task 13))).
  discriminate.
Defined.

Section Transferable.
Import WorkloadBalancingService.
Local Open Scope string_scope.

Lemma priority_order_refl a : priority_order a a = Eq.
Proof.
  destruct a as [x|]; cbn [priority_order]; [|reflexivity].
  apply Qeq_alt. reflexivity.
Qed.

Lemma deadline_order_refl a : deadline_order a a = Eq.
Proof.
  destruct a as [x|]; cbn [deadline_order]; [|reflexivity].
  apply Z.compare_refl.
Qed.

Lemma priority_order_trans a b c r :
  priority_order a b = r -> priority_order b c = r -> priority_order a c = r.
Proof.
  destruct a as [x|], b as [y|], c as [z|]; cbn [priority_order deadline_order];
    intros H1 H2;
    try congruence.
  destruct r.
  - apply Qeq_alt in H1, H2. apply Qeq_alt. now rewrite H1.
  - apply Qlt_alt in H1, H2. apply Qlt_alt. eapply Qlt_trans; eassumption.
  - apply Qgt_alt in H1, H2. apply Qgt_alt. eapply Qlt_trans; eassumption.
Qed.

Lemma priority_order_lt_eq a b c :
  priority_order a b = Lt -> priority_order b c = Eq -> priority_order a c = Lt.
Proof.
  destruct a as [x|], b as [y|], c as [z|]; cbn [priority_order deadline_order];
    intros H1 H2;
    try congruence.
  apply Qlt_alt in H1. apply Qeq_alt in H2. apply Qlt_alt.
  now rewrite <- H2.
Qed.

Lemma priority_order_eq_lt a b c :
  priority_order a b = Eq -> priority_order b c = Lt -> priority_order a c = Lt.
Proof.
  destruct a as [x|], b as [y|], c as [z|]; cbn [priority_order deadline_order];
    intros H1 H2;
    try congruence.
  apply Qeq_alt in H1. apply Qlt_alt in H2. apply Qlt_alt.
  now rewrite H1.
Qed.

Lemma deadline_order_lt_trans a b c :
  deadline_order a b = Lt -> deadline_order b c = Lt -> deadline_order a c = Lt.
Proof.
  destruct a as [x|], b as [y|], c as [z|]; cbn [priority_order deadline_order];
    intros H1 H2;
    try congruence.
  apply Z.compare_lt_iff. apply Z.lt_trans with y; [exact H2|exact H1].
Qed.

Lemma sorts_before_irrefl t : sorts_before t t = false.
Proof.
  unfold sorts_before. now rewrite priority_order_refl, deadline_order_refl.
Qed.

Lemma sorts_before_trans a b c :
  sorts_before a b = true -> sorts_before b c = true ->
  sorts_before a c = true.
Proof.
  unfold sorts_before.
  destruct (priority_order (Task.priority_score a) (Task.priority_score b))
    eqn:P1; try discriminate;
  destruct (priority_order (Task.priority_score b) (Task.priority_score c))
    eqn:P2; try discriminate.
  - rewrite (priority_order_trans _ _ _ Eq P1 P2).
    destruct (deadline_order (Task.deadline a) (Task.deadline b)) eqn:D1;
      try discriminate.
    destruct (deadline_order (Task.deadline b) (Task.deadline c)) eqn:D2;
      try discriminate.
    now rewrite (deadline_order_lt_trans _ _ _ D1 D2).
  - now rewrite (priority_order_eq_lt _ _ _ P1 P2).
  - now rewrite (priority_order_lt_eq _ _ _ P1 P2).
  - now rewrite (priority_order_trans _ _ _ Lt P1 P2).
Qed.

Lemma first_in_order_fold (l : list Task.t) :
  forall best,
    (forall b, best = Some b -> sorts_before b b = false) ->
    match fold_left
            (fun best t =>
               match best with
               | None => Some t
               | Some b => if sorts_before t b then Some t else Some b
               end) l best with
    | None => best = None /\ l = []
    | Some r =>
        (best = Some r \/ In r l) /\
        (forall b, best = Some b -> sorts_before b r = false) /\
        (forall c, In c l -> sorts_before c r = false)
    end.
Proof.
  induction l as [|t l IH]; intros best Hb; simpl.
  - destruct best as [b|]; [|split; reflexivity].
    split; [now left|]. split; [|intros c []].
    intros b' E. injection E as <-. apply sorts_before_irrefl.
  - set (best' := match best with
                  | None => Some t
                  | Some b => if sorts_before t b then Some t else Some b
                  end).
    specialize (IH best').
    destruct (fold_left _ l best') as [r|].
    + destruct IH as (Hin & Hbest & Hl).
      { intros b _. apply sorts_before_irrefl. }
      assert (Ht : sorts_before t r = false).
      { unfold best' in Hbest. destruct best as [b|].
        - destruct (sorts_before t b) eqn:E.
          + now apply Hbest.
          + destruct (sorts_before t r) eqn:Er; [|reflexivity].
            pose proof (Hbest b eq_refl) as Hbr.
            (* t before r, and r not after b: then t would be before b *)
            destruct (sorts_before r b) eqn:Erb.
            * rewrite (sorts_before_trans t r b Er Erb) in E. discriminate.
            * exfalso. clear - Er Erb Hbr E.
              unfold sorts_before in *.
              destruct (priority_order (Task.priority_score t)
                          (Task.priority_score r)) eqn:P1;
                try discriminate;
              destruct (priority_order (Task.priority_score r)
                          (Task.priority_score b)) eqn:P2;
                try discriminate;
              destruct (priority_order (Task.priority_score b)
                          (Task.priority_score r)) eqn:P3;
                try discriminate;
              destruct (priority_order (Task.priority_score t)
                          (Task.priority_score b)) eqn:P4;
                try discriminate;
              destruct (Task.priority_score t) as [x|],
                       (Task.priority_score r) as [y|],
                       (Task.priority_score b) as [z|];
                simpl in *; try discriminate;
              repeat match goal with
                     | H : (_ ?= _)%Q = Eq |- _ => apply Qeq_alt in H
                     | H : (_ ?= _)%Q = Lt |- _ => apply Qlt_alt in H
                     | H : (_ ?= _)%Q = Gt |- _ => apply Qgt_alt in H
                     end;
              try lra;
              destruct (Task.deadline t) as [dt|],
                       (Task.deadline r) as [dr|],
                       (Task.deadline b) as [db|];
                simpl in *; try discriminate;
              repeat match goal with
                     | H : context [(?u ?= ?v)%Z] |- _ =>
                         destruct (Z.compare_spec u v)
                     end;
              try discriminate; lia.
        - now apply Hbest. }
      split; [|split].
      * destruct Hin as [Hin|Hin]; [|right; now right].
        unfold best' in Hin. destruct best as [b|].
        -- destruct (sorts_before t b); injection Hin as <-;
             [right; now left|now left].
        -- injection Hin as <-. right. now left.
      * intros b ->. unfold best' in Hbest.
        destruct (sorts_before t b) eqn:E.
        -- destruct (sorts_before b r) eqn:Ebr; [|reflexivity].
           rewrite (sorts_before_trans t b r E Ebr) in Ht. discriminate.
        -- now apply Hbest.
      * intros c [<-|Hc]; [exact Ht|now apply Hl].
    + destruct IH as (Hnone & _).
      { intros b _. apply sorts_before_irrefl. }
      unfold best' in Hnone. destruct best as [b|];
        [destruct (sorts_before t b)|]; discriminate.
Qed.

(** X25. The search for a transferable task depends on the engine.
    On PostgreSQL it raises [ProgrammingError] whatever the rows are.
    On SQLite it returns nothing only when the employee has no pending
    task without dependencies; otherwise it returns a stored task that
    is assigned to the employee, pending and without dependencies, and
    no other such task comes before it in the order "priority
    ascending with the unscored tasks first, then deadline descending
    with the undated tasks last": when the task returned has a score,
    every such task has one, and none has a lower one. *)
Theorem _find_transferable_task_choice db from_employee_id to_employee_id :
  _find_transferable_task PostgreSQL db from_employee_id to_employee_id
    = Raise ProgrammingError /\
  exists found,
    _find_transferable_task SQLite db from_employee_id to_employee_id
      = Ok found /\
    match found with
    | None =>
        forall t, In t (tasks db) ->
          Task.assigned_to t = Some from_employee_id ->
          Task.status t = PENDING -> Task.dependencies t <> []
    | Some task =>
        In task (tasks db) /\
        opt_uuid_is (Task.assigned_to task) from_employee_id = true /\
        Task.status task = PENDING /\
        Task.dependencies task = [] /\
        forall other, In other (tasks db) ->
          opt_uuid_is (Task.assigned_to other) from_employee_id = true ->
          Task.status other = PENDING -> Task.dependencies other = [] ->
          sorts_before other task = false /\
          (forall p, Task.priority_score task = Some p ->
             exists q, Task.priority_score other = Some q /\ p <= q)
    end.
Proof.
  split; [reflexivity|].
  eexists. split; [reflexivity|].
  unfold first_in_order.
  set (candidate := fun t : Task.t =>
         opt_uuid_is (Task.assigned_to t) from_employee_id
         && TaskStatus_eqb (Task.status t) PENDING
         && match Task.dependencies t with
            | [] => true
            | _ :: _ => false
            end).
  assert (Hcand : forall t, candidate t = true <->
            opt_uuid_is (Task.assigned_to t) from_employee_id = true /\
            Task.status t = PENDING /\ Task.dependencies t = []).
  { intro t. unfold candidate. rewrite !andb_true_iff.
    destruct (Task.status t), (Task.dependencies t); simpl;
      intuition congruence. }
  pose proof (first_in_order_fold (filter candidate (tasks db)) None) as H.
  destruct (fold_left _ (filter candidate (tasks db)) None) as [task|].
  - destruct H as (Hin & _ & Hmin); [discriminate|].
    destruct Hin as [Hin|Hin]; [discriminate|].
    apply filter_In in Hin. destruct Hin as [Hin Hc].
    apply Hcand in Hc. destruct Hc as (Ha & Hs & Hd).
    repeat split; try assumption.
    + apply Hmin. apply filter_In. split; [assumption|]. apply Hcand. auto.
    + intros p Hp.
      assert (Hb : sorts_before other task = false).
      { apply Hmin. apply filter_In. split; [assumption|]. apply Hcand. auto. }
      unfold sorts_before in Hb. rewrite Hp in Hb.
      destruct (Task.priority_score other) as [q|]; cbn [priority_order] in Hb;
        [|discriminate Hb].
      exists q. split; [reflexivity|].
      destruct (q ?= p)%Q eqn:E; [| discriminate Hb |].
      * apply Qeq_alt in E. rewrite E. apply Qle_refl.
      * apply Qgt_alt in E. now apply Qlt_le_weak.
  - destruct H as (_ & Hl); [discriminate|].
    intros t Hin Ha Hs Hd.
    assert (Hc : In t (filter candidate (tasks db))).
    { apply filter_In. split; [exact Hin|]. apply Hcand.
      split; [|split; [exact Hs|exact Hd]].
      rewrite Ha. simpl. apply String.eqb_refl. }
    rewrite Hl in Hc. destruct Hc.
Qed.

End Transferable.

(** ** Equity engine: what a redistribution changes *)

Section RedistributionEffects.
Import WorkloadBalancingService.
Local Open Scope string_scope.

(** Without [auto_assign] an iteration that does not stop finds the
    state it started from: the loop goes on to the cap, with the same
    suggestion each time. *)
Lemma redistribute_loop_repeats fuel :
  forall engine emps db overloaded rest transfer suggestions,
    sorted_workloads db emps = Ok (overloaded :: rest) ->
    (global_score overloaded
       <? 1.5 * global_score (last (overloaded :: rest) overloaded))%Q = false ->
    _find_transferable_task engine db (employee_id overloaded)
      (employee_id (last (overloaded :: rest) overloaded))
      = Ok (Some transfer) ->
    (List.length suggestions < 10)%nat ->
    (10 <= List.length suggestions + fuel)%nat ->
    redistribute_loop engine fuel false emps db (overloaded :: rest)
      suggestions =
      Some (Ok ((suggestions ++
                 repeat
                   {| task_id := Task.id transfer;
                      task_title := Task.title transfer;
                      from_employee := employee_name overloaded;
                      to_employee :=
                        employee_name (last (overloaded :: rest) overloaded);
                      sg_priority_score := Task.priority_score transfer;
                      sg_estimated_effort := Task.estimated_effort transfer |}
                   (10 - List.length suggestions))%list, db)).
Proof.
  induction fuel as [|fuel IH];
    intros engine emps db overloaded rest transfer suggestions Hws Hbal Hfind
      Hlt Hfuel;
    [lia|].
  cbn [redistribute_loop]. rewrite Hbal, Hfind, Hws.
  set (sg := {| task_id := Task.id transfer |}).
  assert (Hlen : List.length (suggestions ++ [sg])%list
                 = S (List.length suggestions))
    by (rewrite length_app; simpl; lia).
  destruct (10 <=? List.length (suggestions ++ [sg])%list)%nat eqn:Hcap.
  - apply Nat.leb_le in Hcap.
    replace (10 - List.length suggestions)%nat with 1%nat by lia.
    reflexivity.
  - apply Nat.leb_gt in Hcap.
    rewrite (IH engine emps db overloaded rest transfer
               (suggestions ++ [sg])%list)
      by (try assumption; lia).
    fold sg. rewrite Hlen.
    replace (10 - List.length suggestions)%nat
      with (S (10 - S (List.length suggestions)))%nat by lia.
    cbn [repeat]. now rewrite <- app_assoc.
Qed.

(** X26. Without [auto_assign] the outcome for a team that exists is
    all or nothing, and the database is never touched.  On SQLite it
    is either no suggestion at all, or the cap of ten suggestions, all
    ten the same transfer of the same task.  On PostgreSQL it is
    either no suggestion at all, or the [ProgrammingError] of the
    rejected search. *)
Theorem redistribute_tasks_without_auto_assign engine db team_id team :
  team_by_id db team_id = Some team ->
  exists outcome,
    (forall fuel, (10 <= fuel)%nat ->
       redistribute_tasks engine fuel db team_id false = Some outcome) /\
    match engine with
    | SQLite =>
        exists suggestions,
          outcome = Ok (suggestions, db) /\
          (suggestions = [] \/ exists sg, suggestions = repeat sg 10)
    | PostgreSQL =>
        outcome = Ok ([], db) \/ outcome = Raise ProgrammingError
    end.
Proof.
  intro Ht. unfold redistribute_tasks. rewrite Ht.
  assert (Hnone : forall outcome : result (list Suggestion * DB),
            outcome = Ok ([], db) ->
            match engine with
            | SQLite =>
                exists suggestions,
                  outcome = Ok (suggestions, db) /\
                  (suggestions = [] \/ exists sg, suggestions = repeat sg 10)
            | PostgreSQL =>
                outcome = Ok ([], db) \/ outcome = Raise ProgrammingError
            end).
  { intros outcome ->. destruct engine; [now left|].
    exists []. split; [reflexivity|now left]. }
  destruct (List.length (team_members db team_id) <? 2)%nat eqn:Hsize.
  { eexists. split; [reflexivity|]. now apply Hnone. }
  apply Nat.ltb_ge in Hsize.
  destruct (sorted_workloads_ok db (team_members db team_id)
              (team_members_stored db team_id)) as (ws & Hws & Hlen).
  rewrite Hws.
  destruct ws as [|overloaded rest]; [simpl in Hlen; lia|].
  destruct (global_score overloaded
              <? 1.5 * global_score (last (overloaded :: rest) overloaded))%Q
    eqn:Hbal.
  { eexists. split; [|now apply Hnone].
    intros [|fuel] Hfuel; [lia|]. cbn [redistribute_loop].
    now rewrite Hbal. }
  destruct (_find_transferable_task engine db (employee_id overloaded)
              (employee_id (last (overloaded :: rest) overloaded)))
    as [[transfer|]|e] eqn:Hfind.
  - eexists. split.
    + intros fuel Hfuel.
      apply (redistribute_loop_repeats fuel engine _ db overloaded rest
               transfer []);
        try assumption; simpl; lia.
    + destruct engine; [discriminate Hfind|].
      eexists. split; [reflexivity|]. right. eexists. reflexivity.
  - eexists. split; [|now apply Hnone].
    intros [|fuel] Hfuel; [lia|]. cbn [redistribute_loop].
    now rewrite Hbal, Hfind.
  - exists (Raise e). split.
    + intros [|fuel] Hfuel; [lia|]. cbn [redistribute_loop].
      now rewrite Hbal, Hfind.
    + destruct engine; [|discriminate Hfind].
      right. cbn [_find_transferable_task] in Hfind. now injection Hfind as <-.
Qed.

Lemma redistribute_tasks_without_auto_assign_witness :
  exists outcome,
    (forall fuel, (10 <= fuel)%nat ->
       redistribute_tasks SQLite fuel Samples.db_flood "t1" false
         = Some outcome) /\
    exists suggestions,
      outcome = Ok (suggestions, Samples.db_flood) /\
      (suggestions = [] \/ exists sg, suggestions = repeat sg 10).
Proof.
  apply (redistribute_tasks_without_auto_assign SQLite Samples.db_flood "t1"
           (Team.mk "t1" "Platform")).
  reflexivity.
Defined.

(** Two task tables that differ at most in who the tasks are assigned
    to. *)
Lemma same_but_assignee_refl (l : list Task.t) :
  Forall2 (fun old new => new = Task.set_assigned_to (Task.assigned_to new) old)
    l l.
Proof.
  induction l as [|t l IH]; constructor; [|exact IH].
  destruct t. reflexivity.
Qed.

Lemma same_but_assignee_trans (l1 l2 l3 : list Task.t) :
  Forall2 (fun old new => new = Task.set_assigned_to (Task.assigned_to new) old)
    l1 l2 ->
  Forall2 (fun old new => new = Task.set_assigned_to (Task.assigned_to new) old)
    l2 l3 ->
  Forall2 (fun old new => new = Task.set_assigned_to (Task.assigned_to new) old)
    l1 l3.
Proof.
  intro H. revert l3. induction H as [|a b l1 l2 Hab _ IH]; intros l3 H23;
    inversion H23 as [|? c ? l3' Hbc Hrest]; subst; constructor.
  - rewrite Hbc at 1. rewrite Hab. reflexivity.
  - now apply IH.
Qed.

Lemma same_but_assignee_reassign db transfer to_employee_id :
  Forall2 (fun old new => new = Task.set_assigned_to (Task.assigned_to new) old)
    (tasks db) (tasks (reassign db transfer to_employee_id)).
Proof.
  unfold reassign. cbn [tasks with_tasks].
  induction (tasks db) as [|t l IH]; simpl; [constructor|].
  destruct (String.eqb (Task.id t) (Task.id transfer)).
  - constructor; [reflexivity|apply same_but_assignee_refl].
  - constructor; [destruct t; reflexivity|exact IH].
Qed.

Lemma redistribute_loop_frame engine fuel :
  forall auto_assign emps db ws suggestions suggestions' db',
    redistribute_loop engine fuel auto_assign emps db ws suggestions
      = Some (Ok (suggestions', db')) ->
    Forall2 (fun old new => new = Task.set_assigned_to (Task.assigned_to new) old)
      (tasks db) (tasks db') /\
    teams db' = teams db /\ employees db' = employees db /\
    burnout_metrics db' = burnout_metrics db /\
    achievements db' = achievements db /\
    exists added, suggestions' = (suggestions ++ added)%list.
Proof.
  induction fuel as [|fuel IH];
    intros auto_assign emps db ws suggestions suggestions' db' H;
    [discriminate H|].
  cbn [redistribute_loop] in H.
  destruct ws as [|overloaded rest]; [discriminate H|].
  assert (Hstop : forall s d, Some (Ok (suggestions, db)) = Some (Ok (s, d)) ->
            Forall2
              (fun old new => new = Task.set_assigned_to (Task.assigned_to new) old)
              (tasks db) (tasks d) /\
            teams d = teams db /\ employees d = employees db /\
            burnout_metrics d = burnout_metrics db /\
            achievements d = achievements db /\
            exists added, s = (suggestions ++ added)%list).
  { intros s d E. injection E as <- <-.
    repeat split; try apply same_but_assignee_refl.
    exists []. now rewrite app_nil_r. }
  destruct (global_score overloaded <? _)%Q; [now apply Hstop|].
  destruct (_find_transferable_task engine db _ _) as [[transfer|]|e];
    [|now apply Hstop|discriminate H].
  clear Hstop.
  set (sg := {| task_id := Task.id transfer |}) in *.
  set (db1 := if auto_assign
              then reassign db transfer
                     (employee_id (last (overloaded :: rest) overloaded))
              else db) in *.
  assert (Hstep : Forall2
            (fun old new => new = Task.set_assigned_to (Task.assigned_to new) old)
            (tasks db) (tasks db1) /\
          teams db1 = teams db /\ employees db1 = employees db /\
          burnout_metrics db1 = burnout_metrics db /\
          achievements db1 = achievements db).
  { unfold db1. destruct auto_assign.
    - repeat split. apply same_but_assignee_reassign.
    - repeat split. apply same_but_assignee_refl. }
  destruct Hstep as (Ht & Hteams & Hemps & Hmetrics & Hach).
  destruct (sorted_workloads db1 emps) as [ws'|e]; [|discriminate H].
  destruct (10 <=? List.length (suggestions ++ [sg])%list)%nat.
  - injection H as <- <-. repeat split; try assumption.
    now exists [sg].
  - apply IH in H.
    destruct H as (Ht' & Hteams' & Hemps' & Hmetrics' & Hach' & added & ->).
    repeat split; try congruence.
    + eapply same_but_assignee_trans; eassumption.
    + exists (sg :: added). now rewrite <- app_assoc.
Qed.

(** X27. Whatever the engine and the flag, a run of
    [redistribute_tasks] that returns changes nothing but
    the assignee of tasks: every task row keeps its place, its id,
    status, priority, estimate and all other fields, no row is added
    or removed, and teams, employees, metrics and achievements are
    left as they were. *)
Theorem redistribute_tasks_frame engine fuel db team_id auto_assign
    suggestions db' :
  redistribute_tasks engine fuel db team_id auto_assign
    = Some (Ok (suggestions, db')) ->
  Forall2 (fun old new => new = Task.set_assigned_to (Task.assigned_to new) old)
    (tasks db) (tasks db') /\
  teams db' = teams db /\ employees db' = employees db /\
  burnout_metrics db' = burnout_metrics db /\
  achievements db' = achievements db.
Proof.
  unfold redistribute_tasks.
  destruct (team_by_id db team_id); [|discriminate].
  destruct (List.length (team_members db team_id) <? 2)%nat.
  - intro H. injection H as <- <-.
    repeat split. apply same_but_assignee_refl.
  - destruct (sorted_workloads db (team_members db team_id)) as [ws|e];
      [|discriminate].
    intro H. apply redistribute_loop_frame in H.
    destruct H as (Ht & Hteams & Hemps & Hmetrics & Hach & _).
    repeat split; assumption.
Qed.

Lemma redistribute_tasks_frame_witness :
  let out := redistribute_tasks SQLite 10 Samples.db_flood "t1" true in
  exists suggestions db',
    out = Some (Ok (suggestions, db')) /\
    Forall2 (fun old new => new = Task.set_assigned_to (Task.assigned_to new) old)
      (tasks Samples.db_flood) (tasks db') /\
    teams db' = teams Samples.db_flood /\
    employees db' = employees Samples.db_flood /\
    burnout_metrics db' = burnout_metrics Samples.db_flood /\
    achievements db' = achievements Samples.db_flood.
Proof.
  cbv zeta. do 2 eexists. split; [vm_compute; reflexivity|].
  eapply (redistribute_tasks_frame SQLite 10 Samples.db_flood "t1" true).
  vm_compute. reflexivity.
Defined.

End RedistributionEffects.

(** ** Recognition engine: recording and recognising *)

Lemma find_app_none {A : Type} (p : A -> bool) (l l' : list A) :
  (forall x, In x l -> p x = false) -> find p (l ++ l') = find p l'.
Proof.
  induction l as [|x l IH]; intro H; simpl; [reflexivity|].
  rewrite (H x (or_introl eq_refl)). apply IH. intros y Hy. apply H. now right.
Qed.

Lemma update_first_app_none {A : Type} (p : A -> bool) (f : A -> A)
    (l l' : list A) :
  (forall x, In x l -> p x = false) ->
  update_first p f (l ++ l') = l ++ update_first p f l'.
Proof.
  induction l as [|x l IH]; intro H; simpl; [reflexivity|].
  rewrite (H x (or_introl eq_refl)). f_equal. apply IH.
  intros y Hy. apply H. now right.
Qed.

Lemma update_first_twice {A : Type} (p : A -> bool) (x y : A) (l : list A) :
  p x = true ->
  update_first p (fun _ => y) (update_first p (fun _ => x) l)
    = update_first p (fun _ => y) l.
Proof.
  intro Hx. induction l as [|z l IH]; simpl; [reflexivity|].
  destruct (p z) eqn:E; simpl.
  - now rewrite Hx.
  - rewrite E. now rewrite IH.
Qed.

Section Recognising.
Import RecognitionService.
Local Open Scope string_scope.

(** X28. Recording and recognising compose.  An achievement recorded
    for an employee that exists, under an id that is not in use,
    starts unrecognised and without a
    note, after the rows that were there, which are not touched; a
    recognition of that id then succeeds and turns exactly this row
    into the recognised one carrying the note. *)
Theorem track_then_recognize db new_id employee_id achievement_type
    description impact_score related_task_id note :
  In employee_id (map Employee.id (employees db)) ->
  (forall x, In x (achievements db) -> Achievement.id x <> new_id) ->
  let out := track_achievement db new_id employee_id achievement_type
               description impact_score related_task_id in
  Achievement.recognized_by_manager (fst out) = false /\
  Achievement.recognition_note (fst out) = None /\
  achievements (snd out) = (achievements db ++ [fst out])%list /\
  exists db2,
    manager_recognition (snd out) new_id note
      = Ok (Achievement.recognize note (fst out), db2) /\
    achievements db2
      = (achievements db ++ [Achievement.recognize note (fst out)])%list.
Proof.
  intros _ Hfresh. cbv zeta. unfold track_achievement. cbn [fst snd].
  set (a := Achievement.mk new_id employee_id achievement_type description
              impact_score false None related_task_id).
  cbn [achievements with_achievements].
  repeat split.
  assert (Hnone : forall x, In x (achievements db) -> has_id new_id x = false).
  { intros x Hx. unfold has_id. apply String.eqb_neq. now apply Hfresh. }
  assert (Ha : has_id new_id a = true) by apply String.eqb_refl.
  unfold manager_recognition. cbn [achievements with_achievements].
  rewrite (find_app_none _ _ _ Hnone). cbn [find]. rewrite Ha.
  eexists. split; [reflexivity|].
  cbn [achievements with_achievements].
  rewrite (update_first_app_none _ _ _ _ Hnone). cbn [update_first].
  now rewrite Ha.
Qed.

Lemma track_then_recognize_witness :
  let out := track_achievement Samples.db_award_staff "a2" "e1" LEARNING
               "Finished the course" 0.6 None in
  Achievement.recognized_by_manager (fst out) = false /\
  Achievement.recognition_note (fst out) = None /\
  achievements (snd out)
    = (achievements Samples.db_award_staff ++ [fst out])%list /\
  exists db2,
    manager_recognition (snd out) "a2" "Well done"
      = Ok (Achievement.recognize "Well done" (fst out), db2) /\
    achievements db2
      = (achievements Samples.db_award_staff
         ++ [Achievement.recognize "Well done" (fst out)])%list.
Proof.
  apply (track_then_recognize Samples.db_award_staff "a2" "e1" LEARNING
           "Finished the course" 0.6 None "Well done").
  - simpl. now left.
  - intros x [<-|[]]. discriminate.
Defined.

(** X29. The last note wins: recognising an achievement again gives
    what a single recognition with the later note gives, the same
    achievement and the same database; with the same note the second
    call changes nothing. *)
Theorem manager_recognition_last_note db achievement_id note1 note2 a1 db1 :
  manager_recognition db achievement_id note1 = Ok (a1, db1) ->
  manager_recognition db1 achievement_id note2
    = manager_recognition db achievement_id note2 /\
  manager_recognition db1 achievement_id note1 = Ok (a1, db1).
Proof.
  unfold manager_recognition.
  destruct (find (has_id achievement_id) (achievements db)) as [a|] eqn:Hfind;
    [|discriminate].
  intro H. injection H as <- <-.
  assert (Ha : has_id achievement_id a = true).
  { apply find_some in Hfind. tauto. }
  cbn [achievements with_achievements].
  assert (Hfind1 : find (has_id achievement_id)
                     (update_first (has_id achievement_id)
                        (fun _ => Achievement.recognize note1 a)
                        (achievements db))
                   = Some (Achievement.recognize note1 a)).
  { apply (find_update_first _ (fun _ => Achievement.recognize note1 a) a);
      assumption. }
  rewrite Hfind1. split.
  - rewrite update_first_twice by exact Ha. reflexivity.
  - rewrite update_first_twice by exact Ha. reflexivity.
Qed.

Lemma manager_recognition_last_note_witness :
  let a1 := Achievement.mk "a1" "e1" DELIVERABLE "Shipped the release" 0.8
              true (Some "Thanks") None in
  let db1 := with_achievements [a1] Samples.db_award in
  manager_recognition db1 "a1" "Well done"
    = manager_recognition Samples.db_award "a1" "Well done" /\
  manager_recognition db1 "a1" "Thanks" = Ok (a1, db1).
Proof.
  cbv zeta.
  apply (manager_recognition_last_note Samples.db_award "a1" "Thanks").
  reflexivity.
Defined.

End Recognising.

(** ** Risk engine: the delegation suggestion *)

Lemma firstn_incl {A : Type} (n : nat) (l : list A) (x : A) :
  In x (firstn n l) -> In x l.
Proof.
  intro H. rewrite <- (firstn_skipn n l). apply in_or_app. now left.
Qed.

Section Delegation.
Import BurnoutDetectionService.
Local Open Scope string_scope.

(** X30. The delegation suggestion is a single notice that names at
    most three tasks, and each title it names is the title of a
    stored task that is assigned to the employee, pending, and scored
    strictly below 0.6; a task without a score is never named. *)
Theorem _suggest_delegation_bounded db employee_id :
  exists titles,
    _suggest_delegation db employee_id = [SuggestDelegation titles] /\
    (List.length titles <= 3)%nat /\
    forall title, In title titles ->
      exists task p,
        In task (tasks db) /\ Task.title task = title /\
        Task.assigned_to task = Some employee_id /\
        Task.status task = PENDING /\
        Task.priority_score task = Some p /\ p < 0.6.
Proof.
  unfold _suggest_delegation. eexists. split; [reflexivity|]. split.
  - rewrite length_map. apply firstn_le_length.
  - intros title Hin. apply in_map_iff in Hin.
    destruct Hin as (task & <- & Hin).
    apply firstn_incl, sort_asc_In, filter_In in Hin.
    destruct Hin as (Hin & Hc).
    apply andb_true_iff in Hc. destruct Hc as (Hc & Hp).
    apply andb_true_iff in Hc. destruct Hc as (Ha & Hs).
    destruct (Task.priority_score task) as [p|] eqn:Ep; [|discriminate].
    exists task, p. repeat split; try assumption.
    + unfold opt_uuid_is in Ha.
      destruct (Task.assigned_to task) as [u|]; [|discriminate].
      apply String.eqb_eq in Ha. now subst.
    + destruct (Task.status task); simpl in Hs; congruence.
    + now apply Qltb_lt.
Qed.

End Delegation.
